(** * Experiment tracking and comparison in [rice_classification_binary.py]

    A shallow embedding of the experiment bookkeeping of the rice
    classification script: the two dataclasses [ExperimentSettings] and
    [Experiment], [train_model], [evaluate_experiment] and
    [compare_experiment], with [plot_experiment_metrics],
    [compare_train_test] and the data split of the same script, and of
    [stack_dict], [dataframe_to_dataset] and the label assignment of
    [fairness.py].

    Conventions of the embedding.
    - Python [str] is [string] (code points below 256), [int] is [Z] or
      [nat] (loop indices), [float] is [Q]: the code stores and forwards
      metric values and only computes bar positions with them.
    - A Python [dict] with string keys is an insertion-ordered association
      list with unique keys ([PyDict]); a [pandas.DataFrame] is the ordered
      list of its named columns.
    - Raised exceptions, the module-level variable [settings] and the calls
      made to the plotting and modelling libraries are explicit: a
      computation takes the globals and yields a result or an exception, the
      globals afterwards, and the trace of library calls it made.
    - A [keras.Model] is an object that [fit] changes in place: the
      globals hold the state of every model object, and an [Experiment]
      holds a reference to one of them.
    - [fit] and [evaluate] raise on labels that are not aligned with the
      features, and wherever else the modelling library rejects a request.
    - The plotting library requires the two axes of a curve to have the
      same length. [plot_experiment_metrics] raises the library's error
      otherwise. The calls of [compare_experiment] are recorded in the
      trace as requested; the statements about one of its calls that goes
      past a drawn curve take the histories to have one value per
      epoch. *)

From Stdlib Require Import String Ascii ZArith QArith Lia Bool Arith.
From Stdlib Require Import DecimalString DecimalNat List Permutation Sorted.
Import ListNotations.
Open Scope string_scope.
Open Scope list_scope.
Open Scope nat_scope.

(** ** Python values and exceptions *)

Inductive exn : Type :=
| KeyError (key : string)
| ValueError (msg : string)
| IndexError (msg : string)
| ZeroDivisionError (msg : string)
| FrozenInstanceError (msg : string).

(** [str(n)] for a non-negative [int]. *)
Definition str_of_nat (n : nat) : string :=
  NilEmpty.string_of_uint (Nat.to_uint n).

(** [l[i]] for a list and a non-negative index. *)
Definition list_getitem {A : Type} (l : list A) (i : nat) : exn + A :=
  match nth_error l i with
  | Some x => inr x
  | None => inl (IndexError "list index out of range")
  end.

(** [enumerate(l)] *)
Definition enumerate {A : Type} (l : list A) : list (nat * A) :=
  combine (seq 0 (length l)) l.

(** [s] occurs in [t] as a contiguous piece. *)
Definition occurs_in (s t : string) : Prop :=
  exists pre post : string, t = (pre ++ s ++ post)%string.

(** *** [repr] of a [str] and of a list of [str], as used by an f-string
    that formats a list. *)
Module PyRepr.

Definition quote1 : ascii := ascii_of_nat 39.
Definition quote2 : ascii := ascii_of_nat 34.
Definition backslash : ascii := ascii_of_nat 92.

Fixpoint has_char (c : ascii) (s : string) : bool :=
  match s with
  | EmptyString => false
  | String d r => Ascii.eqb c d || has_char c r
  end.

(** The quote [repr] wraps the string in: a single quote, unless the
    string has a single quote and no double quote. *)
Definition quote_for (s : string) : ascii :=
  if has_char quote1 s && negb (has_char quote2 s) then quote2 else quote1.

Definition hex_digit (n : nat) : ascii :=
  nth n (list_ascii_of_string "0123456789abcdef") "0"%char.

Definition hex_escape (c : ascii) : string :=
  let n := nat_of_ascii c in
  String backslash
    (String "x"%char
       (String (hex_digit (n / 16)) (String (hex_digit (n mod 16)) ""))).

(** Code points below 256 that [str.isprintable] accepts. *)
Definition printable (c : ascii) : bool :=
  let n := nat_of_ascii c in
  ((32 <=? n) && (n <? 127)) || ((161 <=? n) && negb (n =? 173)).

Definition repr_char (q c : ascii) : string :=
  if Ascii.eqb c q || Ascii.eqb c backslash then
    String backslash (String c "")
  else if Ascii.eqb c (ascii_of_nat 9) then String backslash "t"
  else if Ascii.eqb c (ascii_of_nat 10) then String backslash "n"
  else if Ascii.eqb c (ascii_of_nat 13) then String backslash "r"
  else if printable c then String c ""
  else hex_escape c.

Fixpoint repr_body (q : ascii) (s : string) : string :=
  match s with
  | EmptyString => ""
  | String c r => (repr_char q c ++ repr_body q r)%string
  end.

Definition repr_str (s : string) : string :=
  let q := quote_for s in
  String q (repr_body q s ++ String q "")%string.

Fixpoint join (sep : string) (l : list string) : string :=
  match l with
  | [] => ""
  | [x] => x
  | x :: r => (x ++ sep ++ join sep r)%string
  end.

Definition repr_list (l : list string) : string :=
  ("[" ++ join ", " (map repr_str l) ++ "]")%string.



End PyRepr.

(** *** Insertion-ordered dictionaries with string keys *)
Module PyDict.
Section Dict.
Context {V : Type}.

Definition t : Type := list (string * V).

Fixpoint get (d : t) (k : string) : option V :=
  match d with
  | [] => None
  | (k', v) :: r => if String.eqb k' k then Some v else get r k
  end.

(** [d[k] = v]: replaces in place, or appends a new key. *)
Fixpoint set (d : t) (k : string) (v : V) : t :=
  match d with
  | [] => [(k, v)]
  | (k', v') :: r =>
      if String.eqb k' k then (k', v) :: r else (k', v') :: set r k v
  end.

Definition keys (d : t) : list string := map fst d.

Definition contains (d : t) (k : string) : bool :=
  match get d k with Some _ => true | None => false end.

(** [d[k]] *)
Definition getitem (d : t) (k : string) : exn + V :=
  match get d k with Some v => inr v | None => inl (KeyError k) end.
End Dict.
Arguments t : clear implicits.
End PyDict.

(** *** Data frames *)

(** Columns in order, each a name and its values. *)
Definition DataFrame : Type := PyDict.t (list Q).

Definition df_columns (df : DataFrame) : list string := PyDict.keys df.

(** [name in df]: membership among the column names. *)
Definition df_contains (df : DataFrame) (name : string) : bool :=
  PyDict.contains df name.

(** [df[name]] *)
Definition df_getitem (df : DataFrame) (name : string) : exn + list Q :=
  PyDict.getitem df name.

(** [series.iloc[-1]] *)
Definition iloc_last (col : list Q) : exn + Q :=
  match rev col with
  | v :: _ => inr v
  | [] => inl (IndexError "single positional indexer is out-of-bounds")
  end.

Definition same_length (n : nat) (d : PyDict.t (list Q)) : bool :=
  forallb (fun kv => length (snd kv) =? n) d.

(** [pd.DataFrame(d)] for a dict of lists: the lists must agree in length. *)
Definition pd_DataFrame (d : PyDict.t (list Q)) : exn + DataFrame :=
  match d with
  | [] => inr []
  | (_, c) :: _ =>
      if same_length (length c) d then inr d
      else inl (ValueError "All arrays must be of the same length")
  end.

(** ** The settings dataclass *)

(** [ExperimentSettings], declared with [@dataclasses.dataclass()]. *)
Record ExperimentSettings : Type := {
  learning_rate : Q;
  number_epochs : Z;
  batch_size : Z;
  classification_threshold : Q;
  input_features : list string
}.

(** The generated constructor: it stores its five arguments; the class
    declares no [__post_init__]. *)
Definition ExperimentSettings_init (lr : Q) (ne bs : Z) (ct : Q)
    (feats : list string) : exn + ExperimentSettings :=
  inr {| learning_rate := lr; number_epochs := ne; batch_size := bs;
         classification_threshold := ct; input_features := feats |}.

(** An assignment [s.field = v]. *)
Inductive assignment : Type :=
| Set_learning_rate (v : Q)
| Set_number_epochs (v : Z)
| Set_batch_size (v : Z)
| Set_classification_threshold (v : Q)
| Set_input_features (v : list string).

Definition assigned (s : ExperimentSettings) (a : assignment)
    : ExperimentSettings :=
  match a with
  | Set_learning_rate v =>
      {| learning_rate := v; number_epochs := number_epochs s;
         batch_size := batch_size s;
         classification_threshold := classification_threshold s;
         input_features := input_features s |}
  | Set_number_epochs v =>
      {| learning_rate := learning_rate s; number_epochs := v;
         batch_size := batch_size s;
         classification_threshold := classification_threshold s;
         input_features := input_features s |}
  | Set_batch_size v =>
      {| learning_rate := learning_rate s; number_epochs := number_epochs s;
         batch_size := v;
         classification_threshold := classification_threshold s;
         input_features := input_features s |}
  | Set_classification_threshold v =>
      {| learning_rate := learning_rate s; number_epochs := number_epochs s;
         batch_size := batch_size s;
         classification_threshold := v;
         input_features := input_features s |}
  | Set_input_features v =>
      {| learning_rate := learning_rate s; number_epochs := number_epochs s;
         batch_size := batch_size s;
         classification_threshold := classification_threshold s;
         input_features := v |}
  end.

(** Attribute assignment on an instance of a dataclass: a class declared
    with [frozen=True] raises, any other stores the value. *)
Definition dataclass_setattr (frozen : bool) (s : ExperimentSettings)
    (a : assignment) : exn + ExperimentSettings :=
  if frozen then inl (FrozenInstanceError "cannot assign to field")
  else inr (assigned s a).

(** [@dataclasses.dataclass()] leaves [frozen] at its default. *)
Definition ExperimentSettings_frozen : bool := false.

Definition ExperimentSettings_setattr
    : ExperimentSettings -> assignment -> exn + ExperimentSettings :=
  dataclass_setattr ExperimentSettings_frozen.

(** The data model's conditions on a settings value. *)
Definition valid_settings (s : ExperimentSettings) : Prop :=
  (0 < learning_rate s)%Q /\ (0 < number_epochs s)%Z /\
  (0 < batch_size s)%Z /\
  (0 <= classification_threshold s)%Q /\
  (classification_threshold s <= 1)%Q /\
  input_features s <> [].

(** ** Library calls, globals and the computation monad *)

(** The feature dict handed to the model: name to column values. *)
Definition Features : Type := PyDict.t (list Q).

(** [Line2D([0], [0], label=.., marker=.., markersize=.., color=..)] *)
Record Line2D : Type := {
  l_label : string;
  l_marker : option string;
  l_markersize : option Z;
  l_color : string
}.

Inductive Event : Type :=
| plt_figure (width height : Z)
| fig_add_subplot (rows cols index : Z)
| ax_set_title (title : string)
| plt_plot (x : list Z) (y : list Q) (markevery : Z) (marker : string)
    (markersize : Z) (color : string)
| ax_set_xlabel (label : string)
| ax_set_ylabel (label : string)
| ax_grid
| ax_legend (handles : option (list Line2D))
| ax_bar (x heights : list Q) (width : Q) (label : string)
| ax_set_xticks (ticks : list Z) (labels : list string)
| ax_set_axisbelow (b : bool)
| model_fit_call (x : Features) (y : list Z) (batch epochs : Z)
| model_evaluate_call (x : Features) (y : list Z) (batch : Z).

(** The trainable parameters of a model. *)
Definition weights : Type := list Q.

(** The state of a [keras.Model] object: its weights, and the names of the
    metrics handed to [compile] (lines 160-166). *)
Record ModelObject : Type := {
  m_weights : weights;
  m_metrics : list string
}.

(** A reference to a [keras.Model] object. *)
Definition Model : Type := nat.

(** The module-level name [settings] that the functions read, and the
    model objects that their arguments refer to. *)
Record Globals : Type := {
  g_settings : ExperimentSettings;
  g_models : Model -> ModelObject
}.

Record Outcome (A : Type) : Type := mkOutcome {
  result : exn + A;
  globals_after : Globals;
  calls : list Event
}.
Arguments mkOutcome {A} _ _ _.
Arguments result {A} _.
Arguments globals_after {A} _.
Arguments calls {A} _.

Definition M (A : Type) : Type := Globals -> Outcome A.

Definition ret {A : Type} (x : A) : M A :=
  fun g => mkOutcome (inr x) g [].

Definition raise {A : Type} (e : exn) : M A :=
  fun g => mkOutcome (inl e) g [].

Definition bind {A B : Type} (c : M A) (f : A -> M B) : M B :=
  fun g =>
    let o := c g in
    match result o with
    | inl e => mkOutcome (inl e) (globals_after o) (calls o)
    | inr x =>
        let o' := f x (globals_after o) in
        mkOutcome (result o') (globals_after o') (calls o ++ calls o')
    end.

Definition lift {A : Type} (r : exn + A) : M A :=
  fun g => mkOutcome r g [].

Definition call (ev : Event) : M unit :=
  fun g => mkOutcome (inr tt) g [ev].

(** Reading the module-level name [settings]. *)
Definition global_settings : M ExperimentSettings :=
  fun g => mkOutcome (inr (g_settings g)) g [].

(** The statement [settings.field = v] at module level. *)
Definition assign_global_settings (a : assignment) : M unit :=
  fun g =>
    match ExperimentSettings_setattr (g_settings g) a with
    | inl e => mkOutcome (inl e) g []
    | inr s' =>
        mkOutcome (inr tt) {| g_settings := s'; g_models := g_models g |} []
    end.

(** The object a model reference points to. *)
Definition model_object (m : Model) : M ModelObject :=
  fun g => mkOutcome (inr (g_models g m)) g [].

(** The object behind [m] gets new weights; every other object stays as it
    is. *)
Definition store_weights (m : Model) (w : weights) : M unit :=
  fun g =>
    mkOutcome (inr tt)
      {| g_settings := g_settings g;
         g_models := fun m' =>
           if Nat.eqb m' m then
             {| m_weights := w; m_metrics := m_metrics (g_models g m) |}
           else g_models g m' |} [].

Declare Scope monad_scope.
Delimit Scope monad_scope with monad.
Notation "x <- c ;; k" := (bind c (fun x => k))
  (at level 61, c at next level, right associativity) : monad_scope.
Notation "c ;; k" := (bind c (fun _ => k))
  (at level 61, right associativity) : monad_scope.
Open Scope monad_scope.

(** [for x in l: body(x)] *)
Fixpoint for_each {A : Type} (l : list A) (body : A -> M unit) : M unit :=
  match l with
  | [] => ret tt
  | x :: r => body x ;; for_each r body
  end.

(** A loop that updates a local variable [acc]. *)
Fixpoint for_fold {A S : Type} (l : list A) (acc : S)
    (body : A -> S -> M S) : M S :=
  match l with
  | [] => ret acc
  | x :: r => acc' <- body x acc ;; for_fold r acc' body
  end.

(** [[f(x) for x in l]] *)
Fixpoint for_list {A B : Type} (l : list A) (f : A -> M B) : M (list B) :=
  match l with
  | [] => ret []
  | x :: r => y <- f x ;; ys <- for_list r f ;; ret (y :: ys)
  end.

(** [{name: np.array(dataset[name]) for name in names}] *)
Definition feature_dict (dataset : DataFrame) (names : list string)
    : M Features :=
  for_fold names ([] : Features)
    (fun feature_name acc =>
       col <- lift (df_getitem dataset feature_name) ;;
       ret (PyDict.set acc feature_name col)).

(** The dict that the comprehension builds when no lookup fails. *)
Definition feature_columns (dataset : DataFrame) (names : list string)
    : Features :=
  fold_left
    (fun acc feature_name =>
       match PyDict.get dataset feature_name with
       | Some col => PyDict.set acc feature_name col
       | None => acc
       end)
    names [].

(** ** The modelling library *)

(** What the modelling library computes: one training pass over the data
    in batches, the value of a named metric after a training pass or on an
    evaluation pass, the exception it raises for labels that are not
    aligned with the features, and the exception, if any, with which it
    rejects a request to [fit] (features, labels, batch size, epochs) or
    to [evaluate] (features, labels, batch size) for another reason. The
    numerics, the validation of requests and the exceptions are the
    library's and stay abstract. *)
Class Keras : Type := {
  train_pass : weights -> Features -> list Z -> Z -> weights;
  epoch_metric : weights -> string -> Features -> list Z -> Z -> Q;
  eval_metric : weights -> string -> Features -> list Z -> Z -> Q;
  misaligned : Features -> list Z -> exn;
  fit_rejects : Features -> list Z -> Z -> Z -> option exn;
  evaluate_rejects : Features -> list Z -> Z -> option exn
}.

(** The names under which a compiled model reports values to [fit] and
    [evaluate]: its loss, under the name [loss] (the model is compiled
    with a loss at lines 160-166), and the metrics handed to [compile]. *)
Definition reported_metrics (m : ModelObject) : list string :=
  "loss" :: m_metrics m.

(** Every feature column has one value for each label. *)
Definition aligned (x : Features) (y : list Z) : bool :=
  forallb (fun kv => length (snd kv) =? length y) x.

(** The [History] object that [fit] returns. *)
Record History : Type := {
  epoch : list Z;
  history : PyDict.t (list Q)
}.

(** [d.setdefault(k, []).append(v)] *)
Definition setdefault_append (d : PyDict.t (list Q)) (k : string) (v : Q)
    : PyDict.t (list Q) :=
  match PyDict.get d k with
  | Some l => PyDict.set d k (l ++ [v])
  | None => PyDict.set d k [v]
  end.

Definition on_epoch_end (h : History) (k : Z) (logs : PyDict.t Q) : History :=
  {| epoch := epoch h ++ [k];
     history :=
       fold_left (fun d kv => setdefault_append d (fst kv) (snd kv))
         logs (history h) |}.

Section Experiments.
Context {K : Keras}.

(** The per-epoch logs: one value for each reported name. *)
Definition epoch_logs (w : weights) (names : list string) (x : Features)
    (y : list Z) (bs : Z) : PyDict.t Q :=
  fold_left (fun d n => PyDict.set d n (epoch_metric w n x y bs)) names [].

(** Modelled from the spec: [keras.Model.fit], which belongs to the
    modelling library and is not part of the repository. "Runs
    [settings.number_epochs] passes over the data in batches of
    [settings.batch_size]; on each epoch, the metrics history mapping is
    appended with one value per instrumented metric"; the epochs recorded
    are the 0-based indices of the passes. [n] passes remain and [k] is
    the index of the next one. *)
Fixpoint fit_loop (n : nat) (k : Z) (names : list string) (x : Features)
    (y : list Z) (bs : Z) (w : weights) (h : History) : weights * History :=
  match n with
  | O => (w, h)
  | S n' =>
      let w' := train_pass w x y bs in
      fit_loop n' (k + 1)%Z names x y bs w'
        (on_epoch_end h k (epoch_logs w' names x y bs))
  end.

(** The weights and the history after all the passes of one [fit]. *)
Definition fit_result (obj : ModelObject) (x : Features) (y : list Z)
    (bs epochs_ : Z) : weights * History :=
  fit_loop (Z.to_nat epochs_) 0%Z (reported_metrics obj) x y bs
    (m_weights obj) {| epoch := []; history := [] |}.

(** Modelled from the spec: what the modelling library does with data it
    does not accept. "DataError (a required feature column is missing or
    labels misalign with features -- surfaced from the modeling
    collaborator, not recovered)": labels that are not aligned with the
    features end in the library's exception for them, and so does any
    other request that the library rejects. *)
Definition validate_request (x : Features) (y : list Z)
    (rejected : option exn) : M unit :=
  if negb (aligned x y) then raise (misaligned x y)
  else
    match rejected with
    | Some e => raise e
    | None => ret tt
    end.

(** Modelled from the spec: [model.fit(x=.., y=.., batch_size=..,
    epochs=..)] on the object behind [m]. The request is validated, the
    passes are run, the object keeps the trained weights, and the history
    is returned. *)
Definition model_fit (m : Model) (x : Features) (y : list Z)
    (bs epochs_ : Z) : M History :=
  obj <- model_object m ;;
  call (model_fit_call x y bs epochs_) ;;
  validate_request x y (fit_rejects x y bs epochs_) ;;
  let '(w', h) := fit_result obj x y bs epochs_ in
  store_weights m w' ;;
  ret h.

(** Modelled from the spec: [keras.Model.evaluate] with
    [return_dict=True], of the same library: "evaluate(features, labels,
    batch_size) -> scalar metric mapping", one scalar for each reported
    name, computed in inference mode "(no gradient update)": the object
    behind [m] is read and not written. *)
Definition model_evaluate (m : Model) (x : Features) (y : list Z)
    (bs : Z) : M (PyDict.t Q) :=
  obj <- model_object m ;;
  call (model_evaluate_call x y bs) ;;
  validate_request x y (evaluate_rejects x y bs) ;;
  ret (fold_left
         (fun d n => PyDict.set d n (eval_metric (m_weights obj) n x y bs))
         (reported_metrics obj) []).

(** ** The experiment dataclass *)

Record Experiment : Type := {
  name : string;
  settings : ExperimentSettings;
  model : Model;
  epochs : list Z;
  metrics_history : DataFrame
}.

Definition unknown_metric_message (metric_name : string)
    (columns : list string) : string :=
  ("Unknown metric " ++ metric_name ++ ": available metrics are"
     ++ " " ++ PyRepr.repr_list columns)%string.

(** [Experiment.get_final_metric_value] *)
Definition get_final_metric_value (self : Experiment)
    (metric_name : string) : exn + Q :=
  if negb (df_contains (metrics_history self) metric_name) then
    inl (ValueError
           (unknown_metric_message metric_name
              (df_columns (metrics_history self))))
  else
    match df_getitem (metrics_history self) metric_name with
    | inl e => inl e
    | inr col => iloc_last col
    end.

(** ** Training and evaluation *)

(** [train_model] *)
Definition train_model (experiment_name : string) (model_ : Model)
    (dataset : DataFrame) (labels : list Z)
    (settings_ : ExperimentSettings) : M Experiment :=
  features <- feature_dict dataset (input_features settings_) ;;
  history_ <- model_fit model_ features labels
                (batch_size settings_) (number_epochs settings_) ;;
  frame <- lift (pd_DataFrame (history history_)) ;;
  ret {| name := experiment_name;
         settings := settings_;
         model := model_;
         epochs := epoch history_;
         metrics_history := frame |}.

(** [evaluate_experiment]. The batch size is read from the module-level
    name [settings]. *)
Definition evaluate_experiment (experiment : Experiment)
    (test_dataset : DataFrame) (test_labels : list Z) : M (PyDict.t Q) :=
  features <- feature_dict test_dataset
                (input_features (settings experiment)) ;;
  settings_ <- global_settings ;;
  model_evaluate (model experiment) features test_labels
    (batch_size settings_).

(** ** Comparing experiments *)

Definition markers : list string := ["."; "*"; "d"; "s"; "p"; "x"].
Definition marker_size : Z := 10.

(** [[f'C{i}' for i in range(n)]] *)
Definition colors_for (n : nat) : list string :=
  map (fun i => ("C" ++ str_of_nat i)%string) (seq 0 n).

Definition not_available_message (metric run : string) : string :=
  ("Metric " ++ metric ++ " not available for experiment " ++ run)%string.

(** The check at the head of [compare_experiment]. *)
Definition check_metrics (experiments : list Experiment)
    (metrics_of_interest : list string) : M unit :=
  for_each metrics_of_interest (fun metric =>
    for_each experiments (fun experiment =>
      if negb (df_contains (metrics_history experiment) metric) then
        raise (ValueError (not_available_message metric (name experiment)))
      else ret tt)).

(** The loop drawing one training curve per metric and experiment. *)
Definition plot_train_metrics (experiments : list Experiment)
    (metrics_of_interest : list string) (colors : list string) : M unit :=
  for_each (enumerate metrics_of_interest) (fun im =>
    for_each (enumerate experiments) (fun je =>
      y <- lift (df_getitem (metrics_history (snd je)) (snd im)) ;;
      marker <- lift (list_getitem markers (fst im)) ;;
      color <- lift (list_getitem colors (fst je)) ;;
      call (plt_plot (epochs (snd je)) y 4 marker marker_size color))).

(** The two loops filling [legend_handles]. *)
Definition legend_handles (experiments : list Experiment)
    (metrics_of_interest : list string) (colors : list string)
    : M (list Line2D) :=
  handles <- for_fold (enumerate metrics_of_interest) []
    (fun im acc =>
       marker <- lift (list_getitem markers (fst im)) ;;
       ret (acc ++ [ {| l_label := snd im; l_marker := Some marker;
                        l_markersize := Some marker_size;
                        l_color := "k" |} ])) ;;
  for_fold (enumerate experiments) handles
    (fun ie acc =>
       color <- lift (list_getitem colors (fst ie)) ;;
       ret (acc ++ [ {| l_label := name (snd ie); l_marker := None;
                        l_markersize := None; l_color := color |} ])).

Definition arange (n : nat) : list Z := map Z.of_nat (seq 0 n).

(** The loop drawing one bar per experiment in each metric's group. *)
Definition plot_test_metrics (experiments : list Experiment)
    (metrics_of_interest : list string) (test_dataset : DataFrame)
    (test_labels : list Z) (n_bars : nat) (bar_width : Q) : M unit :=
  for_each (enumerate experiments) (fun ie =>
    test_metrics <- evaluate_experiment (snd ie) test_dataset test_labels ;;
    let offset :=
      (bar_width *
         (inject_Z (Z.of_nat (fst ie)) + (1 # 2)
            - inject_Z (Z.of_nat n_bars) / 2))%Q in
    let x :=
      map (fun k => (inject_Z k + offset)%Q)
        (arange (length metrics_of_interest)) in
    heights <- for_list metrics_of_interest
                 (fun metric => lift (PyDict.getitem test_metrics metric)) ;;
    call (ax_bar x heights bar_width (name (snd ie)))).

(** The second subplot of [compare_experiment]: the grouped bars of the
  test metrics. *)
Definition draw_test_subplot (experiments : list Experiment)
  (metrics_of_interest : list string) (test_dataset : DataFrame)
  (test_labels : list Z) : M unit :=
  call (fig_add_subplot 2 1 2) ;;
  let spacing := (3 # 10)%Q in
  let n_bars := length experiments in
  bar_width <-
    (if n_bars =? 0 then raise (ZeroDivisionError "float division by zero")
     else ret ((1 - spacing) / inject_Z (Z.of_nat n_bars))%Q) ;;
  plot_test_metrics experiments metrics_of_interest test_dataset
    test_labels n_bars bar_width ;;
  call (ax_set_xticks (arange (length metrics_of_interest))
          metrics_of_interest) ;;
  call (ax_set_title "Test metrics") ;;
  call (ax_set_ylabel "Metric value") ;;
  call (ax_set_axisbelow true) ;;
  call ax_grid ;;
  call (ax_legend None).

(** [compare_experiment] *)
Definition compare_experiment (experiments : list Experiment)
  (metrics_of_interest : list string) (test_dataset : DataFrame)
  (test_labels : list Z) : M unit :=
  check_metrics experiments metrics_of_interest ;;
  call (plt_figure 12 12) ;;
  call (fig_add_subplot 2 1 1) ;;
  let colors := colors_for (length experiments) in
  call (ax_set_title "Train metrics") ;;
  plot_train_metrics experiments metrics_of_interest colors ;;
  handles <- legend_handles experiments metrics_of_interest colors ;;
  call (ax_set_xlabel "Epoch") ;;
  call (ax_set_ylabel "Metric value") ;;
  call ax_grid ;;
  call (ax_legend (Some handles)) ;;
  draw_test_subplot experiments metrics_of_interest test_dataset
    test_labels.

End Experiments.

(** ** Observations on outcomes *)

Section Observations.
Context {K : Keras}.

(** Every metric of interest is a column of every experiment's history. *)
Definition all_available (experiments : list Experiment)
    (metrics_of_interest : list string) : bool :=
  forallb (fun metric =>
             forallb (fun e => df_contains (metrics_history e) metric)
               experiments)
    metrics_of_interest.

(** The marker of the metric at index [i], the colour of the experiment
    at index [j]. *)
Definition marker_at (i : nat) : string := nth i markers "".
Definition color_at (j : nat) : string := ("C" ++ str_of_nat j)%string.

Definition metric_handle (i : nat) (metric : string) : Line2D :=
  {| l_label := metric; l_marker := Some (marker_at i);
     l_markersize := Some marker_size; l_color := "k" |}.

Definition run_handle (j : nat) (e : Experiment) : Line2D :=
  {| l_label := name e; l_marker := None; l_markersize := None;
     l_color := color_at j |}.

(** The curves of these metrics can be drawn: each metric's column in the
    history has one value for each epoch of the experiment, as the plotting
    library requires of the two axes of a curve. *)
Definition plottable (e : Experiment) (metrics : list string) : Prop :=
  forall m col,
    In m metrics -> df_getitem (metrics_history e) m = inr col ->
    length col = length (epochs e).

(** The data of a test set that the model of a run can be evaluated on:
    a column for every input feature of the run, one label for each row of
    these columns, and a request that the modelling library accepts. *)
Definition evaluable (e : Experiment) (test_dataset : DataFrame)
    (test_labels : list Z) (g : Globals) : Prop :=
  (forall f, In f (input_features (settings e)) ->
             df_contains test_dataset f = true) /\
  (forall f col, In f (input_features (settings e)) ->
                 PyDict.get test_dataset f = Some col ->
                 length col = length test_labels) /\
  evaluate_rejects
    (feature_columns test_dataset (input_features (settings e)))
    test_labels (batch_size (g_settings g)) = None.
End Observations.

(** The (marker, colour) pairs of the curves drawn, in drawing order. *)
Definition plot_styles (evs : list Event) : list (string * string) :=
  flat_map (fun ev =>
              match ev with
              | plt_plot _ _ _ marker _ color => [(marker, color)]
              | _ => []
              end) evs.

(** The handles of the custom legends installed. *)
Definition legends (evs : list Event) : list Line2D :=
  flat_map (fun ev =>
              match ev with
              | ax_legend (Some handles) => handles
              | _ => []
              end) evs.

(** The number of evaluation passes requested from model handles. *)
Definition evaluations (evs : list Event) : nat :=
  List.length
    (filter (fun ev =>
               match ev with model_evaluate_call _ _ _ => true | _ => false end)
       evs).

(** The batch sizes of the evaluation passes requested. *)
Definition evaluation_batches (evs : list Event) : list Z :=
  flat_map (fun ev =>
              match ev with
              | model_evaluate_call _ _ bs => [bs]
              | _ => []
              end) evs.

(** The training passes requested. *)
Definition fits (evs : list Event) : nat :=
  List.length
    (filter (fun ev =>
               match ev with model_fit_call _ _ _ _ => true | _ => false end)
       evs).

(** A computation that draws no curve and installs no custom legend. *)
Definition draws_nothing {A : Type} (c : M A) : Prop :=
  forall g, plot_styles (calls (c g)) = [] /\ legends (calls (c g)) = [].

(** ** Concrete values used in examples *)

(** A stand-in for the modelling library: the weights hold one entry for
    each training pass done; a training metric reports their number, an
    evaluation metric reports the batch size it was called with; a request
    with a batch size that is not positive is rejected. *)
Definition counting_keras : Keras := {|
  train_pass := fun w _ _ _ => (1 :: w)%Q;
  epoch_metric := fun w _ _ _ _ => inject_Z (Z.of_nat (length w));
  eval_metric := fun _ _ _ _ bs => inject_Z bs;
  misaligned := fun _ _ => ValueError "Data cardinality is ambiguous";
  fit_rejects := fun _ _ bs _ =>
    if (bs <=? 0)%Z then Some (ValueError "batch_size must be positive")
    else None;
  evaluate_rejects := fun _ _ bs =>
    if (bs <=? 0)%Z then Some (ValueError "batch_size must be positive")
    else None
|}.

#[global] Existing Instance counting_keras.

(** The settings of the script's baseline experiment. *)
Definition baseline_settings : ExperimentSettings := {|
  learning_rate := 1 # 1000;
  number_epochs := 60;
  batch_size := 100;
  classification_threshold := 35 # 100;
  input_features := ["Eccentricity"; "Major_Axis_Length"; "Area"]
|}.

(** The model of the examples: the first object created, untrained,
    compiled with the metric [accuracy]. *)
Definition accuracy_model : Model := 0.

Definition script_globals : Globals := {|
  g_settings := baseline_settings;
  g_models := fun _ => {| m_weights := []; m_metrics := ["accuracy"] |}
|}.

(** Settings of a second experiment, trained with another batch size. *)
Definition small_batch_settings : ExperimentSettings := {|
  learning_rate := 1 # 1000;
  number_epochs := 3;
  batch_size := 32;
  classification_threshold := 1 # 2;
  input_features := ["Area"]
|}.

Definition sample_dataset : DataFrame :=
  [ ("Area", [1 # 2; 3 # 2; 5 # 2]);
    ("Eccentricity", [1 # 4; 1 # 8; 1 # 16]);
    ("Major_Axis_Length", [2 # 1; 3 # 1; 4 # 1]) ]%Q.

Definition sample_labels : list Z := [0; 1; 1]%Z.

Definition small_batch_run : Experiment := {|
  name := "small_batch";
  settings := small_batch_settings;
  model := accuracy_model;
  epochs := [0; 1; 2]%Z;
  metrics_history :=
    [ ("accuracy", [1 # 2; 2 # 3; 3 # 4]); ("loss", [1; 1 # 2; 1 # 4]) ]%Q
|}.

(** ** More observations on traces *)

(** The training passes requested: features, labels, batch size, epochs. *)
Definition fit_requests (evs : list Event)
    : list (Features * list Z * Z * Z) :=
  flat_map (fun ev =>
              match ev with
              | model_fit_call x y bs ep => [(x, y, bs, ep)]
              | _ => []
              end) evs.

(** The evaluation passes requested: features, labels, batch size. *)
Definition evaluate_requests (evs : list Event)
    : list (Features * list Z * Z) :=
  flat_map (fun ev =>
              match ev with
              | model_evaluate_call x y bs => [(x, y, bs)]
              | _ => []
              end) evs.

(** The groups of bars drawn: label and heights. *)
Definition bar_groups (evs : list Event) : list (string * list Q) :=
  flat_map (fun ev =>
              match ev with
              | ax_bar _ heights _ label => [(label, heights)]
              | _ => []
              end) evs.

(** A computation none of whose library calls is observed by [obs]. *)
Definition silent {X A : Type} (obs : Event -> list X) (c : M A) : Prop :=
  forall g, flat_map obs (calls (c g)) = [].

(** ** Printing and single-experiment plots *)

(** What [print] and the [pyplot] functions used outside
    [compare_experiment] emit. *)
Inductive Output : Type :=
| out_print (line : string)
| out_figure (width height : Z)
| out_plot (x : list Z) (y : list Q) (label : string)
| out_xlabel (label : string)
| out_ylabel (label : string)
| out_grid
| out_legend.

(** A computation that emits output and ends in a value or an exception;
    it reads no global. *)
Definition W (A : Type) : Type := ((exn + A) * list Output)%type.

Definition w_ret {A : Type} (x : A) : W A := (inr x, []).

Definition w_lift {A : Type} (r : exn + A) : W A := (r, []).

Definition w_emit (o : Output) : W unit := (inr tt, [o]).

Definition w_bind {A B : Type} (c : W A) (f : A -> W B) : W B :=
  match fst c with
  | inl e => (inl e, snd c)
  | inr x => (fst (f x), snd c ++ snd (f x))
  end.

Fixpoint w_for_each {A : Type} (l : list A) (body : A -> W unit) : W unit :=
  match l with
  | [] => w_ret tt
  | x :: r => w_bind (body x) (fun _ => w_for_each r body)
  end.

(** [plt.plot(x, y, label=..)]: the plotting library draws the curve when
    the two axes have the same length and raises otherwise. *)
Definition w_plot (x : list Z) (y : list Q) (label : string) : W unit :=
  if length x =? length y then w_emit (out_plot x y label)
  else
    w_lift
      (inl (ValueError
              ("x and y must have same first dimension, but have shapes ("
                 ++ str_of_nat (length x) ++ ",) and ("
                 ++ str_of_nat (length y) ++ ",)"))).

(** The lines printed, the curves drawn (label and values). *)
Definition printed (outs : list Output) : list string :=
  flat_map (fun o => match o with out_print s => [s] | _ => [] end) outs.

Definition curves (outs : list Output) : list (string * list Q) :=
  flat_map (fun o => match o with out_plot _ y l => [(l, y)] | _ => [] end)
    outs.

Section Reports.
Context {K : Keras}.

(** The format specification [:.4f] applied to a float. *)
Variable format_4f : Q -> string.

(** [plot_experiment_metrics] *)
Definition plot_experiment_metrics (experiment : Experiment)
    (metrics : list string) : W unit :=
  w_bind (w_emit (out_figure 12 8)) (fun _ =>
  w_bind (w_for_each metrics (fun metric =>
            w_bind (w_lift (df_getitem (metrics_history experiment) metric))
              (fun y => w_plot (epochs experiment) y metric)))
    (fun _ =>
  w_bind (w_emit (out_xlabel "Epoch")) (fun _ =>
  w_bind (w_emit (out_ylabel "Metric value")) (fun _ =>
  w_bind (w_emit out_grid) (fun _ =>
  w_emit out_legend))))).

Definition train_line (metric : string) (value : Q) : string :=
  ("Train " ++ metric ++ ": " ++ format_4f value)%string.

Definition test_line (metric : string) (value : Q) : string :=
  ("Test " ++ metric ++ ":  " ++ format_4f value)%string.

(** [compare_train_test] *)
Definition compare_train_test (experiment : Experiment)
    (test_metrics : PyDict.t Q) : W unit :=
  w_bind (w_emit (out_print "Comparing metrics between train and test:"))
    (fun _ =>
  w_for_each test_metrics (fun item =>
    w_bind (w_emit (out_print "------")) (fun _ =>
    w_bind (w_lift (get_final_metric_value experiment (fst item)))
      (fun train_value =>
    w_bind (w_emit (out_print (train_line (fst item) train_value)))
      (fun _ =>
    w_emit (out_print (test_line (fst item) (snd item)))))))).
End Reports.

(** ** The data split of the rice script (module level) *)

Definition label_columns : list string := ["Class"; "Class_Bool"].

Section Frames.
Context {A : Type}.

(** [l[a:b]] for non-negative [a] and [b]. *)
Definition slice (l : list A) (a b : nat) : list A :=
  firstn (b - a) (skipn a l).

(** [df.iloc[a:b]] and [df.iloc[a:]]: the same rows of every column. *)
Definition df_iloc (df : PyDict.t (list A)) (a b : nat)
    : PyDict.t (list A) :=
  map (fun kv => (fst kv, slice (snd kv) a b)) df.

Definition df_iloc_from (df : PyDict.t (list A)) (a : nat)
    : PyDict.t (list A) :=
  map (fun kv => (fst kv, skipn a (snd kv))) df.

(** The train, validation and test frames cut from the shuffled dataset.
    [index_80th] stands for [round(number_samples * 0.8)] and [tenth] for
    [round(number_samples * 0.1)]; the float products and their rounding
    are not modelled. *)
Definition split_dataset (shuffled_dataset : PyDict.t (list A))
    (index_80th tenth : nat)
    : PyDict.t (list A) * PyDict.t (list A) * PyDict.t (list A) :=
  let index_90th := index_80th + tenth in
  (df_iloc shuffled_dataset 0 index_80th,
   df_iloc shuffled_dataset index_80th index_90th,
   df_iloc_from shuffled_dataset index_90th).

(** [df.drop(columns=columns)]: every named column must exist. *)
Definition df_drop (df : PyDict.t (list A)) (columns : list string)
    : exn + PyDict.t (list A) :=
  match filter (fun c => negb (PyDict.contains df c)) columns with
  | [] =>
      inr (filter (fun kv => negb (existsb (String.eqb (fst kv)) columns))
             df)
  | missing =>
      inl (KeyError (PyRepr.repr_list missing ++ " not found in axis"))
  end.

(** The features and the labels of one part of the data:
    [data.drop(columns=label_columns)] and [data['Class_Bool']]. *)
Definition features_and_labels (data : PyDict.t (list A))
    : exn + (PyDict.t (list A) * list A) :=
  match df_drop data label_columns with
  | inl e => inl e
  | inr features =>
      match PyDict.getitem data "Class_Bool" with
      | inl e => inl e
      | inr labels => inr (features, labels)
      end
  end.
End Frames.

(** ** The fairness script *)

Definition LABEL_KEY : string := "PINCP".
Definition LABEL_THRESHOLD : Q := 50000.

(** [lambda income: 1 if income > LABEL_THRESHOLD else 0] *)
Definition income_label (income : Q) : Q :=
  if Qle_bool income LABEL_THRESHOLD then 0 else 1.

(** [acs_df[LABEL_KEY] = acs_df[LABEL_KEY].apply(...)] *)
Definition binarize_labels (acs_df : DataFrame) : exn + DataFrame :=
  match PyDict.getitem acs_df LABEL_KEY with
  | inl e => inl e
  | inr incomes => inr (PyDict.set acs_df LABEL_KEY (map income_label incomes))
  end.

(** [sorted] on strings: ascending by code point. The result of sorting a
    list of strings does not depend on the algorithm; this one inserts. *)
Fixpoint insert_sorted (k : string) (l : list string) : list string :=
  match l with
  | [] => [k]
  | x :: r => if String.leb k x then k :: l else x :: insert_sorted k r
  end.

Definition sorted (l : list string) : list string :=
  fold_right insert_sorted [] l.

Section StackDict.
(** Tensors, [tf.cast(_, tf.float64)] and the stacking function [fun]
    applied with [axis=-1] belong to the tensor library; either may
    raise. *)
Context {T R : Type} (cast : T -> exn + T) (fun_ : list T -> exn + R).

(** The loop of [stack_dict] over the remaining keys. *)
Fixpoint stack_values (inputs : PyDict.t T) (keys_ : list string)
    (values : list T) : exn + list T :=
  match keys_ with
  | [] => inr values
  | key :: rest =>
      match PyDict.getitem inputs key with
      | inl e => inl e
      | inr v =>
          match cast v with
          | inl e => inl e
          | inr v' => stack_values inputs rest (values ++ [v'])
          end
      end
  end.

(** [stack_dict] *)
Definition stack_dict (inputs : PyDict.t T) : exn + R :=
  match stack_values inputs (sorted (PyDict.keys inputs)) [] with
  | inl e => inl e
  | inr values => fun_ values
  end.
End StackDict.

(** [dataframe_to_dataset]: the copy of the frame without its label
    column, and the labels, as handed to
    [tf.data.Dataset.from_tensor_slices]. *)
Definition dataframe_to_dataset (dataframe : DataFrame)
    : exn + (DataFrame * list Q) :=
  match PyDict.get dataframe LABEL_KEY with
  | None => inl (KeyError LABEL_KEY)
  | Some labels =>
      inr (filter (fun kv => negb (String.eqb (fst kv) LABEL_KEY)) dataframe,
           labels)
  end.

(** * Properties *)

(** ** Strings *)

Lemma occurs_in_refl (s : string) : occurs_in s s.
Proof.
  exists ""%string, ""%string. simpl.
  induction s as [|c s IH]; simpl; [reflexivity|]. now rewrite <- IH.
Qed.

Lemma string_app_assoc (a b c : string) :
  ((a ++ b) ++ c = a ++ (b ++ c))%string.
Proof. induction a as [|x a IH]; simpl; [reflexivity|]. now rewrite IH. Qed.

Lemma occurs_in_app_l (s t u : string) :
  occurs_in s t -> occurs_in s (t ++ u)%string.
Proof.
  intros (pre & post & ->). exists pre, (post ++ u)%string.
  now rewrite !string_app_assoc.
Qed.

Lemma occurs_in_app_r (s t u : string) :
  occurs_in s t -> occurs_in s (u ++ t)%string.
Proof.
  intros (pre & post & ->). exists (u ++ pre)%string, post.
  now rewrite !string_app_assoc.
Qed.






(** ** Dictionaries and data frames *)

Lemma get_In_keys {V : Type} (d : PyDict.t V) (k : string) (v : V) :
  PyDict.get d k = Some v -> In k (PyDict.keys d).
Proof.
  induction d as [|[k' v'] d IH]; simpl; [discriminate|].
  destruct (String.eqb_spec k' k) as [-> | Hne]; [now left|].
  intros H. right. now apply IH.
Qed.



Lemma iloc_last_snoc (pre : list Q) (v : Q) : iloc_last (pre ++ [v]) = inr v.
Proof. unfold iloc_last. now rewrite rev_app_distr. Qed.

(** ** The final value of a metric *)

Section FinalMetric.
Context {K : Keras}.


End FinalMetric.



(** ** The settings dataclass *)

(** C6, as the code has it. Assigning to a field of an existing settings
    value never fails: it stores the new value in that field and leaves the
    four other fields as they were. *)
Theorem settings_assignment_succeeds
    (s : ExperimentSettings) (a : assignment) :
  exists s',
    ExperimentSettings_setattr s a = inr s' /\
    match a with
    | Set_learning_rate v =>
        learning_rate s' = v /\ number_epochs s' = number_epochs s /\
        batch_size s' = batch_size s /\
        classification_threshold s' = classification_threshold s /\
        input_features s' = input_features s
    | Set_number_epochs v =>
        learning_rate s' = learning_rate s /\ number_epochs s' = v /\
        batch_size s' = batch_size s /\
        classification_threshold s' = classification_threshold s /\
        input_features s' = input_features s
    | Set_batch_size v =>
        learning_rate s' = learning_rate s /\
        number_epochs s' = number_epochs s /\ batch_size s' = v /\
        classification_threshold s' = classification_threshold s /\
        input_features s' = input_features s
    | Set_classification_threshold v =>
        learning_rate s' = learning_rate s /\
        number_epochs s' = number_epochs s /\
        batch_size s' = batch_size s /\
        classification_threshold s' = v /\
        input_features s' = input_features s
    | Set_input_features v =>
        learning_rate s' = learning_rate s /\
        number_epochs s' = number_epochs s /\
        batch_size s' = batch_size s /\
        classification_threshold s' = classification_threshold s /\
        input_features s' = v
    end.
Proof.
  exists (assigned s a). split; [reflexivity|].
  destruct a; simpl; repeat split.
Qed.

(** C6 fails as stated: the statement [settings.number_epochs = 7] on the
    script's settings object raises nothing, and the object then holds 7
    where it held 60. *)
Lemma settings_assignment_counterexample :
  result (assign_global_settings (Set_number_epochs 7) script_globals)
    = inr tt /\
  number_epochs (g_settings script_globals) = 60%Z /\
  number_epochs
    (g_settings
       (globals_after
          (assign_global_settings (Set_number_epochs 7) script_globals)))
    = 7%Z.
Proof. repeat split. Qed.

(** C7, as the code has it. Constructing a settings value never fails and
    checks nothing: whatever the five arguments, the value built holds
    exactly them. *)
Theorem settings_construction_unchecked
    (lr : Q) (ne bs : Z) (ct : Q) (feats : list string) :
  exists s,
    ExperimentSettings_init lr ne bs ct feats = inr s /\
    learning_rate s = lr /\ number_epochs s = ne /\ batch_size s = bs /\
    classification_threshold s = ct /\ input_features s = feats.
Proof. eexists. split; [reflexivity|]. repeat split. Qed.

(** C7 fails as stated: a settings value with no input feature, zero epochs
    and a negative batch size is constructed without any error. *)
Lemma settings_construction_counterexample :
  exists s,
    ExperimentSettings_init (1 # 1000) 0 (-1) (1 # 2) [] = inr s /\
    input_features s = [] /\ number_epochs s = 0%Z /\
    batch_size s = (-1)%Z /\ ~ valid_settings s.
Proof.
  eexists. split; [reflexivity|]. repeat split.
  intros (_ & H & _). simpl in H. lia.
Qed.

(** ** Computations that touch neither the globals nor the libraries *)

Lemma bind_lift_inl {A B : Type} (c : M A) (f : A -> M B) (e : exn)
    (g : Globals) :
  c g = lift (inl e) g -> bind c f g = lift (inl e) g.
Proof. intros H. unfold bind. rewrite H. reflexivity. Qed.

Lemma bind_lift_inr {A B : Type} (c : M A) (f : A -> M B) (x : A)
    (g : Globals) :
  c g = lift (inr x) g -> bind c f g = f x g.
Proof.
  intros H. unfold bind. rewrite H. simpl. now destruct (f x g).
Qed.

Lemma for_fold_lift {A S : Type} (body : A -> S -> M S)
    (step : A -> S -> exn + S) :
  (forall x acc g, body x acc g = lift (step x acc) g) ->
  forall l acc, exists r, forall g, for_fold l acc body g = lift r g.
Proof.
  intros Hbody l. induction l as [|x l IH]; intros acc; simpl.
  - now exists (inr acc).
  - destruct (step x acc) as [e | acc'] eqn:E.
    + exists (inl e). intros g. apply bind_lift_inl.
      now rewrite Hbody, E.
    + destruct (IH acc') as [r Hr]. exists r. intros g.
      rewrite (bind_lift_inr _ _ acc'); [apply Hr|].
      now rewrite Hbody, E.
Qed.

Lemma feature_dict_step (dataset : DataFrame) (feature_name : string)
    (acc : Features) (g : Globals) :
  (col <- lift (df_getitem dataset feature_name) ;;
   ret (PyDict.set acc feature_name col)) g
  = lift (match df_getitem dataset feature_name with
          | inl e => inl e
          | inr col => inr (PyDict.set acc feature_name col)
          end) g.
Proof.
  unfold bind, lift, ret. simpl.
  now destruct (df_getitem dataset feature_name).
Qed.

(** Building the feature dict reads the data frame and nothing else. *)
Lemma feature_dict_lift (dataset : DataFrame) (names : list string) :
  exists r, forall g, feature_dict dataset names g = lift r g.
Proof.
  unfold feature_dict.
  apply (for_fold_lift _
           (fun feature_name acc =>
              match df_getitem dataset feature_name with
              | inl e => inl e
              | inr col => inr (PyDict.set acc feature_name col)
              end)).
  intros x acc g. apply feature_dict_step.
Qed.

(** With every named column present, the feature dict is built. *)
Lemma feature_dict_ok (dataset : DataFrame) (names : list string) :
  (forall f, In f names -> df_contains dataset f = true) ->
  exists x, forall g, feature_dict dataset names g = lift (inr x) g.
Proof.
  unfold feature_dict. generalize ([] : Features).
  induction names as [|n names IH]; intros acc Hcols; simpl.
  - now exists acc.
  - assert (Hn : df_contains dataset n = true) by (apply Hcols; now left).
    unfold df_contains, PyDict.contains in Hn.
    destruct (PyDict.get dataset n) as [col|] eqn:E; [|discriminate].
    destruct (IH (PyDict.set acc n col)) as [x Hx].
    { intros f Hf. apply Hcols. now right. }
    exists x. intros g.
    rewrite (bind_lift_inr _ _ (PyDict.set acc n col)); [apply Hx|].
    rewrite feature_dict_step. unfold df_getitem, PyDict.getitem.
    now rewrite E.
Qed.

(** ** Evaluation *)

Section Evaluation.
Context {K : Keras}.

(** An evaluation pass reads the object behind the reference: the one
    library call is recorded, the globals stay as they are, and the scores
    are those of the weights the object holds. *)
Lemma model_evaluate_outcome (m : Model) (x : Features) (y : list Z)
    (bs : Z) (g : Globals) :
  model_evaluate m x y bs g
  = mkOutcome
      (if aligned x y then
         match evaluate_rejects x y bs with
         | Some e => inl e
         | None =>
             inr (fold_left
                    (fun d n =>
                       PyDict.set d n
                         (eval_metric (m_weights (g_models g m)) n x y bs))
                    (reported_metrics (g_models g m)) [])
         end
       else inl (misaligned x y))
      g [model_evaluate_call x y bs].
Proof.
  unfold model_evaluate, validate_request, bind, model_object, call, raise,
    ret.
  cbn [result globals_after calls].
  destruct (aligned x y); cbn [negb result globals_after calls app];
    [|reflexivity].
  destruct (evaluate_rejects x y bs); reflexivity.
Qed.

(** Once the feature dict is built, [evaluate_experiment] is the
    evaluation pass with the batch size of the module-level [settings]. *)
Lemma evaluate_experiment_pass (e : Experiment) (test_dataset : DataFrame)
    (test_labels : list Z) (x : Features) (g : Globals) :
  (forall g', feature_dict test_dataset (input_features (settings e)) g'
              = lift (inr x) g') ->
  evaluate_experiment e test_dataset test_labels g
  = model_evaluate (model e) x test_labels (batch_size (g_settings g)) g.
Proof.
  intros Hx. unfold evaluate_experiment.
  rewrite (bind_lift_inr _ _ x) by apply Hx.
  unfold bind, global_settings. cbn [result globals_after calls app].
  now destruct (model_evaluate (model e) x test_labels
                  (batch_size (g_settings g)) g).
Qed.

(** The batch size handed to the model handle is the one of the
    module-level [settings], whatever the run's own settings say. *)
Lemma evaluate_experiment_batch (e : Experiment) (test_dataset : DataFrame)
    (test_labels : list Z) (g : Globals) :
  (forall f, In f (input_features (settings e)) ->
             df_contains test_dataset f = true) ->
  evaluation_batches
    (calls (evaluate_experiment e test_dataset test_labels g))
  = [batch_size (g_settings g)].
Proof.
  intros Hcols.
  destruct (feature_dict_ok test_dataset _ Hcols) as [x Hx].
  rewrite (evaluate_experiment_pass e test_dataset test_labels x g Hx).
  now rewrite model_evaluate_outcome.
Qed.

(** C8. [evaluate_experiment] changes nothing: the state after the call
    is the state before it, so the model object that the run refers to
    holds the weights and the metrics it held, as does every other model
    object, and the module-level [settings] are as they were. The run
    itself is a record of values that the function only reads. No
    training pass is requested and at most one evaluation pass; the scores
    returned are those of the weights that the run's model object held
    before the call. A second call with the same run and data, made right
    after the first, has the same outcome: the same scores or the same
    exception, and the same library calls. *)
Theorem evaluate_experiment_idempotent (e : Experiment)
    (test_dataset : DataFrame) (test_labels : list Z) (g : Globals) :
  let first := evaluate_experiment e test_dataset test_labels g in
  let second :=
    evaluate_experiment e test_dataset test_labels (globals_after first) in
  globals_after first = g /\
  g_models (globals_after first) (model e) = g_models g (model e) /\
  g_settings (globals_after first) = g_settings g /\
  result second = result first /\
  second = first /\
  fits (calls first) = 0 /\
  evaluations (calls first) <= 1 /\
  forall scores,
    result first = inr scores ->
    exists x,
      feature_dict test_dataset (input_features (settings e)) g
        = lift (inr x) g /\
      scores
      = fold_left
          (fun d n =>
             PyDict.set d n
               (eval_metric (m_weights (g_models g (model e))) n x
                  test_labels (batch_size (g_settings g))))
          (reported_metrics (g_models g (model e))) [].
Proof.
  cbv zeta.
  assert (Hg : globals_after
                 (evaluate_experiment e test_dataset test_labels g) = g).
  { unfold evaluate_experiment.
    destruct (feature_dict_lift test_dataset
                (input_features (settings e))) as [[err | x] Hr].
    - now rewrite (bind_lift_inl _ _ err g) by apply Hr.
    - fold (evaluate_experiment e test_dataset test_labels g).
      rewrite (evaluate_experiment_pass e test_dataset test_labels x g Hr).
      now rewrite model_evaluate_outcome. }
  rewrite Hg. split; [reflexivity|]. do 4 (split; [reflexivity|]).
  destruct (feature_dict_lift test_dataset
              (input_features (settings e))) as [[err | x] Hr].
  - unfold evaluate_experiment.
    rewrite (bind_lift_inl _ _ err g) by apply Hr.
    split; [reflexivity|]. split; [cbn; lia|]. intros scores H.
    discriminate H.
  - rewrite (evaluate_experiment_pass e test_dataset test_labels x g Hr).
    rewrite model_evaluate_outcome. split; [reflexivity|].
    split; [cbn; lia|]. cbn [result]. intros scores H.
    exists x. split; [apply Hr|].
    destruct (aligned x test_labels); [|discriminate H].
    destruct (evaluate_rejects x test_labels (batch_size (g_settings g)));
      [discriminate H|].
    now injection H as <-.
Qed.
End Evaluation.

(** C2. The code at an input where the claim fails: the run was configured
    with batch size 32, the module-level [settings] has batch size 100, and
    the one evaluation pass requested from the run's model handle is given
    batch size 100. *)
Theorem evaluate_experiment_uses_global_batch_size :
  batch_size (settings small_batch_run) = 32%Z /\
  batch_size (g_settings script_globals) = 100%Z /\
  evaluation_batches
    (calls (evaluate_experiment small_batch_run sample_dataset sample_labels
              script_globals))
  = [100%Z].
Proof. repeat split. Qed.

(** ** The availability check of [compare_experiment] *)

Section Availability.
Context {K : Keras}.

Lemma check_one_metric (experiments : list Experiment) (metric : string) :
  (forallb (fun e => df_contains (metrics_history e) metric) experiments
   = true /\
   forall g,
     for_each experiments (fun experiment =>
       if negb (df_contains (metrics_history experiment) metric) then
         raise (ValueError (not_available_message metric (name experiment)))
       else ret tt) g = lift (inr tt) g) \/
  (exists e,
     In e experiments /\ df_contains (metrics_history e) metric = false /\
     forall g,
       for_each experiments (fun experiment =>
         if negb (df_contains (metrics_history experiment) metric) then
           raise (ValueError (not_available_message metric (name experiment)))
         else ret tt) g
       = lift (inl (ValueError (not_available_message metric (name e)))) g).
Proof.
  induction experiments as [|x l IH]; simpl.
  - left. split; [reflexivity|]. intros g. reflexivity.
  - destruct (df_contains (metrics_history x) metric) eqn:E; simpl.
    + destruct IH as [[Hall Hrun] | (e & Hin & Hout & Hrun)].
      * left. split; [assumption|]. intros g.
        rewrite (bind_lift_inr _ _ tt) by reflexivity. apply Hrun.
      * right. exists e. split; [now right | split; [assumption|]].
        intros g. rewrite (bind_lift_inr _ _ tt) by reflexivity. apply Hrun.
    + right. exists x. split; [now left | split; [assumption|]].
      intros g. now apply bind_lift_inl.
Qed.

Lemma check_metrics_outcome (experiments : list Experiment)
    (metrics_of_interest : list string) :
  (all_available experiments metrics_of_interest = true /\
   forall g,
     check_metrics experiments metrics_of_interest g = lift (inr tt) g) \/
  (all_available experiments metrics_of_interest = false /\
   exists metric e,
     In metric metrics_of_interest /\ In e experiments /\
     df_contains (metrics_history e) metric = false /\
     forall g,
       check_metrics experiments metrics_of_interest g
       = lift (inl (ValueError (not_available_message metric (name e)))) g).
Proof.
  unfold check_metrics, all_available.
  induction metrics_of_interest as [|m l IH]; simpl.
  - left. split; [reflexivity|]. intros g. reflexivity.
  - destruct (check_one_metric experiments m)
      as [[Hall Hrun] | (e & Hin & Hout & Hrun)].
    + rewrite Hall. simpl.
      destruct IH as [[Hall' Hrun'] | (Hall' & m' & e & Hm & Hin & Hout & Hrun')].
      * left. split; [assumption|]. intros g.
        rewrite (bind_lift_inr _ _ tt) by apply Hrun. apply Hrun'.
      * right. split; [assumption|]. exists m', e.
        split; [now right | split; [assumption | split; [assumption|]]].
        intros g. rewrite (bind_lift_inr _ _ tt) by apply Hrun. apply Hrun'.
    + right. split.
      * apply andb_false_iff. left.
        apply not_true_is_false. intros Hall.
        rewrite forallb_forall in Hall. specialize (Hall e Hin).
        congruence.
      * exists m, e.
        split; [now left | split; [assumption | split; [assumption|]]].
        intros g. apply bind_lift_inl, Hrun.
Qed.

Lemma all_available_false (experiments : list Experiment)
    (metrics_of_interest : list string) (metric : string) (e : Experiment) :
  In metric metrics_of_interest -> In e experiments ->
  df_contains (metrics_history e) metric = false ->
  all_available experiments metrics_of_interest = false.
Proof.
  intros Hm He Hout. apply not_true_is_false. intros Hall.
  unfold all_available in Hall. rewrite forallb_forall in Hall.
  specialize (Hall metric Hm). rewrite forallb_forall in Hall.
  specialize (Hall e He). congruence.
Qed.

(** C3. When some metric of interest is not a column of some experiment's
    history, [compare_experiment] raises a [ValueError] with the message
    [Metric], the name of such a metric, [not available for experiment]
    and the name of such an experiment: both names occur in the message.
    It does so before any library call: the call trace is empty, so
    nothing was plotted and no evaluation pass was requested, and the
    globals are untouched. *)
Theorem compare_experiment_fails_fast (experiments : list Experiment)
    (metrics_of_interest : list string) (test_dataset : DataFrame)
    (test_labels : list Z) (g : Globals) :
  (exists metric e,
     In metric metrics_of_interest /\ In e experiments /\
     df_contains (metrics_history e) metric = false) ->
  exists metric e,
    In metric metrics_of_interest /\ In e experiments /\
    df_contains (metrics_history e) metric = false /\
    let msg :=
      ("Metric " ++ metric ++ " not available for experiment " ++ name e)%string
    in
    compare_experiment experiments metrics_of_interest test_dataset
      test_labels g
    = mkOutcome (inl (ValueError msg)) g [] /\
    occurs_in metric msg /\ occurs_in (name e) msg /\
    evaluations
      (calls (compare_experiment experiments metrics_of_interest test_dataset
                test_labels g)) = 0.
Proof.
  intros (m0 & e0 & Hm0 & He0 & Hout0).
  pose proof (all_available_false _ _ _ _ Hm0 He0 Hout0) as Hfalse.
  destruct (check_metrics_outcome experiments metrics_of_interest)
    as [[Hall _] | (_ & m & e & Hm & He & Hout & Hrun)]; [congruence|].
  exists m, e.
  assert (Hcmp : compare_experiment experiments metrics_of_interest
                   test_dataset test_labels g
                 = lift (inl (ValueError (not_available_message m (name e))))
                     g).
  { unfold compare_experiment. apply bind_lift_inl, Hrun. }
  rewrite Hcmp. repeat (split; [assumption|]). cbv zeta.
  split; [reflexivity|]. split; [|split; [|reflexivity]].
  - apply occurs_in_app_r, occurs_in_app_l, occurs_in_refl.
  - do 3 apply occurs_in_app_r. apply occurs_in_refl.
Qed.
End Availability.

Lemma compare_experiment_fails_fast_witness :
  compare_experiment [small_batch_run] ["accuracy"; "f1"] sample_dataset
    sample_labels script_globals
  = mkOutcome
      (inl (ValueError "Metric f1 not available for experiment small_batch"))
      script_globals [] /\
  evaluations
    (calls (compare_experiment [small_batch_run] ["accuracy"; "f1"]
              sample_dataset sample_labels script_globals)) = 0.
Proof.
  destruct (compare_experiment_fails_fast [small_batch_run]
              ["accuracy"; "f1"] sample_dataset sample_labels script_globals)
    as (metric & e & Hm & He & Hout & Hrun & _ & _ & Hev).
  - exists "f1", small_batch_run.
    split; [simpl; right; left; reflexivity|].
    split; [simpl; left; reflexivity | reflexivity].
  - destruct He as [<- | []].
    destruct Hm as [<- | [<- | []]]; [discriminate Hout|].
    split; [exact Hrun | exact Hev].
Defined.

(** ** Outcomes of sequenced computations *)

Lemma bind_outcome_inl {A B : Type} (c : M A) (f : A -> M B) (e : exn)
    (g : Globals) (evs : list Event) :
  c g = mkOutcome (inl e) g evs -> bind c f g = mkOutcome (inl e) g evs.
Proof. intros H. unfold bind. now rewrite H. Qed.

Lemma bind_outcome_inr {A B : Type} (c : M A) (f : A -> M B) (x : A)
    (g : Globals) (evs evs' : list Event) (r : exn + B) :
  c g = mkOutcome (inr x) g evs -> f x g = mkOutcome r g evs' ->
  bind c f g = mkOutcome r g (evs ++ evs').
Proof. intros H H'. unfold bind. rewrite H. simpl. now rewrite H'. Qed.

Lemma calls_bind {A B : Type} (c : M A) (f : A -> M B) (g : Globals) :
  calls (bind c f g)
  = calls (c g) ++
    match result (c g) with
    | inl _ => []
    | inr x => calls (f x (globals_after (c g)))
    end.
Proof.
  unfold bind. destruct (result (c g)); simpl; [now rewrite app_nil_r|].
  reflexivity.
Qed.

Lemma result_bind {A B : Type} (c : M A) (f : A -> M B) (g : Globals) :
  result (bind c f g)
  = match result (c g) with
    | inl e => inl e
    | inr x => result (f x (globals_after (c g)))
    end.
Proof. unfold bind. now destruct (result (c g)). Qed.

Lemma plot_styles_app (evs evs' : list Event) :
  plot_styles (evs ++ evs') = plot_styles evs ++ plot_styles evs'.
Proof. apply flat_map_app. Qed.

Lemma legends_app (evs evs' : list Event) :
  legends (evs ++ evs') = legends evs ++ legends evs'.
Proof. apply flat_map_app. Qed.

Lemma evaluations_app (evs evs' : list Event) :
  evaluations (evs ++ evs') = evaluations evs + evaluations evs'.
Proof. unfold evaluations. now rewrite filter_app, length_app. Qed.

(** ** Indexing the colour and marker lists *)

Lemma colors_getitem (n j : nat) :
  j < n -> list_getitem (colors_for n) j = inr (color_at j).
Proof.
  intros Hj. unfold list_getitem, colors_for.
  rewrite nth_error_map, nth_error_seq.
  apply Nat.ltb_lt in Hj. now rewrite Hj.
Qed.

Lemma markers_getitem_lt (i : nat) :
  i < 6 -> list_getitem markers i = inr (marker_at i).
Proof. intros Hi. do 6 (destruct i as [|i]; [reflexivity|]). lia. Qed.

Lemma markers_getitem_ge (i : nat) :
  6 <= i ->
  list_getitem markers i = inl (IndexError "list index out of range").
Proof.
  intros Hi. do 6 (destruct i as [|i]; [lia|]). now destruct i.
Qed.

(** ** The training curves *)

Section Drawing.
Context {K : Keras}.

Lemma plot_row_lt (n : nat) (im : nat * string) (l : list Experiment)
    (a : nat) :
  fst im < 6 -> a + length l <= n ->
  forallb (fun e => df_contains (metrics_history e) (snd im)) l = true ->
  exists evs,
    (forall g,
       for_each (combine (seq a (length l)) l) (fun je =>
         y <- lift (df_getitem (metrics_history (snd je)) (snd im)) ;;
         marker <- lift (list_getitem markers (fst im)) ;;
         color <- lift (list_getitem (colors_for n) (fst je)) ;;
         call (plt_plot (epochs (snd je)) y 4 marker marker_size color)) g
       = mkOutcome (inr tt) g evs) /\
    plot_styles evs
    = map (fun j => (marker_at (fst im), color_at j)) (seq a (length l)) /\
    legends evs = [] /\ evaluations evs = 0.
Proof.
  intros Hi. revert a. induction l as [|e l IH]; intros a Hn Hall.
  - exists []. repeat split.
  - simpl in Hall. apply andb_true_iff in Hall as [He Hall].
    simpl in Hn.
    destruct (IH (S a)) as (evs & Hrun & Hst & Hlg & Hev);
      [lia | assumption |].
    unfold df_contains, PyDict.contains in He.
    destruct (PyDict.get (metrics_history e) (snd im)) as [col|] eqn:E;
      [|discriminate].
    exists (plt_plot (epochs e) col 4 (marker_at (fst im)) marker_size
              (color_at a) :: evs).
    split; [|split; [|split]].
    + intros g. simpl.
      apply (bind_outcome_inr _ _ tt g
               [plt_plot (epochs e) col 4 (marker_at (fst im)) marker_size
                  (color_at a)] evs); [|apply Hrun].
      unfold df_getitem, PyDict.getitem. simpl. rewrite E.
      rewrite markers_getitem_lt by assumption.
      rewrite colors_getitem by lia. reflexivity.
    + simpl. now rewrite Hst.
    + simpl. assumption.
    + simpl. assumption.
Qed.

Lemma plot_row_ge (n : nat) (im : nat * string) (e : Experiment)
    (l : list Experiment) (a : nat) :
  6 <= fst im ->
  df_contains (metrics_history e) (snd im) = true ->
  forall g,
    for_each (combine (seq a (length (e :: l))) (e :: l)) (fun je =>
      y <- lift (df_getitem (metrics_history (snd je)) (snd im)) ;;
      marker <- lift (list_getitem markers (fst im)) ;;
      color <- lift (list_getitem (colors_for n) (fst je)) ;;
      call (plt_plot (epochs (snd je)) y 4 marker marker_size color)) g
    = lift (inl (IndexError "list index out of range")) g.
Proof.
  intros Hi He g. simpl. apply bind_lift_inl.
  unfold df_contains, PyDict.contains in He.
  destruct (PyDict.get (metrics_history e) (snd im)) as [col|] eqn:E;
    [|discriminate].
  unfold df_getitem, PyDict.getitem. simpl. rewrite E.
  rewrite markers_getitem_ge by assumption. reflexivity.
Qed.

Lemma plot_rows_no_runs (metrics_of_interest : list string)
    (colors : list string) (a : nat) (g : Globals) :
  for_each (combine (seq a (length metrics_of_interest)) metrics_of_interest)
    (fun im =>
       for_each (@enumerate Experiment []) (fun je =>
         y <- lift (df_getitem (metrics_history (snd je)) (snd im)) ;;
         marker <- lift (list_getitem markers (fst im)) ;;
         color <- lift (list_getitem colors (fst je)) ;;
         call (plt_plot (epochs (snd je)) y 4 marker marker_size color))) g
  = lift (inr tt) g.
Proof.
  revert a. induction metrics_of_interest as [|m l IH]; intros a; simpl.
  - reflexivity.
  - rewrite (bind_lift_inr _ _ tt) by reflexivity. apply IH.
Qed.

Lemma plot_rows (e0 : Experiment) (rest : list Experiment)
    (metrics_of_interest : list string) (a : nat) :
  let experiments := e0 :: rest in
  a <= 6 ->
  all_available experiments metrics_of_interest = true ->
  exists evs,
    (forall g,
       for_each
         (combine (seq a (length metrics_of_interest)) metrics_of_interest)
         (fun im =>
            for_each (enumerate experiments) (fun je =>
              y <- lift (df_getitem (metrics_history (snd je)) (snd im)) ;;
              marker <- lift (list_getitem markers (fst im)) ;;
              color <- lift (list_getitem (colors_for (length experiments))
                               (fst je)) ;;
              call (plt_plot (epochs (snd je)) y 4 marker marker_size
                      color))) g
       = mkOutcome
           (if a + length metrics_of_interest <=? 6 then inr tt
            else inl (IndexError "list index out of range")) g evs) /\
    plot_styles evs
    = flat_map (fun i => map (fun j => (marker_at i, color_at j))
                           (seq 0 (length experiments)))
        (seq a (Nat.min (a + length metrics_of_interest) 6 - a)) /\
    legends evs = [] /\ evaluations evs = 0.
Proof.
  intros experiments. revert a.
  induction metrics_of_interest as [|m l IH]; intros a Ha Hall.
  - exists []. split; [|split; [|split]]; try reflexivity.
    + intros g. simpl. rewrite Nat.add_0_r.
      apply Nat.leb_le in Ha. now rewrite Ha.
    + rewrite Nat.add_0_r. replace (Nat.min a 6 - a) with 0 by lia.
      reflexivity.
  - unfold all_available in Hall. simpl in Hall.
    apply andb_true_iff in Hall as [Hrow Hall].
    destruct (Nat.eq_dec a 6) as [-> | Hne].
    + exists []. split; [|split; [|split]]; try reflexivity.
      intros g. simpl length. simpl combine. simpl for_each.
      apply bind_outcome_inl.
      apply andb_true_iff in Hrow as [He0 _].
      apply (plot_row_ge (length experiments) (6, m) e0 rest 0);
        [simpl; lia | assumption].
    + destruct (IH (S a)) as (evs & Hrun & Hst & Hlg & Hev);
        [lia | exact Hall |].
      destruct (plot_row_lt (length experiments) (a, m) experiments 0)
        as (row & Hrow_run & Hrow_st & Hrow_lg & Hrow_ev);
        [simpl; lia | simpl; lia | exact Hrow |].
      exists (row ++ evs). split; [|split; [|split]].
      * intros g. simpl length. simpl combine. simpl for_each.
        replace (a + S (length l)) with (S a + length l) by lia.
        apply (bind_outcome_inr _ _ tt g row evs); [apply Hrow_run|].
        apply Hrun.
      * rewrite plot_styles_app, Hst, Hrow_st.
        replace (Nat.min (a + length (m :: l)) 6 - a)
          with (S (Nat.min (S a + length l) 6 - S a)) by (simpl; lia).
        reflexivity.
      * now rewrite legends_app, Hlg, Hrow_lg.
      * now rewrite evaluations_app, Hev, Hrow_ev.
Qed.

(** The outcome of the curve-drawing loop when every metric of interest is
    available: it draws the curves of the first six metrics at most, for
    every experiment, and fails on a seventh metric if there is one and
    there is an experiment to draw. *)
Lemma plot_train_metrics_outcome (experiments : list Experiment)
    (metrics_of_interest : list string) :
  all_available experiments metrics_of_interest = true ->
  exists evs,
    (forall g,
       plot_train_metrics experiments metrics_of_interest
         (colors_for (length experiments)) g
       = mkOutcome
           (if (length experiments =? 0)
               || (length metrics_of_interest <=? 6)
            then inr tt
            else inl (IndexError "list index out of range")) g evs) /\
    plot_styles evs
    = flat_map (fun i => map (fun j => (marker_at i, color_at j))
                           (seq 0 (length experiments)))
        (seq 0 (Nat.min (length metrics_of_interest) 6)) /\
    legends evs = [] /\ evaluations evs = 0.
Proof.
  intros Hall. destruct experiments as [|e0 rest].
  - exists []. split; [|split; [|split]]; try reflexivity.
    + intros g. simpl. apply plot_rows_no_runs.
    + simpl. induction (seq 0 (Nat.min (length metrics_of_interest) 6));
        simpl; [reflexivity | assumption].
  - destruct (plot_rows e0 rest metrics_of_interest 0)
      as (evs & Hrun & Hst & Hlg & Hev); [lia | assumption |].
    exists evs. split; [|split; [|split]]; try assumption.
    rewrite Hst. simpl. now rewrite Nat.sub_0_r.
Qed.
End Drawing.

(** ** The legend handles *)

Section Legend.
Context {K : Keras}.

Lemma legend_metric_fold (metrics_of_interest : list string) :
  forall (a : nat) (acc : list Line2D) (g : Globals),
    a <= 6 ->
    for_fold
      (combine (seq a (length metrics_of_interest)) metrics_of_interest) acc
      (fun im acc =>
         marker <- lift (list_getitem markers (fst im)) ;;
         ret (acc ++ [ {| l_label := snd im; l_marker := Some marker;
                          l_markersize := Some marker_size;
                          l_color := "k" |} ])) g
    = lift
        (if a + length metrics_of_interest <=? 6 then
           inr (acc ++
                map (fun im => metric_handle (fst im) (snd im))
                  (combine (seq a (length metrics_of_interest))
                     metrics_of_interest))
         else inl (IndexError "list index out of range")) g.
Proof.
  induction metrics_of_interest as [|m l IH]; intros a acc g Ha.
  - simpl. rewrite Nat.add_0_r. apply Nat.leb_le in Ha. rewrite Ha.
    now rewrite app_nil_r.
  - simpl length. simpl combine. simpl for_fold.
    destruct (Nat.eq_dec a 6) as [-> | Hne].
    + replace (6 + S (length l) <=? 6) with false
        by (symmetry; apply Nat.leb_gt; lia).
      apply bind_lift_inl. reflexivity.
    + rewrite (bind_lift_inr _ _ (acc ++ [metric_handle a m]) g).
      * rewrite IH by lia.
        replace (a + S (length l)) with (S a + length l) by lia.
        destruct (S a + length l <=? 6); [|reflexivity].
        simpl map. now rewrite <- app_assoc.
      * simpl fst. rewrite markers_getitem_lt by lia. reflexivity.
Qed.

Lemma legend_run_fold (n : nat) (l : list Experiment) :
  forall (a : nat) (acc : list Line2D) (g : Globals),
    a + length l <= n ->
    for_fold (combine (seq a (length l)) l) acc
      (fun ie acc =>
         color <- lift (list_getitem (colors_for n) (fst ie)) ;;
         ret (acc ++ [ {| l_label := name (snd ie); l_marker := None;
                          l_markersize := None; l_color := color |} ])) g
    = lift
        (inr (acc ++
              map (fun ie => run_handle (fst ie) (snd ie))
                (combine (seq a (length l)) l))) g.
Proof.
  induction l as [|e l IH]; intros a acc g Hn.
  - simpl. now rewrite app_nil_r.
  - simpl length. simpl combine. simpl for_fold. simpl in Hn.
    rewrite (bind_lift_inr _ _ (acc ++ [run_handle a e]) g).
    + rewrite IH by lia. simpl map. now rewrite <- app_assoc.
    + simpl fst. rewrite colors_getitem by lia. reflexivity.
Qed.

(** The legend lists one handle per metric, carrying the marker of the
    metric's index, then one handle per experiment, carrying the colour of
    the experiment's index; building it fails on a seventh metric. *)
Lemma legend_handles_outcome (experiments : list Experiment)
    (metrics_of_interest : list string) (g : Globals) :
  legend_handles experiments metrics_of_interest
    (colors_for (length experiments)) g
  = lift
      (if length metrics_of_interest <=? 6 then
         inr (map (fun im => metric_handle (fst im) (snd im))
                (enumerate metrics_of_interest)
              ++ map (fun je => run_handle (fst je) (snd je))
                   (enumerate experiments))
       else inl (IndexError "list index out of range")) g.
Proof.
  unfold legend_handles, enumerate.
  destruct (length metrics_of_interest <=? 6) eqn:E.
  - rewrite (bind_lift_inr _ _
               (map (fun im => metric_handle (fst im) (snd im))
                  (combine (seq 0 (length metrics_of_interest))
                     metrics_of_interest)) g).
    + apply legend_run_fold. lia.
    + rewrite legend_metric_fold by lia. simpl. now rewrite E.
  - apply bind_lift_inl. rewrite legend_metric_fold by lia.
    simpl. now rewrite E.
Qed.
End Legend.

(** ** Computations that draw nothing *)

Lemma draws_nothing_bind {A B : Type} (c : M A) (f : A -> M B) :
  draws_nothing c -> (forall x, draws_nothing (f x)) ->
  draws_nothing (bind c f).
Proof.
  intros Hc Hf g. rewrite calls_bind, plot_styles_app, legends_app.
  destruct (Hc g) as [-> ->].
  destruct (result (c g)) as [e | x]; [now split|].
  now destruct (Hf x (globals_after (c g))) as [-> ->].
Qed.

Lemma draws_nothing_lift {A : Type} (r : exn + A) : draws_nothing (lift r).
Proof. intros g. now split. Qed.

Lemma draws_nothing_ret {A : Type} (x : A) : draws_nothing (ret x).
Proof. intros g. now split. Qed.

Lemma draws_nothing_raise {A : Type} (e : exn) :
  draws_nothing (@raise A e).
Proof. intros g. now split. Qed.

Lemma draws_nothing_call (ev : Event) :
  plot_styles [ev] = [] -> legends [ev] = [] -> draws_nothing (call ev).
Proof. intros Hp Hl g. now split. Qed.

Lemma draws_nothing_pointwise {A : Type} (c : M A) (r : exn + A) :
  (forall g, c g = lift r g) -> draws_nothing c.
Proof. intros H g. rewrite H. now split. Qed.

Lemma draws_nothing_for_each {A : Type} (l : list A) (body : A -> M unit) :
  (forall x, draws_nothing (body x)) -> draws_nothing (for_each l body).
Proof.
  intros Hbody. induction l as [|x l IH]; simpl.
  - apply draws_nothing_ret.
  - apply draws_nothing_bind; [apply Hbody | intros _; apply IH].
Qed.

Lemma draws_nothing_for_list {A B : Type} (l : list A) (f : A -> M B) :
  (forall x, draws_nothing (f x)) -> draws_nothing (for_list l f).
Proof.
  intros Hf. induction l as [|x l IH]; simpl.
  - apply draws_nothing_ret.
  - apply draws_nothing_bind; [apply Hf | intros y].
    apply draws_nothing_bind; [apply IH | intros ys].
    apply draws_nothing_ret.
Qed.

Section Bars.
Context {K : Keras}.

Lemma draws_nothing_evaluate (e : Experiment) (test_dataset : DataFrame)
    (test_labels : list Z) :
  draws_nothing (evaluate_experiment e test_dataset test_labels).
Proof.
  unfold evaluate_experiment.
  apply draws_nothing_bind.
  - destruct (feature_dict_lift test_dataset (input_features (settings e)))
      as [r Hr].
    now apply (draws_nothing_pointwise _ r).
  - intros x. apply draws_nothing_bind.
    + intros g. now split.
    + intros s g. rewrite model_evaluate_outcome. now split.
Qed.

Lemma draws_nothing_plot_test (experiments : list Experiment)
    (metrics_of_interest : list string) (test_dataset : DataFrame)
    (test_labels : list Z) (n_bars : nat) (bar_width : Q) :
  draws_nothing
    (plot_test_metrics experiments metrics_of_interest test_dataset
       test_labels n_bars bar_width).
Proof.
  unfold plot_test_metrics. apply draws_nothing_for_each. intros ie.
  apply draws_nothing_bind; [apply draws_nothing_evaluate|].
  intros test_metrics. cbv zeta.
  apply draws_nothing_bind.
  - apply draws_nothing_for_list. intros m. apply draws_nothing_lift.
  - intros heights. now apply draws_nothing_call.
Qed.
End Bars.

(** ** The whole comparison *)

Section Comparison.
Context {K : Keras}.

Lemma all_available_true (experiments : list Experiment)
    (metrics_of_interest : list string) :
  (forall metric e,
     In metric metrics_of_interest -> In e experiments ->
     df_contains (metrics_history e) metric = true) ->
  all_available experiments metrics_of_interest = true.
Proof.
  intros H. unfold all_available. apply forallb_forall. intros m Hm.
  apply forallb_forall. intros e He. now apply H.
Qed.

(** C10. With every metric of interest available in every experiment, with
    one value for each of the experiment's epochs, and more than six
    metrics of interest, [compare_experiment] ends in the [IndexError] of
    indexing the six-element marker list out of range, and it does so
    before the test bars: no evaluation pass was requested. *)
Theorem compare_experiment_seventh_metric (experiments : list Experiment)
    (metrics_of_interest : list string) (test_dataset : DataFrame)
    (test_labels : list Z) (g : Globals) :
  (forall metric e,
     In metric metrics_of_interest -> In e experiments ->
     df_contains (metrics_history e) metric = true) ->
  (forall e, In e experiments -> plottable e metrics_of_interest) ->
  6 < length metrics_of_interest ->
  result (compare_experiment experiments metrics_of_interest test_dataset
            test_labels g)
  = inl (IndexError "list index out of range") /\
  evaluations
    (calls (compare_experiment experiments metrics_of_interest test_dataset
              test_labels g)) = 0.
Proof.
  intros Havail _ Hlen. apply all_available_true in Havail.
  destruct (check_metrics_outcome experiments metrics_of_interest)
    as [[_ Hcheck] | [Hno _]]; [|congruence].
  destruct (plot_train_metrics_outcome experiments metrics_of_interest Havail)
    as (evs & Htrain & _ & _ & Hev).
  assert (Hgt : (length metrics_of_interest <=? 6) = false)
    by (apply Nat.leb_gt; lia).
  rewrite Hgt, orb_false_r in Htrain.
  unfold compare_experiment.
  rewrite (bind_lift_inr _ _ tt g (Hcheck g)).
  rewrite !result_bind, !calls_bind.
  cbn [call result calls globals_after]. cbv beta zeta.
  rewrite (Htrain g). cbn [result calls globals_after].
  destruct (length experiments =? 0) eqn:En.
  - rewrite legend_handles_outcome, Hgt.
    cbn [lift result calls globals_after].
    rewrite !evaluations_app, Hev. split; reflexivity.
  - rewrite !evaluations_app, Hev. split; reflexivity.
Qed.

Lemma draws_nothing_test_subplot (experiments : list Experiment)
    (metrics_of_interest : list string) (test_dataset : DataFrame)
    (test_labels : list Z) :
  draws_nothing
    (draw_test_subplot experiments metrics_of_interest test_dataset
       test_labels).
Proof.
  unfold draw_test_subplot. cbv zeta.
  apply draws_nothing_bind; [now apply draws_nothing_call|]. intros _.
  apply draws_nothing_bind.
  { destruct (length experiments =? 0);
      [apply draws_nothing_raise | apply draws_nothing_ret]. }
  intros bar_width.
  apply draws_nothing_bind; [apply draws_nothing_plot_test|]. intros _.
  repeat (apply draws_nothing_bind;
          [now apply draws_nothing_call | intros _]).
  now apply draws_nothing_call.
Qed.

(** The curves drawn and the legend installed by one call. *)
Lemma compare_experiment_drawn (experiments : list Experiment)
    (metrics_of_interest : list string) (test_dataset : DataFrame)
    (test_labels : list Z) (g : Globals) :
  let o :=
    compare_experiment experiments metrics_of_interest test_dataset
      test_labels g in
  plot_styles (calls o)
  = (if all_available experiments metrics_of_interest then
       flat_map (fun i => map (fun j => (marker_at i, color_at j))
                             (seq 0 (length experiments)))
         (seq 0 (Nat.min (length metrics_of_interest) 6))
     else []) /\
  legends (calls o)
  = (if all_available experiments metrics_of_interest
        && (length metrics_of_interest <=? 6)
     then
       map (fun im => metric_handle (fst im) (snd im))
         (enumerate metrics_of_interest)
       ++ map (fun je => run_handle (fst je) (snd je))
            (enumerate experiments)
     else []).
Proof.
  cbv zeta.
  destruct (check_metrics_outcome experiments metrics_of_interest)
    as [[Hall Hcheck] | (Hno & m & e & _ & _ & _ & Hcheck)].
  - rewrite Hall.
    destruct (plot_train_metrics_outcome experiments metrics_of_interest
                Hall) as (evs & Htrain & Hst & Hlg & _).
    destruct (draws_nothing_test_subplot experiments metrics_of_interest
                test_dataset test_labels g) as [Hbars_st Hbars_lg].
    unfold compare_experiment.
    rewrite (bind_lift_inr _ _ tt g (Hcheck g)).
    rewrite !calls_bind.
    cbn [call result calls globals_after]. cbv beta zeta.
    rewrite (Htrain g). cbn [result calls globals_after].
    rewrite legend_handles_outcome.
    destruct (length metrics_of_interest <=? 6) eqn:Elen.
    + rewrite orb_true_r. cbn [lift result calls globals_after andb].
      rewrite !calls_bind. cbn [call result calls globals_after].
      rewrite !plot_styles_app, !legends_app, Hst, Hlg, Hbars_st, Hbars_lg.
      cbn [plot_styles legends flat_map app].
      rewrite !app_nil_r. split; reflexivity.
    + rewrite orb_false_r, andb_false_r.
      rewrite !plot_styles_app, !legends_app, Hst, Hlg.
      destruct (length experiments =? 0);
        cbn [lift result calls globals_after plot_styles legends flat_map
               app];
        rewrite ?app_nil_r; split; reflexivity.
  - rewrite Hno. unfold compare_experiment.
    rewrite (bind_lift_inl _ _ _ g (Hcheck g)). split; reflexivity.
Qed.

End Comparison.

Lemma compare_experiment_seventh_metric_witness :
  result
    (compare_experiment [small_batch_run]
       ["accuracy"; "loss"; "accuracy"; "loss"; "accuracy"; "loss"; "loss"]
       sample_dataset sample_labels script_globals)
  = inl (IndexError "list index out of range") /\
  evaluations
    (calls
       (compare_experiment [small_batch_run]
          ["accuracy"; "loss"; "accuracy"; "loss"; "accuracy"; "loss";
           "loss"]
          sample_dataset sample_labels script_globals)) = 0.
Proof.
  apply compare_experiment_seventh_metric.
  - intros metric e Hm [<- | []]. simpl in Hm.
    repeat (destruct Hm as [<- | Hm]; [reflexivity|]). destruct Hm.
  - intros e [<- | []] m col Hm. simpl in Hm.
    repeat (destruct Hm as [<- | Hm]; [intros [= <-]; reflexivity|]).
    destruct Hm.
  - simpl. lia.
Defined.

(** ** Dictionaries under update *)

Section DictUpdate.
Context {V : Type}.

Lemma get_absent (d : PyDict.t V) (k : string) :
  ~ In k (PyDict.keys d) -> PyDict.get d k = None.
Proof.
  intros Hk. destruct (PyDict.get d k) as [v|] eqn:E; [|reflexivity].
  exfalso. apply Hk. eapply get_In_keys; eauto.
Qed.

Lemma get_app_absent (done todo : PyDict.t V) (k : string) :
  ~ In k (PyDict.keys done) ->
  PyDict.get (done ++ todo) k = PyDict.get todo k.
Proof.
  induction done as [|[k' v'] done IH]; simpl; intros Hk; [reflexivity|].
  destruct (String.eqb_spec k' k) as [-> | Hne]; [tauto|].
  apply IH. tauto.
Qed.

Lemma set_absent (d : PyDict.t V) (k : string) (v : V) :
  ~ In k (PyDict.keys d) -> PyDict.set d k v = d ++ [(k, v)].
Proof.
  induction d as [|[k' v'] d IH]; simpl; intros Hk; [reflexivity|].
  destruct (String.eqb_spec k' k) as [-> | Hne]; [tauto|].
  rewrite IH by tauto. reflexivity.
Qed.

Lemma set_app_head (done todo : PyDict.t V) (k : string) (v0 v : V) :
  ~ In k (PyDict.keys done) ->
  PyDict.set (done ++ (k, v0) :: todo) k v = done ++ (k, v) :: todo.
Proof.
  induction done as [|[k' v'] done IH]; simpl; intros Hk.
  - now rewrite String.eqb_refl.
  - destruct (String.eqb_spec k' k) as [-> | Hne]; [tauto|].
    rewrite IH by tauto. reflexivity.
Qed.

Lemma keys_set_In (d : PyDict.t V) (k : string) (v : V) (k' : string) :
  In k' (PyDict.keys (PyDict.set d k v)) <-> k' = k \/ In k' (PyDict.keys d).
Proof.
  induction d as [|[k0 v0] d IH]; simpl.
  - split; [intros [<- | []]; now left | intros [-> | []]; now left].
  - destruct (String.eqb_spec k0 k) as [-> | Hne]; simpl.
    + intuition congruence.
    + rewrite IH. intuition congruence.
Qed.

Lemma keys_set_NoDup (d : PyDict.t V) (k : string) (v : V) :
  NoDup (PyDict.keys d) -> NoDup (PyDict.keys (PyDict.set d k v)).
Proof.
  induction d as [|[k0 v0] d IH]; simpl; intros Hd.
  - constructor; [intros [] | constructor].
  - inversion Hd as [|? ? Hnotin Hrest]; subst.
    destruct (String.eqb_spec k0 k) as [-> | Hne]; simpl.
    + now constructor.
    + constructor; [|now apply IH].
      rewrite keys_set_In. intros [-> | Hin]; tauto.
Qed.
End DictUpdate.

Lemma keys_set_congr {V W : Type} (d : PyDict.t V) (d' : PyDict.t W)
    (k : string) (v : V) (w : W) :
  PyDict.keys d = PyDict.keys d' ->
  PyDict.keys (PyDict.set d k v) = PyDict.keys (PyDict.set d' k w).
Proof.
  revert d'. induction d as [|[k0 v0] d IH]; intros [|[k0' w0] d'];
    simpl; intros Hk; try discriminate; [reflexivity|].
  injection Hk as -> Hk.
  destruct (String.eqb k0' k); simpl; f_equal; auto.
Qed.

(** The keys of a dict built by storing one value per name: the names in
    order of first occurrence. *)
Lemma keys_stored {V : Type} (f : string -> V) (names : list string) :
  forall d : PyDict.t V,
    NoDup (PyDict.keys d) ->
    let d' := fold_left (fun d n => PyDict.set d n (f n)) names d in
    NoDup (PyDict.keys d') /\
    forall k, In k (PyDict.keys d') <-> In k names \/ In k (PyDict.keys d).
Proof.
  induction names as [|n names IH]; intros d Hd; simpl.
  - split; [assumption | tauto].
  - destruct (IH (PyDict.set d n (f n))) as [Hnd Hin];
      [now apply keys_set_NoDup|].
    split; [exact Hnd|]. intros k. rewrite Hin, keys_set_In.
    split; [intros [H | [-> | H]] | intros [[<- | H] | H]]; auto.
Qed.

Lemma keys_stored_congr {V W : Type} (f : string -> V) (f' : string -> W)
    (names : list string) :
  forall (d : PyDict.t V) (d' : PyDict.t W),
    PyDict.keys d = PyDict.keys d' ->
    PyDict.keys (fold_left (fun d n => PyDict.set d n (f n)) names d)
    = PyDict.keys (fold_left (fun d n => PyDict.set d n (f' n)) names d').
Proof.
  induction names as [|n names IH]; intros d d' Hk; simpl; [assumption|].
  apply IH. now apply keys_set_congr.
Qed.

(** ** The history kept across epochs *)

(** The first epoch creates one single-valued column per log entry. *)
Lemma first_epoch_columns (logs : PyDict.t Q) :
  forall d : PyDict.t (list Q),
    NoDup (PyDict.keys logs) ->
    (forall k, In k (PyDict.keys logs) -> ~ In k (PyDict.keys d)) ->
    fold_left (fun d kv => setdefault_append d (fst kv) (snd kv)) logs d
    = d ++ map (fun kv => (fst kv, [snd kv])) logs.
Proof.
  induction logs as [|[k v] logs IH]; intros d Hnd Hnew; simpl.
  - now rewrite app_nil_r.
  - inversion Hnd as [|? ? Hk Hrest]; subst.
    assert (Hd : ~ In k (PyDict.keys d)) by (apply Hnew; now left).
    unfold setdefault_append at 2. rewrite (get_absent d k Hd).
    rewrite (set_absent d k [v] Hd).
    rewrite IH; [now rewrite <- app_assoc | assumption |].
    intros k' Hk'. unfold PyDict.keys. rewrite map_app, in_app_iff.
    simpl. intros [Hin | [<- | []]].
    + apply (Hnew k'); [now right | exact Hin].
    + exact (Hk Hk').
Qed.

(** A later epoch extends every column by the value logged under its
    name. *)
Lemma later_epoch_columns (logs : PyDict.t Q) :
  forall done todo : PyDict.t (list Q),
    NoDup (PyDict.keys logs) ->
    PyDict.keys todo = PyDict.keys logs ->
    (forall k, In k (PyDict.keys logs) -> ~ In k (PyDict.keys done)) ->
    fold_left (fun d kv => setdefault_append d (fst kv) (snd kv)) logs
      (done ++ todo)
    = done ++
      map (fun p => (fst (fst p), snd (fst p) ++ [snd (snd p)]))
        (combine todo logs).
Proof.
  induction logs as [|[k v] logs IH]; intros done todo Hnd Hkeys Hnew.
  - destruct todo; [|discriminate]. reflexivity.
  - destruct todo as [|[k' col] todo]; [discriminate|].
    simpl in Hkeys. injection Hkeys as -> Hkeys.
    inversion Hnd as [|? ? Hk Hrest]; subst.
    assert (Hd : ~ In k (PyDict.keys done)) by (apply Hnew; now left).
    simpl fold_left. unfold setdefault_append at 2.
    rewrite (get_app_absent done _ k Hd). simpl PyDict.get.
    rewrite String.eqb_refl.
    rewrite (set_app_head done todo k col (col ++ [v]) Hd).
    change (done ++ (k, col ++ [v]) :: todo)
      with (done ++ [(k, col ++ [v])] ++ todo).
    rewrite app_assoc. rewrite IH; [| assumption | assumption |].
    + rewrite <- app_assoc. reflexivity.
    + intros k' Hk'. unfold PyDict.keys. rewrite map_app, in_app_iff.
      simpl. intros [Hin | [<- | []]].
      * apply (Hnew k'); [now right | exact Hin].
      * exact (Hk Hk').
Qed.

Lemma combine_keys (todo : PyDict.t (list Q)) (logs : PyDict.t Q) :
  PyDict.keys todo = PyDict.keys logs ->
  PyDict.keys
    (map (fun p => (fst (fst p), snd (fst p) ++ [snd (snd p)]))
       (combine todo logs))
  = PyDict.keys logs.
Proof.
  revert logs. induction todo as [|[k col] todo IH]; intros [|[k' v] logs];
    simpl; intros Hk; try discriminate; [reflexivity|].
  injection Hk as -> Hk. f_equal. now apply IH.
Qed.

Lemma combine_lengths (c : nat) (todo : PyDict.t (list Q))
    (logs : PyDict.t Q) :
  Forall (fun kv => length (snd kv) = c) todo ->
  Forall (fun kv => length (snd kv) = S c)
    (map (fun p => (fst (fst p), snd (fst p) ++ [snd (snd p)]))
       (combine todo logs)).
Proof.
  revert logs. induction todo as [|[k col] todo IH]; intros logs Hc.
  - constructor.
  - destruct logs as [|[k' v] logs]; [constructor|].
    inversion Hc as [|? ? Hhd Htl]; subst. simpl. constructor.
    + simpl. rewrite length_app. simpl in *. lia.
    + now apply IH.
Qed.

(** One epoch more: the history has the keys of the logs, and every column
    is one value longer. *)
Lemma history_step (c : nat) (d : PyDict.t (list Q)) (logs : PyDict.t Q) :
  NoDup (PyDict.keys logs) ->
  (c = 0 /\ d = []) \/
  (0 < c /\ PyDict.keys d = PyDict.keys logs /\
   Forall (fun kv => length (snd kv) = c) d) ->
  PyDict.keys
    (fold_left (fun d kv => setdefault_append d (fst kv) (snd kv)) logs d)
  = PyDict.keys logs /\
  Forall (fun kv => length (snd kv) = S c)
    (fold_left (fun d kv => setdefault_append d (fst kv) (snd kv)) logs d).
Proof.
  intros Hnd [[-> ->] | (Hc & Hk & Hlen)].
  - rewrite first_epoch_columns by (auto; intros k _ []). simpl. split.
    + unfold PyDict.keys. rewrite map_map. reflexivity.
    + apply Forall_forall. intros kv Hin. apply in_map_iff in Hin.
      destruct Hin as (x & <- & _). reflexivity.
  - assert (Hlater := later_epoch_columns logs [] d Hnd Hk
                        (fun k _ (F : In k (PyDict.keys [])) => F)).
    simpl in Hlater. rewrite Hlater.
    split; [now apply combine_keys | now apply combine_lengths].
Qed.

Lemma pd_DataFrame_same_length (c : nat) (d : PyDict.t (list Q)) :
  Forall (fun kv => length (snd kv) = c) d -> pd_DataFrame d = inr d.
Proof.
  intros Hc. destruct d as [|[k col] d]; [reflexivity|].
  unfold pd_DataFrame.
  replace (same_length (length col) ((k, col) :: d)) with true;
    [reflexivity|].
  symmetry. apply forallb_forall. intros kv Hin.
  rewrite Forall_forall in Hc.
  pose proof (Hc kv Hin) as Hkv.
  pose proof (Hc (k, col) (or_introl eq_refl)) as Hcol.
  simpl in Hcol. apply Nat.eqb_eq. congruence.
Qed.

Lemma In_entry_get {V : Type} (d : PyDict.t V) (k : string) (v : V) :
  PyDict.get d k = Some v -> In (k, v) d.
Proof.
  induction d as [|[k' v'] d IH]; simpl; [discriminate|].
  destruct (String.eqb_spec k' k) as [-> | Hne].
  - intros [= ->]. now left.
  - intros H. right. now apply IH.
Qed.

(** ** Lookup after update *)

Lemma get_set_same {V : Type} (d : PyDict.t V) (k : string) (v : V) :
  PyDict.get (PyDict.set d k v) k = Some v.
Proof.
  induction d as [|[k' v'] d IH]; simpl.
  - now rewrite String.eqb_refl.
  - destruct (String.eqb_spec k' k) as [-> | Hne]; simpl.
    + now rewrite String.eqb_refl.
    + destruct (String.eqb_spec k' k); [contradiction | exact IH].
Qed.

Lemma get_set_other {V : Type} (d : PyDict.t V) (k k' : string) (v : V) :
  k' <> k -> PyDict.get (PyDict.set d k v) k' = PyDict.get d k'.
Proof.
  intros Hne. induction d as [|[k0 v0] d IH]; simpl.
  - destruct (String.eqb_spec k k'); [congruence | reflexivity].
  - destruct (String.eqb_spec k0 k) as [-> | Hne0]; simpl.
    + destruct (String.eqb_spec k k'); [congruence | reflexivity].
    + destruct (String.eqb_spec k0 k'); [reflexivity | exact IH].
Qed.

(** A dict filled with one value per name holds, under each name, the
    value of that name. *)
Lemma stored_get {V : Type} (f : string -> V) (names : list string)
    (k : string) :
  forall d : PyDict.t V,
    In k names \/ PyDict.get d k = Some (f k) ->
    PyDict.get (fold_left (fun d n => PyDict.set d n (f n)) names d) k
    = Some (f k).
Proof.
  induction names as [|n names IH]; intros d H; simpl.
  - destruct H as [[] | H]. exact H.
  - apply IH. destruct (string_dec n k) as [-> | Hne].
    + right. apply get_set_same.
    + destruct H as [[Heq | Hin] | Hget]; [contradiction | now left |].
      right. rewrite get_set_other by congruence. exact Hget.
Qed.

(** ** The feature dict *)

(** The first name of a list that is not a column, when there is one. *)
Lemma first_missing (dataset : DataFrame) (names : list string) :
  (exists f, In f names /\ df_contains dataset f = false) ->
  exists pre f post,
    names = pre ++ f :: post /\
    (forall p, In p pre -> df_contains dataset p = true) /\
    df_contains dataset f = false.
Proof.
  induction names as [|n names IH]; intros (f & Hin & Hf); [destruct Hin|].
  destruct (df_contains dataset n) eqn:En.
  - destruct Hin as [-> | Hin]; [congruence|].
    destruct IH as (pre & f' & post & -> & Hpre & Hf'); [now exists f|].
    exists (n :: pre), f', post. split; [reflexivity|]. split; [|exact Hf'].
    intros p [<- | Hp]; auto.
  - exists [], n, names. split; [reflexivity|]. split; [intros p []|exact En].
Qed.

Lemma for_fold_feature_missing (dataset : DataFrame) (pre post : list string)
    (f : string) :
  (forall p, In p pre -> df_contains dataset p = true) ->
  df_contains dataset f = false ->
  forall (acc : Features) (g : Globals),
    for_fold (pre ++ f :: post) acc
      (fun feature_name acc =>
         col <- lift (df_getitem dataset feature_name) ;;
         ret (PyDict.set acc feature_name col)) g
    = lift (inl (KeyError f)) g.
Proof.
  intros Hpre Hf. induction pre as [|p pre IH]; intros acc g; simpl.
  - apply bind_lift_inl. rewrite feature_dict_step.
    unfold df_contains, PyDict.contains in Hf.
    unfold df_getitem, PyDict.getitem.
    now destruct (PyDict.get dataset f).
  - assert (Hp : df_contains dataset p = true) by (apply Hpre; now left).
    unfold df_contains, PyDict.contains in Hp.
    destruct (PyDict.get dataset p) as [col|] eqn:E; [|discriminate].
    rewrite (bind_lift_inr _ _ (PyDict.set acc p col)).
    + apply IH. intros q Hq. apply Hpre. now right.
    + rewrite feature_dict_step. unfold df_getitem, PyDict.getitem.
      now rewrite E.
Qed.

(** A missing column stops the construction of the feature dict with the
    [KeyError] of the first missing name. *)
Lemma feature_dict_missing (dataset : DataFrame) (pre post : list string)
    (f : string) (g : Globals) :
  (forall p, In p pre -> df_contains dataset p = true) ->
  df_contains dataset f = false ->
  feature_dict dataset (pre ++ f :: post) g = lift (inl (KeyError f)) g.
Proof.
  intros Hpre Hf. unfold feature_dict.
  now apply for_fold_feature_missing.
Qed.

Lemma for_fold_feature_content (dataset : DataFrame) (names : list string) :
  forall acc : Features,
    (forall f, In f names -> df_contains dataset f = true) ->
    NoDup (PyDict.keys acc) ->
    (forall k, In k (PyDict.keys acc) ->
               PyDict.get acc k = PyDict.get dataset k) ->
    exists x,
      (forall g,
         for_fold names acc
           (fun feature_name acc =>
              col <- lift (df_getitem dataset feature_name) ;;
              ret (PyDict.set acc feature_name col)) g
         = lift (inr x) g) /\
      NoDup (PyDict.keys x) /\
      (forall k, In k (PyDict.keys x) <-> In k names \/ In k (PyDict.keys acc))
      /\
      (forall k, In k (PyDict.keys x) ->
                 PyDict.get x k = PyDict.get dataset k).
Proof.
  induction names as [|n names IH]; intros acc Hcols Hnd Hacc.
  - exists acc. split; [reflexivity|]. split; [exact Hnd|].
    split; [simpl; tauto | exact Hacc].
  - assert (Hn : df_contains dataset n = true) by (apply Hcols; now left).
    unfold df_contains, PyDict.contains in Hn.
    destruct (PyDict.get dataset n) as [col|] eqn:E; [|discriminate].
    destruct (IH (PyDict.set acc n col)) as (x & Hrun & Hxnd & Hkeys & Hget).
    + intros f Hf. apply Hcols. now right.
    + now apply keys_set_NoDup.
    + intros k Hk. apply keys_set_In in Hk.
      destruct (string_dec k n) as [-> | Hne].
      * now rewrite get_set_same.
      * rewrite get_set_other by exact Hne. apply Hacc.
        destruct Hk as [-> | Hk]; [contradiction | exact Hk].
    + exists x. split; [|split; [exact Hxnd | split; [|exact Hget]]].
      * intros g. simpl.
        rewrite (bind_lift_inr _ _ (PyDict.set acc n col)); [apply Hrun|].
        rewrite feature_dict_step. unfold df_getitem, PyDict.getitem.
        now rewrite E.
      * intros k. rewrite Hkeys, keys_set_In. simpl.
        intuition congruence.
Qed.

(** With every named column present the feature dict has exactly the
    names as keys, once each, and holds under each name the column of that
    name. *)
Lemma feature_dict_content (dataset : DataFrame) (names : list string) :
  (forall f, In f names -> df_contains dataset f = true) ->
  exists x,
    (forall g, feature_dict dataset names g = lift (inr x) g) /\
    NoDup (PyDict.keys x) /\
    (forall k, In k (PyDict.keys x) <-> In k names) /\
    (forall k, In k names -> PyDict.get x k = PyDict.get dataset k).
Proof.
  intros Hcols.
  destruct (for_fold_feature_content dataset names [] Hcols)
    as (x & Hrun & Hnd & Hkeys & Hget);
    [constructor | intros k [] |].
  exists x. split; [exact Hrun|]. split; [exact Hnd|]. split.
  - intros k. rewrite Hkeys. simpl. tauto.
  - intros k Hk. apply Hget, Hkeys. now left.
Qed.

(** ** Training *)

Section Training.
Context {K : Keras}.

Lemma epoch_logs_keys (w : weights) (names : list string) (x : Features)
    (y : list Z) (bs : Z) :
  NoDup (PyDict.keys (epoch_logs w names x y bs)) /\
  forall k, In k (PyDict.keys (epoch_logs w names x y bs)) <-> In k names.
Proof.
  destruct (keys_stored (fun n => epoch_metric w n x y bs) names [])
    as [Hnd Hin]; [constructor|].
  split; [exact Hnd|]. intros k. unfold epoch_logs. rewrite Hin.
  simpl. tauto.
Qed.

Lemma epoch_logs_keys_same (w w' : weights) (names : list string)
    (x : Features) (y : list Z) (bs : Z) :
  PyDict.keys (epoch_logs w names x y bs)
  = PyDict.keys (epoch_logs w' names x y bs).
Proof. unfold epoch_logs. now apply keys_stored_congr. Qed.

(** What [fit] has recorded after [n] more passes, starting at the pass of
    index [k] with [c] passes recorded so far. *)
Lemma fit_loop_history (names : list string) (x : Features) (y : list Z)
    (bs : Z) (w0 : weights) (n : nat) :
  forall (k : Z) (c : nat) (w : weights) (h : History),
    (c = 0 /\ history h = []) \/
    (0 < c /\
     PyDict.keys (history h) = PyDict.keys (epoch_logs w0 names x y bs) /\
     Forall (fun kv => length (snd kv) = c) (history h)) ->
    let h' := snd (fit_loop n k names x y bs w h) in
    epoch h' = epoch h ++ map (fun i => (k + Z.of_nat i)%Z) (seq 0 n) /\
    ((c + n = 0 /\ history h' = []) \/
     (0 < c + n /\
      PyDict.keys (history h') = PyDict.keys (epoch_logs w0 names x y bs) /\
      Forall (fun kv => length (snd kv) = c + n) (history h'))).
Proof.
  induction n as [|n IH]; intros k c w h Hh; cbv zeta.
  - simpl. rewrite app_nil_r, Nat.add_0_r. split; [reflexivity|].
    destruct Hh as [[-> Hh] | (Hc & Hk & Hlen)]; [left | right]; auto.
  - simpl fit_loop.
    set (w' := train_pass w x y bs).
    destruct (epoch_logs_keys w' names x y bs) as [Hnd _].
    assert (Hstep :
              PyDict.keys (history (on_epoch_end h k
                                      (epoch_logs w' names x y bs)))
              = PyDict.keys (epoch_logs w0 names x y bs) /\
              Forall (fun kv => length (snd kv) = S c)
                (history (on_epoch_end h k (epoch_logs w' names x y bs)))).
    { rewrite (epoch_logs_keys_same w0 w'). simpl history.
      apply history_step; [exact Hnd|].
      destruct Hh as [Hz | (Hc & Hk & Hlen)]; [now left | right].
      rewrite (epoch_logs_keys_same w' w0). auto. }
    destruct (IH (k + 1)%Z (S c) w'
                (on_epoch_end h k (epoch_logs w' names x y bs)))
      as [Hep Hhist].
    { right. split; [lia | exact Hstep]. }
    cbv zeta in Hep, Hhist. split.
    + rewrite Hep. simpl epoch. rewrite <- app_assoc. f_equal.
      simpl. rewrite Z.add_0_r. f_equal.
      rewrite <- seq_shift, map_map. apply map_ext. intros i. lia.
    + right. destruct Hhist as [[Hz _] | (_ & Hk & Hlen)]; [lia|].
      replace (c + S n) with (S c + n) by lia. split; [lia | auto].
Qed.

Lemma fit_loop_frame (names : list string) (x : Features) (y : list Z)
    (bs : Z) (w : weights) (n : nat) :
  pd_DataFrame
    (history (snd (fit_loop n 0 names x y bs w
                     {| epoch := []; history := [] |})))
  = inr (history (snd (fit_loop n 0 names x y bs w
                         {| epoch := []; history := [] |}))).
Proof.
  destruct (fit_loop_history names x y bs w n 0%Z 0 w
              {| epoch := []; history := [] |}
              (or_introl (conj eq_refl eq_refl)))
    as [_ [[_ Hempty] | (_ & _ & Hlen)]].
  - rewrite Hempty. reflexivity.
  - now apply (pd_DataFrame_same_length _ _ Hlen).
Qed.

(** With every named column present, the feature dict built is
    [feature_columns]. *)
Lemma feature_dict_columns (dataset : DataFrame) (names : list string) :
  (forall f, In f names -> df_contains dataset f = true) ->
  forall g,
    feature_dict dataset names g
    = lift (inr (feature_columns dataset names)) g.
Proof.
  unfold feature_dict, feature_columns. generalize ([] : Features).
  induction names as [|n names IH]; intros acc Hcols g; simpl.
  - reflexivity.
  - assert (Hn : df_contains dataset n = true) by (apply Hcols; now left).
    unfold df_contains, PyDict.contains in Hn.
    destruct (PyDict.get dataset n) as [col|] eqn:E; [|discriminate].
    rewrite (bind_lift_inr _ _ (PyDict.set acc n col)).
    + apply IH. intros f Hf. apply Hcols. now right.
    + rewrite feature_dict_step. unfold df_getitem, PyDict.getitem.
      now rewrite E.
Qed.

Lemma aligned_set (d : Features) (k : string) (col : list Q) (y : list Z) :
  aligned d y = true -> length col = length y ->
  aligned (PyDict.set d k col) y = true.
Proof.
  unfold aligned. intros Hd Hcol.
  induction d as [|[k' col'] d IH]; simpl in *.
  - rewrite Hcol, Nat.eqb_refl. reflexivity.
  - apply andb_true_iff in Hd. destruct Hd as [Hhd Htl].
    destruct (String.eqb k' k); simpl.
    + rewrite Hcol, Nat.eqb_refl. exact Htl.
    + rewrite Hhd. now apply IH.
Qed.

(** Labels that have one entry for each row of every input column are
    aligned with the feature dict. *)
Lemma aligned_columns (dataset : DataFrame) (names : list string)
    (y : list Z) :
  (forall f col, In f names -> PyDict.get dataset f = Some col ->
                 length col = length y) ->
  aligned (feature_columns dataset names) y = true.
Proof.
  unfold feature_columns.
  assert (Hacc : aligned ([] : Features) y = true) by reflexivity.
  revert Hacc. generalize ([] : Features).
  induction names as [|n names IH]; intros acc Hacc Hlen; simpl.
  - exact Hacc.
  - apply IH.
    + destruct (PyDict.get dataset n) as [col|] eqn:E; [|exact Hacc].
      apply aligned_set; [exact Hacc|]. apply (Hlen n); [now left | exact E].
    + intros f col Hf. apply Hlen. now right.
Qed.

(** One [fit]: the request is recorded; misaligned labels and a rejected
    request end in an exception with the model object untouched; otherwise
    the object gets the trained weights and the history is returned. *)
Lemma model_fit_outcome (m : Model) (x : Features) (y : list Z)
    (bs epochs_ : Z) (g : Globals) :
  model_fit m x y bs epochs_ g
  = if aligned x y then
      match fit_rejects x y bs epochs_ with
      | Some e => mkOutcome (inl e) g [model_fit_call x y bs epochs_]
      | None =>
          mkOutcome
            (inr (snd (fit_result (g_models g m) x y bs epochs_)))
            (globals_after
               (store_weights m
                  (fst (fit_result (g_models g m) x y bs epochs_)) g))
            [model_fit_call x y bs epochs_]
      end
    else
      mkOutcome (inl (misaligned x y)) g [model_fit_call x y bs epochs_].
Proof.
  unfold model_fit, validate_request, bind, model_object, call, raise, ret.
  cbn [result globals_after calls].
  destruct (aligned x y); cbn [negb result globals_after calls app];
    [|reflexivity].
  destruct (fit_rejects x y bs epochs_); cbn [result globals_after calls app];
    [reflexivity|].
  destruct (fit_result (g_models g m) x y bs epochs_) as [w' h].
  reflexivity.
Qed.

(** The experiment that [train_model] builds from the history of a
    [fit]. *)
Lemma train_model_outcome (experiment_name : string) (model_ : Model)
    (dataset : DataFrame) (labels : list Z) (settings_ : ExperimentSettings)
    (x : Features) (g : Globals) :
  (forall g', feature_dict dataset (input_features settings_) g'
              = lift (inr x) g') ->
  let request :=
    model_fit_call x labels (batch_size settings_)
      (number_epochs settings_) in
  let fitted :=
    fit_result (g_models g model_) x labels (batch_size settings_)
      (number_epochs settings_) in
  train_model experiment_name model_ dataset labels settings_ g
  = if aligned x labels then
      match fit_rejects x labels (batch_size settings_)
              (number_epochs settings_) with
      | Some e => mkOutcome (inl e) g [request]
      | None =>
          mkOutcome
            (inr {| name := experiment_name;
                    settings := settings_;
                    model := model_;
                    epochs := epoch (snd fitted);
                    metrics_history := history (snd fitted) |})
            (globals_after (store_weights model_ (fst fitted) g))
            [request]
      end
    else
      mkOutcome (inl (misaligned x labels)) g [request].
Proof.
  intros Hx. cbv zeta. unfold train_model.
  rewrite (bind_lift_inr _ _ x g (Hx g)).
  unfold bind at 1. rewrite model_fit_outcome.
  destruct (aligned x labels); [|reflexivity].
  destruct (fit_rejects x labels (batch_size settings_)
              (number_epochs settings_)); [reflexivity|].
  cbn [result globals_after calls].
  unfold bind, lift, ret. cbn [result globals_after calls].
  unfold fit_result. rewrite fit_loop_frame. reflexivity.
Qed.

(** The history of a [fit] with at least one epoch: the epochs are the
    indices of the passes, the columns are the names the model reports,
    once each, and every column has one value per epoch. *)
Lemma fit_result_history (obj : ModelObject) (x : Features) (y : list Z)
    (bs epochs_ : Z) :
  (0 < epochs_)%Z ->
  let h := snd (fit_result obj x y bs epochs_) in
  epoch h = arange (Z.to_nat epochs_) /\
  NoDup (PyDict.keys (history h)) /\
  (forall k, In k (PyDict.keys (history h)) <-> In k (reported_metrics obj))
  /\
  Forall (fun kv => length (snd kv) = Z.to_nat epochs_) (history h).
Proof.
  intros Hpos. cbv zeta. unfold fit_result.
  pose proof (fit_loop_history (reported_metrics obj) x y bs (m_weights obj)
                (Z.to_nat epochs_) 0%Z 0 (m_weights obj)
                {| epoch := []; history := [] |}
                (or_introl (conj eq_refl eq_refl))) as Hfit.
  cbv zeta in Hfit. destruct Hfit as [Hep Hhist].
  destruct Hhist as [[Hz _] | (_ & Hkeys & Hlen)]; [lia|].
  simpl in Hlen.
  destruct (epoch_logs_keys (m_weights obj) (reported_metrics obj) x y bs)
    as [Hnd Hin].
  split.
  { rewrite Hep. simpl. unfold arange. apply map_ext. intros i. lia. }
  rewrite Hkeys. split; [exact Hnd|]. split; [exact Hin | exact Hlen].
Qed.

(** C1, as the code and the modelling library have it. For valid settings,
    a dataset that has a column for every input feature, labels that have
    one entry for each row of these columns, and a request that the
    modelling library accepts, [train_model] returns an experiment that
    holds the name, the settings and the model reference it was given,
    whose epochs are the indices 0, 1, ..., up to the number of epochs
    excluded (as many as the number of epochs), and whose metrics history
    has one column for [loss], one for each metric the model was compiled
    with, and no other, each column with one value per epoch. *)
Theorem train_model_history (experiment_name : string) (model_ : Model)
    (dataset : DataFrame) (labels : list Z) (settings_ : ExperimentSettings)
    (g : Globals) :
  valid_settings settings_ ->
  (forall f, In f (input_features settings_) ->
             df_contains dataset f = true) ->
  (forall f col, In f (input_features settings_) ->
                 PyDict.get dataset f = Some col ->
                 length col = length labels) ->
  fit_rejects (feature_columns dataset (input_features settings_)) labels
    (batch_size settings_) (number_epochs settings_) = None ->
  exists e,
    result (train_model experiment_name model_ dataset labels settings_ g)
    = inr e /\
    name e = experiment_name /\ settings e = settings_ /\
    model e = model_ /\
    epochs e = arange (Z.to_nat (number_epochs settings_)) /\
    Z.of_nat (length (epochs e)) = number_epochs settings_ /\
    NoDup (df_columns (metrics_history e)) /\
    (forall k, In k (df_columns (metrics_history e))
               <-> k = "loss" \/ In k (m_metrics (g_models g model_))) /\
    (forall k col, df_getitem (metrics_history e) k = inr col ->
                   Z.of_nat (length col) = number_epochs settings_).
Proof.
  intros (_ & Hepochs & _) Hcols Hrows Haccepted.
  rewrite (train_model_outcome experiment_name model_ dataset labels
             settings_ _ g (feature_dict_columns dataset _ Hcols)).
  rewrite (aligned_columns dataset _ labels Hrows), Haccepted.
  destruct (fit_result_history (g_models g model_)
              (feature_columns dataset (input_features settings_)) labels
              (batch_size settings_) (number_epochs settings_) Hepochs)
    as (Hep & Hnd & Hin & Hlen).
  eexists. split; [reflexivity|].
  cbn [name settings model epochs metrics_history].
  do 3 (split; [reflexivity|]). split; [exact Hep|]. split.
  { rewrite Hep. unfold arange. rewrite length_map, length_seq. lia. }
  unfold df_columns. split; [exact Hnd|]. split.
  { intros k. rewrite Hin. unfold reported_metrics. simpl.
    split; intros [H | H]; auto. }
  intros k col Hget. unfold df_getitem, PyDict.getitem in Hget.
  match type of Hget with
  | match PyDict.get ?d k with _ => _ end = _ =>
      destruct (PyDict.get d k) as [col'|] eqn:E; [|discriminate]
  end.
  injection Hget as ->. apply In_entry_get in E.
  rewrite Forall_forall in Hlen. specialize (Hlen _ E). simpl in Hlen.
  lia.
Qed.
End Training.

Lemma train_model_history_witness :
  exists e,
    result (train_model "small_batch" accuracy_model sample_dataset
              sample_labels small_batch_settings script_globals)
    = inr e /\
    name e = "small_batch" /\ settings e = small_batch_settings /\
    model e = accuracy_model /\
    epochs e = arange (Z.to_nat (number_epochs small_batch_settings)) /\
    Z.of_nat (length (epochs e)) = number_epochs small_batch_settings /\
    NoDup (df_columns (metrics_history e)) /\
    (forall k, In k (df_columns (metrics_history e))
               <-> k = "loss"
                   \/ In k (m_metrics
                              (g_models script_globals accuracy_model))) /\
    (forall k col, df_getitem (metrics_history e) k = inr col ->
                   Z.of_nat (length col)
                   = number_epochs small_batch_settings).
Proof.
  apply (train_model_history "small_batch" accuracy_model sample_dataset
           sample_labels small_batch_settings script_globals).
  - repeat split; try reflexivity; discriminate.
  - intros f [<- | []]. reflexivity.
  - intros f col [<- | []] [= <-]. reflexivity.
  - reflexivity.
Defined.

(** C1 fails as stated, in two ways. Training the model compiled with the
    one metric [accuracy] on the sample dataset, with valid settings and
    every input column present, gives a history with the two columns
    [loss] and [accuracy]: [loss] is no metric the model was instrumented
    with. And with the same settings and dataset but no label at all,
    [train_model] returns no experiment: the modelling library's error for
    misaligned labels propagates. *)
Lemma train_model_history_counterexample :
  valid_settings small_batch_settings /\
  (forall f, In f (input_features small_batch_settings) ->
             df_contains sample_dataset f = true) /\
  m_metrics (g_models script_globals accuracy_model) = ["accuracy"] /\
  (exists e,
     result (train_model "small_batch" accuracy_model sample_dataset
               sample_labels small_batch_settings script_globals)
     = inr e /\
     df_columns (metrics_history e) = ["loss"; "accuracy"] /\
     ~ In "loss" (m_metrics (g_models script_globals accuracy_model))) /\
  (exists err,
     result (train_model "small_batch" accuracy_model sample_dataset []
               small_batch_settings script_globals)
     = inl err).
Proof.
  split.
  { repeat split; try reflexivity; discriminate. }
  split.
  { intros f [<- | []]. reflexivity. }
  split; [reflexivity|]. split; [|eexists; reflexivity].
  eexists. split; [reflexivity|]. split; [reflexivity|].
  intros [H | []]. discriminate H.
Qed.

(** * Further properties *)

(** ** Training and evaluation requests *)

Section Requests.
Context {K : Keras}.

(** X1. When the dataset lacks a column for some input feature,
    [train_model] raises the [KeyError] of the first such feature in the
    order of [input_features]; it does so before asking the model for
    anything: the trace is empty and the globals are untouched. *)
Theorem train_model_missing_feature (experiment_name : string)
    (model_ : Model) (dataset : DataFrame) (labels : list Z)
    (settings_ : ExperimentSettings) (g : Globals) :
  (exists f, In f (input_features settings_) /\
             df_contains dataset f = false) ->
  exists pre f post,
    input_features settings_ = pre ++ f :: post /\
    (forall p, In p pre -> df_contains dataset p = true) /\
    df_contains dataset f = false /\
    train_model experiment_name model_ dataset labels settings_ g
    = mkOutcome (inl (KeyError f)) g [].
Proof.
  intros Hex.
  destruct (first_missing dataset _ Hex) as (pre & f & post & Hsplit & Hpre & Hf).
  exists pre, f, post. repeat (split; [assumption|]).
  unfold train_model. rewrite Hsplit.
  apply bind_lift_inl. now apply feature_dict_missing.
Qed.

(** The feature dict of a dataset that has every named column: its keys
    are the names, once each, and each holds the dataset column of that
    name. *)
Lemma feature_columns_content (dataset : DataFrame) (names : list string) :
  (forall f, In f names -> df_contains dataset f = true) ->
  NoDup (PyDict.keys (feature_columns dataset names)) /\
  (forall k, In k (PyDict.keys (feature_columns dataset names))
             <-> In k names) /\
  (forall k, In k names ->
             PyDict.get (feature_columns dataset names) k
             = PyDict.get dataset k).
Proof.
  intros Hcols.
  destruct (feature_dict_content dataset names Hcols)
    as (x & Hrun & Hnd & Hkeys & Hget).
  pose proof (Hrun {| g_settings := baseline_settings;
                      g_models := fun _ =>
                        {| m_weights := []; m_metrics := [] |} |}) as Heq.
  rewrite (feature_dict_columns dataset names Hcols) in Heq.
  unfold lift in Heq. injection Heq as <-. auto.
Qed.

(** X2. Whenever the dataset has a column for every input feature,
    [train_model] asks the modelling library for exactly one training pass
    and for nothing else. That pass gets the labels as given, the batch
    size and the number of epochs of the [settings] argument, and a feature
    dict whose keys are the input features, once each, each holding the
    dataset column of that name. The module-level [settings], every model
    object other than the one trained, and the metric names of the one
    trained stay as they are. When the labels are aligned with the
    features and the library accepts the request, an experiment with the
    given name, settings and model reference is returned, and the model
    object holds the trained weights; when the labels are not aligned, or
    the library rejects the request, the exception is raised and nothing
    has changed. *)
Theorem train_model_requests_one_fit (experiment_name : string)
    (model_ : Model) (dataset : DataFrame) (labels : list Z)
    (settings_ : ExperimentSettings) (g : Globals) :
  (forall f, In f (input_features settings_) ->
             df_contains dataset f = true) ->
  let o := train_model experiment_name model_ dataset labels settings_ g in
  let x := feature_columns dataset (input_features settings_) in
  let request :=
    model_fit_call x labels (batch_size settings_)
      (number_epochs settings_) in
  let fitted :=
    fit_result (g_models g model_) x labels (batch_size settings_)
      (number_epochs settings_) in
  calls o = [request] /\
  NoDup (PyDict.keys x) /\
  (forall k, In k (PyDict.keys x) <-> In k (input_features settings_)) /\
  (forall k, In k (input_features settings_) ->
             PyDict.get x k = PyDict.get dataset k) /\
  g_settings (globals_after o) = g_settings g /\
  (forall m, m <> model_ -> g_models (globals_after o) m = g_models g m) /\
  m_metrics (g_models (globals_after o) model_)
  = m_metrics (g_models g model_) /\
  (aligned x labels = true ->
   fit_rejects x labels (batch_size settings_) (number_epochs settings_)
   = None ->
   exists e,
     result o = inr e /\ name e = experiment_name /\
     settings e = settings_ /\ model e = model_ /\
     m_weights (g_models (globals_after o) model_) = fst fitted) /\
  (aligned x labels = false ->
   o = mkOutcome (inl (misaligned x labels)) g [request]) /\
  (forall err,
     aligned x labels = true ->
     fit_rejects x labels (batch_size settings_) (number_epochs settings_)
     = Some err ->
     o = mkOutcome (inl err) g [request]).
Proof.
  intros Hcols. cbv zeta.
  destruct (feature_columns_content dataset _ Hcols) as (Hnd & Hkeys & Hget).
  rewrite (train_model_outcome experiment_name model_ dataset labels
             settings_ _ g (feature_dict_columns dataset _ Hcols)).
  destruct (aligned (feature_columns dataset (input_features settings_))
              labels).
  - destruct (fit_rejects (feature_columns dataset (input_features settings_))
                labels (batch_size settings_) (number_epochs settings_))
      as [err|].
    + cbn [calls globals_after result].
      split; [reflexivity|]. split; [exact Hnd|]. split; [exact Hkeys|].
      split; [exact Hget|]. do 3 (split; [reflexivity|]).
      split; [intros _ H; discriminate H|].
      split; [intros H; discriminate H|].
      intros err' _ [= <-]. reflexivity.
    + cbn [calls globals_after result store_weights g_settings g_models].
      split; [reflexivity|]. split; [exact Hnd|]. split; [exact Hkeys|].
      split; [exact Hget|]. split; [reflexivity|]. split.
      { intros m Hm. apply Nat.eqb_neq in Hm. now rewrite Hm. }
      rewrite Nat.eqb_refl. split; [reflexivity|]. split.
      { intros _ _. eexists. repeat split. }
      split; [intros H; discriminate H|]. intros err _ H. discriminate H.
  - cbn [calls globals_after result].
    split; [reflexivity|]. split; [exact Hnd|]. split; [exact Hkeys|].
    split; [exact Hget|]. do 3 (split; [reflexivity|]).
    split; [intros H; discriminate H|]. split; [reflexivity|].
    intros err H. discriminate H.
Qed.

(** X3. When the dataset lacks a column for some input feature of the
    run's settings, [evaluate_experiment] raises the [KeyError] of the first
    such feature and requests no evaluation from the model handle. *)
Theorem evaluate_experiment_missing_feature (e : Experiment)
    (test_dataset : DataFrame) (test_labels : list Z) (g : Globals) :
  (exists f, In f (input_features (settings e)) /\
             df_contains test_dataset f = false) ->
  exists pre f post,
    input_features (settings e) = pre ++ f :: post /\
    (forall p, In p pre -> df_contains test_dataset p = true) /\
    df_contains test_dataset f = false /\
    evaluate_experiment e test_dataset test_labels g
    = mkOutcome (inl (KeyError f)) g [].
Proof.
  intros Hex.
  destruct (first_missing test_dataset _ Hex)
    as (pre & f & post & Hsplit & Hpre & Hf).
  exists pre, f, post. repeat (split; [assumption|]).
  unfold evaluate_experiment. rewrite Hsplit.
  apply bind_lift_inl. now apply feature_dict_missing.
Qed.

(** The scores of an evaluation pass: one value for [loss] and one for
    each metric the model was compiled with, and no other key, each the
    value the library computes for that name with the weights given. *)
Lemma evaluation_scores (obj : ModelObject) (x : Features) (y : list Z)
    (bs : Z) :
  let scores :=
    fold_left
      (fun d n => PyDict.set d n (eval_metric (m_weights obj) n x y bs))
      (reported_metrics obj) [] in
  NoDup (PyDict.keys scores) /\
  (forall m, In m (PyDict.keys scores)
             <-> m = "loss" \/ In m (m_metrics obj)) /\
  (forall m, In m (PyDict.keys scores) ->
             PyDict.get scores m
             = Some (eval_metric (m_weights obj) m x y bs)).
Proof.
  cbv zeta.
  destruct (keys_stored (fun n => eval_metric (m_weights obj) n x y bs)
              (reported_metrics obj) []) as [Hnd Hin]; [constructor|].
  cbv zeta in Hnd, Hin.
  split; [exact Hnd|]. split.
  - intros m. rewrite Hin. unfold reported_metrics. simpl.
    split; [intros [[H | H] | []] | intros [H | H]]; auto.
  - intros m Hm. apply Hin in Hm.
    apply (stored_get (fun n => eval_metric (m_weights obj) n x y bs)).
    destruct Hm as [Hm | []]. now left.
Qed.

(** X4. Whenever the test dataset has a column for every input feature of
    the run's settings, [evaluate_experiment] requests exactly one
    evaluation pass and changes nothing. The features of that pass are the
    columns named by the run's own settings, its batch size is the one of
    the module-level [settings]. When the labels are aligned with the
    features and the library accepts the request, the scores returned hold
    one value for [loss] and for each metric the run's model object was
    compiled with, the value the library computes for it with the weights
    of that object, and no other key; when the labels are not aligned, or
    the library rejects the request, the exception is raised. *)
Theorem evaluate_experiment_request (e : Experiment)
    (test_dataset : DataFrame) (test_labels : list Z) (g : Globals) :
  (forall f, In f (input_features (settings e)) ->
             df_contains test_dataset f = true) ->
  let o := evaluate_experiment e test_dataset test_labels g in
  let x := feature_columns test_dataset (input_features (settings e)) in
  let obj := g_models g (model e) in
  let bs := batch_size (g_settings g) in
  calls o = [model_evaluate_call x test_labels bs] /\
  globals_after o = g /\
  NoDup (PyDict.keys x) /\
  (forall k, In k (PyDict.keys x)
             <-> In k (input_features (settings e))) /\
  (forall k, In k (input_features (settings e)) ->
             PyDict.get x k = PyDict.get test_dataset k) /\
  (aligned x test_labels = true ->
   evaluate_rejects x test_labels bs = None ->
   exists scores,
     result o = inr scores /\
     NoDup (PyDict.keys scores) /\
     (forall m, In m (PyDict.keys scores)
                <-> m = "loss" \/ In m (m_metrics obj)) /\
     (forall m, In m (PyDict.keys scores) ->
                PyDict.get scores m
                = Some (eval_metric (m_weights obj) m x test_labels bs))) /\
  (aligned x test_labels = false ->
   result o = inl (misaligned x test_labels)) /\
  (forall err,
     aligned x test_labels = true ->
     evaluate_rejects x test_labels bs = Some err ->
     result o = inl err).
Proof.
  intros Hcols. cbv zeta.
  destruct (feature_columns_content test_dataset _ Hcols)
    as (Hnd & Hkeys & Hget).
  rewrite (evaluate_experiment_pass e test_dataset test_labels _ g
             (feature_dict_columns test_dataset _ Hcols)).
  rewrite model_evaluate_outcome. cbn [calls globals_after result].
  split; [reflexivity|]. split; [reflexivity|]. split; [exact Hnd|].
  split; [exact Hkeys|]. split; [exact Hget|].
  split; [|split].
  - intros -> ->. eexists. split; [reflexivity|]. apply evaluation_scores.
  - now intros ->.
  - now intros err -> ->.
Qed.

(** X5. [get_final_metric_value] returns a value exactly when the metric
    is a column of the history and that column is not empty; for a column
    that exists but has no row it raises the [IndexError] of [iloc[-1]],
    not the [ValueError] of an unknown metric. *)
Theorem get_final_metric_value_returns_iff (e : Experiment)
    (metric_name : string) :
  ((exists v, get_final_metric_value e metric_name = inr v) <->
   (exists col, df_getitem (metrics_history e) metric_name = inr col /\
                col <> [])) /\
  (df_getitem (metrics_history e) metric_name = inr [] ->
   get_final_metric_value e metric_name
   = inl (IndexError "single positional indexer is out-of-bounds")).
Proof.
  unfold get_final_metric_value, df_contains, PyDict.contains, df_getitem,
    PyDict.getitem.
  destruct (PyDict.get (metrics_history e) metric_name) as [col|]; simpl.
  - split.
    + split.
      * intros [v Hv]. exists col. split; [reflexivity|].
        intros ->. discriminate.
      * intros (col' & [= <-] & Hne).
        destruct (exists_last Hne) as (pre & v & ->).
        exists v. apply iloc_last_snoc.
    + intros [= ->]. reflexivity.
  - split; [|discriminate].
    split; [intros [v Hv]; discriminate|].
    intros (col & Hcol & _). discriminate.
Qed.
End Requests.

Lemma train_model_missing_feature_witness :
  exists pre f post,
    ["Area"; "Perimeter"] = pre ++ f :: post /\
    (forall p, In p pre -> df_contains sample_dataset p = true) /\
    df_contains sample_dataset f = false /\
    train_model "no_perimeter" accuracy_model sample_dataset sample_labels
      {| learning_rate := 1 # 1000; number_epochs := 3; batch_size := 32;
         classification_threshold := 1 # 2;
         input_features := ["Area"; "Perimeter"] |} script_globals
    = mkOutcome (inl (KeyError f)) script_globals [].
Proof.
  apply (train_model_missing_feature "no_perimeter" accuracy_model
           sample_dataset sample_labels
           {| learning_rate := 1 # 1000; number_epochs := 3;
              batch_size := 32; classification_threshold := 1 # 2;
              input_features := ["Area"; "Perimeter"] |} script_globals).
  exists "Perimeter". split; [simpl; right; left; reflexivity | reflexivity].
Defined.

Lemma train_model_requests_one_fit_witness :
  let o :=
    train_model "small_batch" accuracy_model sample_dataset sample_labels
      small_batch_settings script_globals in
  let x :=
    feature_columns sample_dataset (input_features small_batch_settings) in
  let request :=
    model_fit_call x sample_labels (batch_size small_batch_settings)
      (number_epochs small_batch_settings) in
  let fitted :=
    fit_result (g_models script_globals accuracy_model) x sample_labels
      (batch_size small_batch_settings)
      (number_epochs small_batch_settings) in
  calls o = [request] /\
  NoDup (PyDict.keys x) /\
  (forall k, In k (PyDict.keys x)
             <-> In k (input_features small_batch_settings)) /\
  (forall k, In k (input_features small_batch_settings) ->
             PyDict.get x k = PyDict.get sample_dataset k) /\
  g_settings (globals_after o) = g_settings script_globals /\
  (forall m, m <> accuracy_model ->
             g_models (globals_after o) m = g_models script_globals m) /\
  m_metrics (g_models (globals_after o) accuracy_model)
  = m_metrics (g_models script_globals accuracy_model) /\
  (aligned x sample_labels = true ->
   fit_rejects x sample_labels (batch_size small_batch_settings)
     (number_epochs small_batch_settings) = None ->
   exists e,
     result o = inr e /\ name e = "small_batch" /\
     settings e = small_batch_settings /\ model e = accuracy_model /\
     m_weights (g_models (globals_after o) accuracy_model) = fst fitted) /\
  (aligned x sample_labels = false ->
   o = mkOutcome (inl (misaligned x sample_labels)) script_globals
         [request]) /\
  (forall err,
     aligned x sample_labels = true ->
     fit_rejects x sample_labels (batch_size small_batch_settings)
       (number_epochs small_batch_settings) = Some err ->
     o = mkOutcome (inl err) script_globals [request]).
Proof.
  apply (train_model_requests_one_fit "small_batch" accuracy_model
           sample_dataset sample_labels small_batch_settings script_globals).
  intros f [<- | []]. reflexivity.
Defined.

Lemma evaluate_experiment_missing_feature_witness :
  exists pre f post,
    input_features (settings small_batch_run) = pre ++ f :: post /\
    (forall p, In p pre -> df_contains [] p = true) /\
    df_contains [] f = false /\
    evaluate_experiment small_batch_run [] sample_labels script_globals
    = mkOutcome (inl (KeyError f)) script_globals [].
Proof.
  apply (evaluate_experiment_missing_feature small_batch_run []
           sample_labels script_globals).
  exists "Area". split; [simpl; left; reflexivity | reflexivity].
Defined.

Lemma evaluate_experiment_request_witness :
  let o :=
    evaluate_experiment small_batch_run sample_dataset sample_labels
      script_globals in
  let x :=
    feature_columns sample_dataset
      (input_features (settings small_batch_run)) in
  let obj := g_models script_globals (model small_batch_run) in
  let bs := batch_size (g_settings script_globals) in
  calls o = [model_evaluate_call x sample_labels bs] /\
  globals_after o = script_globals /\
  NoDup (PyDict.keys x) /\
  (forall k, In k (PyDict.keys x)
             <-> In k (input_features (settings small_batch_run))) /\
  (forall k, In k (input_features (settings small_batch_run)) ->
             PyDict.get x k = PyDict.get sample_dataset k) /\
  (aligned x sample_labels = true ->
   evaluate_rejects x sample_labels bs = None ->
   exists scores,
     result o = inr scores /\
     NoDup (PyDict.keys scores) /\
     (forall m, In m (PyDict.keys scores)
                <-> m = "loss" \/ In m (m_metrics obj)) /\
     (forall m, In m (PyDict.keys scores) ->
                PyDict.get scores m
                = Some (eval_metric (m_weights obj) m x sample_labels bs))) /\
  (aligned x sample_labels = false ->
   result o = inl (misaligned x sample_labels)) /\
  (forall err,
     aligned x sample_labels = true ->
     evaluate_rejects x sample_labels bs = Some err ->
     result o = inl err).
Proof.
  apply (evaluate_experiment_request small_batch_run sample_dataset
           sample_labels script_globals).
  intros f [<- | []]. reflexivity.
Defined.

(** ** Calls a computation does not make *)

Lemma silent_bind {X A B : Type} (obs : Event -> list X) (c : M A)
    (f : A -> M B) :
  silent obs c -> (forall x, silent obs (f x)) -> silent obs (bind c f).
Proof.
  intros Hc Hf g. rewrite calls_bind, flat_map_app, (Hc g).
  destruct (result (c g)) as [e | x]; [reflexivity|].
  apply (Hf x).
Qed.

Lemma silent_pointwise {X A : Type} (obs : Event -> list X) (c : M A)
    (r : exn + A) :
  (forall g, c g = lift r g) -> silent obs c.
Proof. intros H g. now rewrite H. Qed.

Lemma silent_call {X : Type} (obs : Event -> list X) (ev : Event) :
  obs ev = [] -> silent obs (call ev).
Proof. intros H g. simpl. now rewrite H. Qed.

Lemma silent_for_each {X A : Type} (obs : Event -> list X) (l : list A)
    (body : A -> M unit) :
  (forall x, silent obs (body x)) -> silent obs (for_each l body).
Proof.
  intros Hbody. induction l as [|x l IH]; simpl.
  - intros g. reflexivity.
  - apply silent_bind; [apply Hbody | intros _; exact IH].
Qed.

Section MoreComparison.
Context {K : Keras}.

(** The curve-drawing loop draws curves only. *)
Lemma plot_train_metrics_silent {X : Type} (obs : Event -> list X)
    (experiments : list Experiment) (metrics_of_interest colors : list string) :
  (forall x y every marker size color,
     obs (plt_plot x y every marker size color) = []) ->
  silent obs (plot_train_metrics experiments metrics_of_interest colors).
Proof.
  intros Hobs. unfold plot_train_metrics.
  apply silent_for_each. intros im. apply silent_for_each. intros je.
  apply silent_bind; [now apply (silent_pointwise _ _ _ (fun g => eq_refl))|].
  intros y.
  apply silent_bind; [now apply (silent_pointwise _ _ _ (fun g => eq_refl))|].
  intros marker.
  apply silent_bind; [now apply (silent_pointwise _ _ _ (fun g => eq_refl))|].
  intros color. apply silent_call, Hobs.
Qed.

Lemma all_available_no_runs (metrics_of_interest : list string) :
  all_available (@nil Experiment) metrics_of_interest = true.
Proof. apply all_available_true. intros m e _ []. Qed.

(** X6. With an empty list of experiments and at most six metrics of
    interest, [compare_experiment] draws the first subplot with a legend of
    the metric markers alone, opens the second subplot and then fails with
    the [ZeroDivisionError] of dividing by the number of experiments; no
    curve, no bar and no evaluation precede the failure. *)
Theorem compare_experiment_no_runs (metrics_of_interest : list string)
    (test_dataset : DataFrame) (test_labels : list Z) (g : Globals) :
  length metrics_of_interest <= 6 ->
  compare_experiment [] metrics_of_interest test_dataset test_labels g
  = mkOutcome (inl (ZeroDivisionError "float division by zero")) g
      [ plt_figure 12 12; fig_add_subplot 2 1 1;
        ax_set_title "Train metrics"; ax_set_xlabel "Epoch";
        ax_set_ylabel "Metric value"; ax_grid;
        ax_legend
          (Some (map (fun im => metric_handle (fst im) (snd im))
                   (enumerate metrics_of_interest)));
        fig_add_subplot 2 1 2 ].
Proof.
  intros Hlen.
  destruct (check_metrics_outcome [] metrics_of_interest)
    as [[_ Hcheck] | [Hno _]];
    [|rewrite all_available_no_runs in Hno; discriminate].
  unfold compare_experiment.
  rewrite (bind_lift_inr _ _ tt g (Hcheck g)).
  apply (bind_outcome_inr _ _ tt g [plt_figure 12 12]); [reflexivity|].
  apply (bind_outcome_inr _ _ tt g [fig_add_subplot 2 1 1]); [reflexivity|].
  cbv zeta.
  apply (bind_outcome_inr _ _ tt g [ax_set_title "Train metrics"]);
    [reflexivity|].
  apply (bind_outcome_inr _ _ tt g []).
  { unfold plot_train_metrics. apply plot_rows_no_runs. }
  apply (bind_outcome_inr _ _
           (map (fun im => metric_handle (fst im) (snd im))
              (enumerate metrics_of_interest)) g []).
  { rewrite legend_handles_outcome.
    apply Nat.leb_le in Hlen. rewrite Hlen. simpl. now rewrite app_nil_r. }
  apply (bind_outcome_inr _ _ tt g [ax_set_xlabel "Epoch"]); [reflexivity|].
  apply (bind_outcome_inr _ _ tt g [ax_set_ylabel "Metric value"]);
    [reflexivity|].
  apply (bind_outcome_inr _ _ tt g [ax_grid]); [reflexivity|].
  apply (bind_outcome_inr _ _ tt g [_]); [reflexivity|].
  unfold draw_test_subplot.
  apply (bind_outcome_inr _ _ tt g [fig_add_subplot 2 1 2] []);
    [reflexivity|].
  reflexivity.
Qed.
End MoreComparison.

Lemma compare_experiment_no_runs_witness :
  compare_experiment (@nil Experiment) ["accuracy"]
    sample_dataset sample_labels script_globals
  = mkOutcome (inl (ZeroDivisionError "float division by zero"))
      script_globals
      [ plt_figure 12 12; fig_add_subplot 2 1 1;
        ax_set_title "Train metrics"; ax_set_xlabel "Epoch";
        ax_set_ylabel "Metric value"; ax_grid;
        ax_legend
          (Some (map (fun im => metric_handle (fst im) (snd im))
                   (enumerate ["accuracy"])));
        fig_add_subplot 2 1 2 ].
Proof.
  apply (@compare_experiment_no_runs counting_keras ["accuracy"]
           sample_dataset sample_labels script_globals).
  simpl. lia.
Defined.

(** ** A comparison that completes *)

Lemma bar_groups_app (evs evs' : list Event) :
  bar_groups (evs ++ evs') = bar_groups evs ++ bar_groups evs'.
Proof. apply flat_map_app. Qed.

Lemma for_list_getitem (scores : PyDict.t Q) (names : list string) :
  (forall m, In m names -> exists v, PyDict.get scores m = Some v) ->
  exists hs,
    length hs = length names /\
    forall g,
      for_list names (fun metric => lift (PyDict.getitem scores metric)) g
      = lift (inr hs) g.
Proof.
  induction names as [|n names IH]; intros Hget.
  - exists []. split; reflexivity.
  - destruct (Hget n (or_introl eq_refl)) as [v Hv].
    destruct IH as (hs & Hlen & Hrun).
    { intros m Hm. apply Hget. now right. }
    exists (v :: hs). split; [simpl; now rewrite Hlen|].
    intros g. simpl.
    rewrite (bind_lift_inr _ _ v g).
    + rewrite (bind_lift_inr _ _ hs g (Hrun g)). reflexivity.
    + unfold PyDict.getitem. now rewrite Hv.
Qed.

Section Completion.
Context {K : Keras}.

Lemma evaluate_experiment_outcome (e : Experiment) (test_dataset : DataFrame)
    (test_labels : list Z) (g : Globals) :
  evaluable e test_dataset test_labels g ->
  exists scores,
    evaluate_experiment e test_dataset test_labels g
    = mkOutcome (inr scores) g
        [model_evaluate_call
           (feature_columns test_dataset (input_features (settings e)))
           test_labels (batch_size (g_settings g))] /\
    forall m, m = "loss" \/ In m (m_metrics (g_models g (model e))) ->
              exists v, PyDict.get scores m = Some v.
Proof.
  intros (Hcols & Hrows & Haccepted).
  rewrite (evaluate_experiment_pass e test_dataset test_labels _ g
             (feature_dict_columns test_dataset _ Hcols)).
  rewrite model_evaluate_outcome.
  rewrite (aligned_columns test_dataset _ test_labels Hrows), Haccepted.
  eexists. split; [reflexivity|]. intros m Hm.
  destruct (evaluation_scores (g_models g (model e))
              (feature_columns test_dataset (input_features (settings e)))
              test_labels (batch_size (g_settings g)))
    as (_ & Hkeys & Hget).
  eexists. apply Hget, Hkeys, Hm.
Qed.

Lemma plot_test_rows (metrics_of_interest : list string)
    (test_dataset : DataFrame) (test_labels : list Z) (n_bars : nat)
    (bar_width : Q) (g : Globals) (l : list Experiment) :
  forall a : nat,
    (forall e, In e l ->
       evaluable e test_dataset test_labels g /\
       (forall m, In m metrics_of_interest ->
                  m = "loss" \/ In m (m_metrics (g_models g (model e))))) ->
    exists evs,
      for_each (combine (seq a (length l)) l) (fun ie =>
        test_metrics <- evaluate_experiment (snd ie) test_dataset
                          test_labels ;;
        let offset :=
          (bar_width *
             (inject_Z (Z.of_nat (fst ie)) + (1 # 2)
                - inject_Z (Z.of_nat n_bars) / 2))%Q in
        let x :=
          map (fun k => (inject_Z k + offset)%Q)
            (arange (length metrics_of_interest)) in
        heights <- for_list metrics_of_interest
                     (fun metric =>
                        lift (PyDict.getitem test_metrics metric)) ;;
        call (ax_bar x heights bar_width (name (snd ie)))) g
      = mkOutcome (inr tt) g evs /\
      evaluations evs = length l /\
      map fst (bar_groups evs) = map name l /\
      Forall (fun b => length (snd b) = length metrics_of_interest)
        (bar_groups evs) /\
      plot_styles evs = [] /\ legends evs = [].
Proof.
  induction l as [|e l IH]; intros a Hok.
  - exists []. repeat split. constructor.
  - destruct (Hok e (or_introl eq_refl)) as [Hcols Hmetrics].
    destruct (evaluate_experiment_outcome e test_dataset test_labels g Hcols)
      as (scores & Heval & Hscores).
    destruct (for_list_getitem scores metrics_of_interest)
      as (hs & Hlen & Hheights).
    { intros m Hm. apply Hscores, Hmetrics, Hm. }
    destruct (IH (S a)) as (evs & Hrun & Hev & Hbars & Hhs & Hst & Hlg).
    { intros e' He'. apply Hok. now right. }
    eexists. split; [|split; [|split; [|split; [|split]]]].
    + simpl length. simpl combine. simpl for_each.
      eapply bind_outcome_inr; [|exact Hrun].
      simpl fst. simpl snd.
      eapply bind_outcome_inr; [exact Heval|]. cbv zeta.
      eapply bind_outcome_inr; [rewrite (Hheights g); reflexivity|].
      reflexivity.
    + rewrite !evaluations_app, Hev. reflexivity.
    + rewrite !bar_groups_app, !map_app, Hbars. reflexivity.
    + rewrite !bar_groups_app. simpl. constructor; [exact Hlen | exact Hhs].
    + rewrite !plot_styles_app, Hst. reflexivity.
    + rewrite !legends_app, Hlg. reflexivity.
Qed.

(** X7. [compare_experiment] runs to completion when there is at least one
    experiment, there are at most six metrics of interest, every metric of
    interest is a column of every experiment's history, with one value for
    each of the experiment's epochs, and a name that its model object
    reports, and the model of every experiment can be evaluated on the
    test data: the test dataset has the input feature columns of the
    experiment, the labels have one entry for each row of them, and the
    modelling library accepts the request. It then leaves the globals
    untouched, requests one evaluation pass per experiment, and draws one
    group of bars per experiment, in the order of the list and labelled
    with the experiment's name, with one bar height per metric of
    interest. *)
Theorem compare_experiment_completes (experiments : list Experiment)
    (metrics_of_interest : list string) (test_dataset : DataFrame)
    (test_labels : list Z) (g : Globals) :
  experiments <> [] ->
  length metrics_of_interest <= 6 ->
  (forall e, In e experiments ->
     (forall m, In m metrics_of_interest ->
                df_contains (metrics_history e) m = true /\
                (m = "loss" \/ In m (m_metrics (g_models g (model e))))) /\
     plottable e metrics_of_interest /\
     evaluable e test_dataset test_labels g) ->
  let o :=
    compare_experiment experiments metrics_of_interest test_dataset
      test_labels g in
  result o = inr tt /\ globals_after o = g /\
  evaluations (calls o) = length experiments /\
  map fst (bar_groups (calls o)) = map name experiments /\
  Forall (fun b => length (snd b) = length metrics_of_interest)
    (bar_groups (calls o)).
Proof.
  intros Hne Hlen Hok. cbv zeta.
  assert (Hall : all_available experiments metrics_of_interest = true).
  { apply all_available_true. intros m e Hm He.
    now apply (proj1 (Hok e He)). }
  destruct (check_metrics_outcome experiments metrics_of_interest)
    as [[_ Hcheck] | [Hno _]]; [|congruence].
  destruct (plot_train_metrics_outcome experiments metrics_of_interest Hall)
    as (train & Htrain & _ & _ & Htrain_ev).
  assert (Htrain_bars : bar_groups train = []).
  { pose proof (plot_train_metrics_silent
                  (fun ev => match ev with
                             | ax_bar _ heights _ label => [(label, heights)]
                             | _ => []
                             end)
                  experiments metrics_of_interest
                  (colors_for (length experiments))
                  (fun _ _ _ _ _ _ => eq_refl) g) as Hs.
    rewrite (Htrain g) in Hs. exact Hs. }
  assert (Hle : (length metrics_of_interest <=? 6) = true)
    by now apply Nat.leb_le.
  rewrite Hle, orb_true_r in Htrain.
  assert (Hn : (length experiments =? 0) = false).
  { apply Nat.eqb_neq. destruct experiments; [congruence | discriminate]. }
  destruct (plot_test_rows metrics_of_interest test_dataset test_labels
              (length experiments)
              ((1 - (3 # 10)) / inject_Z (Z.of_nat (length experiments)))%Q
              g experiments 0)
    as (test & Htest & Htest_ev & Htest_bars & Htest_hs & _ & _).
  { intros e He. destruct (Hok e He) as (Hm & _ & Hf). split; [exact Hf|].
    intros m Hin. now apply (proj2 (Hm m Hin)). }
  assert (Hcmp :
            exists handles,
              compare_experiment experiments metrics_of_interest test_dataset
                test_labels g
              = mkOutcome (inr tt) g
                  ([plt_figure 12 12] ++ [fig_add_subplot 2 1 1] ++
                   [ax_set_title "Train metrics"] ++ train ++ [] ++
                   [ax_set_xlabel "Epoch"] ++ [ax_set_ylabel "Metric value"]
                   ++ [ax_grid] ++ [ax_legend (Some handles)] ++
                   [fig_add_subplot 2 1 2] ++ [] ++ test ++
                   [ax_set_xticks (arange (length metrics_of_interest))
                      metrics_of_interest] ++
                   [ax_set_title "Test metrics"] ++
                   [ax_set_ylabel "Metric value"] ++
                   [ax_set_axisbelow true] ++ [ax_grid] ++
                   [ax_legend None])).
  { eexists. unfold compare_experiment.
    rewrite (bind_lift_inr _ _ tt g (Hcheck g)).
    eapply bind_outcome_inr; [reflexivity|].
    eapply bind_outcome_inr; [reflexivity|]. cbv zeta.
    eapply bind_outcome_inr; [reflexivity|].
    eapply bind_outcome_inr; [exact (Htrain g)|].
    eapply bind_outcome_inr.
    { rewrite legend_handles_outcome, Hle. reflexivity. }
    eapply bind_outcome_inr; [reflexivity|].
    eapply bind_outcome_inr; [reflexivity|].
    eapply bind_outcome_inr; [reflexivity|].
    eapply bind_outcome_inr; [reflexivity|].
    unfold draw_test_subplot.
    eapply bind_outcome_inr; [reflexivity|]. cbv zeta.
    eapply bind_outcome_inr; [rewrite Hn; reflexivity|].
    eapply bind_outcome_inr; [exact Htest|].
    eapply bind_outcome_inr; [reflexivity|].
    eapply bind_outcome_inr; [reflexivity|].
    eapply bind_outcome_inr; [reflexivity|].
    eapply bind_outcome_inr; [reflexivity|].
    eapply bind_outcome_inr; [reflexivity|].
    reflexivity. }
  destruct Hcmp as [handles Hcmp]. rewrite Hcmp.
  cbn [result globals_after calls].
  split; [reflexivity|]. split; [reflexivity|].
  rewrite !evaluations_app, !bar_groups_app, Htrain_ev, Htrain_bars,
    Htest_ev.
  cbn [evaluations bar_groups flat_map filter length app Nat.add].
  rewrite !app_nil_r, Nat.add_0_r.
  split; [reflexivity|]. split; assumption.
Qed.
End Completion.

Lemma compare_experiment_completes_witness :
  let o :=
    compare_experiment [small_batch_run] ["accuracy"; "loss"] sample_dataset
      sample_labels script_globals in
  result o = inr tt /\ globals_after o = script_globals /\
  evaluations (calls o) = length [small_batch_run] /\
  map fst (bar_groups (calls o)) = map name [small_batch_run] /\
  Forall (fun b => length (snd b) = length ["accuracy"; "loss"])
    (bar_groups (calls o)).
Proof.
  apply (compare_experiment_completes [small_batch_run] ["accuracy"; "loss"]
           sample_dataset sample_labels script_globals).
  - discriminate.
  - simpl. lia.
  - intros e [<- | []]. split; [|split].
    + intros m [<- | [<- | []]]; split; try reflexivity; simpl; auto.
    + intros m col [<- | [<- | []]] [= <-]; reflexivity.
    + split; [|split].
      * intros f [<- | []]. reflexivity.
      * intros f col [<- | []] [= <-]. reflexivity.
      * reflexivity.
Defined.

(** ** Distinct styles *)

Lemma marker_at_inj (i i' : nat) :
  i < 6 -> i' < 6 -> marker_at i = marker_at i' -> i = i'.
Proof.
  intros Hi Hi' H.
  do 6 (destruct i as [|i];
        [do 6 (destruct i' as [|i']; [first [reflexivity | discriminate]|]);
         lia|]).
  lia.
Qed.

Lemma color_at_inj (j j' : nat) : color_at j = color_at j' -> j = j'.
Proof.
  unfold color_at, str_of_nat. simpl. intros [= H].
  apply (f_equal NilEmpty.uint_of_string) in H.
  rewrite !NilEmpty.usu in H. injection H as H.
  now apply Unsigned.to_uint_inj.
Qed.

Lemma NoDup_pairs {A B C D : Type} (f : A -> C) (h : B -> D)
    (l1 : list A) (l2 : list B) :
  NoDup l1 -> NoDup l2 ->
  (forall a a', In a l1 -> In a' l1 -> f a = f a' -> a = a') ->
  (forall b b', h b = h b' -> b = b') ->
  NoDup (flat_map (fun i => map (fun j => (f i, h j)) l2) l1).
Proof.
  intros Hl1 Hl2 Hf Hh. induction Hl1 as [|a l1 Ha Hl1 IH]; simpl.
  - constructor.
  - apply NoDup_app.
    + apply Finite.Injective_map_NoDup; [|exact Hl2].
      intros b b' [= Hb]. now apply Hh.
    + apply IH. intros x x' Hx Hx'. apply Hf; now right.
    + intros [c d] Hin Hin'.
      apply in_map_iff in Hin as (b & [= <- <-] & _).
      apply in_flat_map in Hin' as (a' & Ha' & Hin').
      apply in_map_iff in Hin' as (b' & [= Hfa _] & _).
      apply Ha. rewrite (Hf a a'); [exact Ha' | now left | now right |].
      now symmetry.
Qed.

Section Styles.
Context {K : Keras}.

(** X8. No two curves drawn by one call of [compare_experiment] have both
    the same marker and the same colour name: the six markers differ from
    one another, and the colour names ["C0"], ["C1"], ... of different
    experiments differ. *)
Theorem compare_experiment_distinct_styles (experiments : list Experiment)
    (metrics_of_interest : list string) (test_dataset : DataFrame)
    (test_labels : list Z) (g : Globals) :
  NoDup
    (plot_styles
       (calls (compare_experiment experiments metrics_of_interest
                 test_dataset test_labels g))).
Proof.
  destruct (compare_experiment_drawn experiments metrics_of_interest
              test_dataset test_labels g) as [Hst _].
  cbv zeta in Hst. rewrite Hst.
  destruct (all_available experiments metrics_of_interest); [|constructor].
  apply NoDup_pairs.
  - apply seq_NoDup.
  - apply seq_NoDup.
  - intros i i' Hi Hi'. apply in_seq in Hi, Hi'.
    apply marker_at_inj; lia.
  - apply color_at_inj.
Qed.
End Styles.

(** ** Plots and reports of one experiment *)

Lemma w_bind_inl {A B : Type} (c : W A) (f : A -> W B) (e : exn)
    (outs : list Output) :
  c = (inl e, outs) -> w_bind c f = (inl e, outs).
Proof. intros ->. reflexivity. Qed.

Lemma w_bind_inr {A B : Type} (c : W A) (f : A -> W B) (x : A)
    (outs outs' : list Output) (r : exn + B) :
  c = (inr x, outs) -> f x = (r, outs') -> w_bind c f = (r, outs ++ outs').
Proof. intros -> H. unfold w_bind. simpl. now rewrite H. Qed.

Lemma printed_app (outs outs' : list Output) :
  printed (outs ++ outs') = printed outs ++ printed outs'.
Proof. apply flat_map_app. Qed.

Section OneExperiment.
Context {K : Keras}.
Variable format_4f : Q -> string.

Lemma plot_loop_present (e : Experiment) (metrics : list string) :
  (forall m, In m metrics -> df_contains (metrics_history e) m = true) ->
  plottable e metrics ->
  w_for_each metrics (fun metric =>
    w_bind (w_lift (df_getitem (metrics_history e) metric))
      (fun y => w_plot (epochs e) y metric))
  = (inr tt,
     map (fun m =>
            out_plot (epochs e)
              (match PyDict.get (metrics_history e) m with
               | Some col => col
               | None => []
               end) m) metrics).
Proof.
  induction metrics as [|m metrics IH]; intros Hall Hlen; [reflexivity|].
  assert (Hm : df_contains (metrics_history e) m = true)
    by (apply Hall; now left).
  unfold df_contains, PyDict.contains in Hm.
  simpl w_for_each.
  rewrite IH;
    [| intros m' Hm'; apply Hall; now right
     | intros m' col Hm'; apply Hlen; now right ].
  pose proof (Hlen m) as Hcol.
  unfold df_getitem, PyDict.getitem in Hcol |- *.
  destruct (PyDict.get (metrics_history e) m) as [col|] eqn:E;
    [|discriminate].
  specialize (Hcol col (or_introl eq_refl) eq_refl).
  unfold w_bind, w_lift, w_plot. cbn [fst snd].
  rewrite Hcol, Nat.eqb_refl. simpl. now rewrite E.
Qed.

(** X9. When every requested metric is a column of the history, with one
    value for each epoch of the experiment, [plot_experiment_metrics]
    completes: it opens a 12 by 8 figure, draws
    one curve per requested metric, in the order requested, of that
    metric's column against the experiment's epochs and labelled with the
    metric's name, and then labels the axes and adds the grid and the
    legend. *)
Theorem plot_experiment_metrics_completes (e : Experiment)
    (metrics : list string) :
  (forall m, In m metrics -> df_contains (metrics_history e) m = true) ->
  plottable e metrics ->
  plot_experiment_metrics e metrics
  = (inr tt,
     [out_figure 12 8] ++
     map (fun m =>
            out_plot (epochs e)
              (match PyDict.get (metrics_history e) m with
               | Some col => col
               | None => []
               end) m) metrics ++
     [out_xlabel "Epoch"; out_ylabel "Metric value"; out_grid; out_legend]).
Proof.
  intros Hall Hlen. unfold plot_experiment_metrics.
  rewrite (plot_loop_present e metrics Hall Hlen). reflexivity.
Qed.

(** X10. [plot_experiment_metrics] does not check its metrics beforehand:
    at the first requested metric that is not a column of the history it
    raises the [KeyError] of that metric, after it has opened the figure
    and drawn the curves of the metrics requested before it, each of which
    has one value for each epoch of the experiment; the axis labels, the
    grid and the legend are never added. *)
Theorem plot_experiment_metrics_missing (e : Experiment)
    (pre post : list string) (m : string) :
  (forall p, In p pre -> df_contains (metrics_history e) p = true) ->
  plottable e pre ->
  df_contains (metrics_history e) m = false ->
  plot_experiment_metrics e (pre ++ m :: post)
  = (inl (KeyError m),
     [out_figure 12 8] ++
     map (fun p =>
            out_plot (epochs e)
              (match PyDict.get (metrics_history e) p with
               | Some col => col
               | None => []
               end) p) pre).
Proof.
  intros Hpre Hlen Hm. unfold plot_experiment_metrics.
  assert (Hloop :
            w_for_each (pre ++ m :: post) (fun metric =>
              w_bind (w_lift (df_getitem (metrics_history e) metric))
                (fun y => w_plot (epochs e) y metric))
            = (inl (KeyError m),
               map (fun p =>
                      out_plot (epochs e)
                        (match PyDict.get (metrics_history e) p with
                         | Some col => col
                         | None => []
                         end) p) pre)).
  { induction pre as [|p pre IH]; simpl.
    - unfold df_contains, PyDict.contains in Hm.
      unfold df_getitem, PyDict.getitem.
      now destruct (PyDict.get (metrics_history e) m).
    - assert (Hp : df_contains (metrics_history e) p = true)
        by (apply Hpre; now left).
      unfold df_contains, PyDict.contains in Hp.
      rewrite IH;
        [| intros q Hq; apply Hpre; now right
         | intros q col Hq; apply Hlen; now right ].
      pose proof (Hlen p) as Hcol.
      unfold df_getitem, PyDict.getitem in Hcol |- *.
      destruct (PyDict.get (metrics_history e) p) as [col|] eqn:E;
        [|discriminate].
      specialize (Hcol col (or_introl eq_refl) eq_refl).
      unfold w_bind, w_lift, w_plot. cbn [fst snd].
      rewrite Hcol, Nat.eqb_refl. simpl. rewrite ?E. reflexivity. }
  rewrite Hloop. reflexivity.
Qed.

(** The three lines printed for one metric. *)
Lemma report_item (e : Experiment) (item : string * Q) (v : Q) :
  get_final_metric_value e (fst item) = inr v ->
  w_bind (w_emit (out_print "------")) (fun _ =>
  w_bind (w_lift (get_final_metric_value e (fst item))) (fun train_value =>
  w_bind (w_emit (out_print (train_line format_4f (fst item) train_value)))
    (fun _ =>
  w_emit (out_print (test_line format_4f (fst item) (snd item))))))
  = (inr tt,
     [out_print "------";
      out_print (train_line format_4f (fst item) v);
      out_print (test_line format_4f (fst item) (snd item))]).
Proof. intros H. unfold w_bind. rewrite H. reflexivity. Qed.

(** The loop of [compare_train_test] when every metric has a final
    training value. *)
Lemma report_loop_completes (e : Experiment) (test_metrics : PyDict.t Q) :
  (forall item, In item test_metrics ->
                exists v, get_final_metric_value e (fst item) = inr v) ->
  exists outs,
    w_for_each test_metrics (fun item =>
      w_bind (w_emit (out_print "------")) (fun _ =>
      w_bind (w_lift (get_final_metric_value e (fst item)))
        (fun train_value =>
      w_bind
        (w_emit (out_print (train_line format_4f (fst item) train_value)))
        (fun _ =>
      w_emit (out_print (test_line format_4f (fst item) (snd item)))))))
    = (inr tt, outs) /\
    printed outs
    = flat_map
        (fun item =>
           match get_final_metric_value e (fst item) with
           | inr v =>
               ["------"; train_line format_4f (fst item) v;
                test_line format_4f (fst item) (snd item)]
           | inl _ => []
           end) test_metrics /\
    length (printed outs) = 3 * length test_metrics.
Proof.
  intros Hall. induction test_metrics as [|item l IH].
  - exists []. repeat split.
  - destruct (Hall item (or_introl eq_refl)) as [v Hv].
    destruct IH as (outs & Hrun & Hpr & Hlen).
    { intros it Hit. apply Hall. now right. }
    eexists. split; [|split].
    + simpl w_for_each.
      eapply w_bind_inr; [now apply (report_item e item v) | exact Hrun].
    + rewrite printed_app, Hpr. simpl. now rewrite Hv.
    + rewrite printed_app, length_app, Hlen. simpl. lia.
Qed.

(** X11. [compare_train_test] prints the heading and then, for every
    metric of the test scores in their order, a line of six dashes, the
    line [Train], the metric's name, a colon, a space and the final
    training value, and the line [Test], the metric's name, a colon, two
    spaces and the test value, both values in the format [.4f], as long as
    each of these metrics has a final training value; it then completes. *)
Theorem compare_train_test_completes (e : Experiment)
    (test_metrics : PyDict.t Q) :
  (forall item, In item test_metrics ->
                exists v, get_final_metric_value e (fst item) = inr v) ->
  fst (compare_train_test format_4f e test_metrics) = inr tt /\
  printed (snd (compare_train_test format_4f e test_metrics))
  = "Comparing metrics between train and test:"
    :: flat_map
         (fun item =>
            match get_final_metric_value e (fst item) with
            | inr v =>
                ["------";
                 ("Train " ++ fst item ++ ": " ++ format_4f v)%string;
                 ("Test " ++ fst item ++ ":  " ++ format_4f (snd item))%string]
            | inl _ => []
            end) test_metrics /\
  length (printed (snd (compare_train_test format_4f e test_metrics)))
  = 1 + 3 * length test_metrics.
Proof.
  intros Hall. unfold compare_train_test.
  destruct (report_loop_completes e test_metrics Hall)
    as (outs & Hrun & Hpr & Hlen).
  erewrite w_bind_inr; [| reflexivity | exact Hrun].
  cbn [fst snd]. rewrite !printed_app, length_app, Hlen, Hpr.
  repeat split.
Qed.

(** X12. At the first metric of the test scores for which
    [get_final_metric_value] raises, [compare_train_test] ends with that
    exception; by then it has printed the heading, the three lines of each
    metric before it, and the separator of the failing metric. *)
Theorem compare_train_test_fails (e : Experiment)
    (pre post : PyDict.t Q) (item : string * Q) (err : exn) :
  (forall it, In it pre ->
              exists v, get_final_metric_value e (fst it) = inr v) ->
  get_final_metric_value e (fst item) = inl err ->
  fst (compare_train_test format_4f e (pre ++ item :: post)) = inl err /\
  printed (snd (compare_train_test format_4f e (pre ++ item :: post)))
  = "Comparing metrics between train and test:"
    :: flat_map
         (fun it =>
            match get_final_metric_value e (fst it) with
            | inr v =>
                ["------"; train_line format_4f (fst it) v;
                 test_line format_4f (fst it) (snd it)]
            | inl _ => []
            end) pre
    ++ ["------"].
Proof.
  intros Hpre Herr. unfold compare_train_test.
  assert (Hloop :
            exists outs,
              w_for_each (pre ++ item :: post) (fun item =>
                w_bind (w_emit (out_print "------")) (fun _ =>
                w_bind (w_lift (get_final_metric_value e (fst item)))
                  (fun train_value =>
                w_bind
                  (w_emit
                     (out_print (train_line format_4f (fst item) train_value)))
                  (fun _ =>
                w_emit
                  (out_print (test_line format_4f (fst item) (snd item)))))))
              = (inl err, outs) /\
              printed outs
              = flat_map
                  (fun it =>
                     match get_final_metric_value e (fst it) with
                     | inr v =>
                         ["------"; train_line format_4f (fst it) v;
                          test_line format_4f (fst it) (snd it)]
                     | inl _ => []
                     end) pre
                ++ ["------"]).
  { induction pre as [|it l IH].
    - eexists. split.
      + simpl. apply w_bind_inl. unfold w_bind. simpl. rewrite Herr.
        reflexivity.
      + reflexivity.
    - destruct (Hpre it (or_introl eq_refl)) as [v Hv].
      destruct IH as (outs & Hrun & Hpr).
      { intros it' Hit'. apply Hpre. now right. }
      eexists. split.
      + simpl w_for_each.
        eapply w_bind_inr; [now apply (report_item e it v) | exact Hrun].
      + rewrite printed_app, Hpr. simpl. now rewrite Hv. }
  destruct Hloop as (outs & Hrun & Hpr).
  erewrite w_bind_inr; [| reflexivity | exact Hrun].
  cbn [fst snd]. rewrite printed_app, Hpr. split; reflexivity.
Qed.
End OneExperiment.

Lemma plot_experiment_metrics_completes_witness :
  plot_experiment_metrics small_batch_run ["accuracy"; "loss"]
  = (inr tt,
     [out_figure 12 8] ++
     map (fun m =>
            out_plot (epochs small_batch_run)
              (match PyDict.get (metrics_history small_batch_run) m with
               | Some col => col
               | None => []
               end) m) ["accuracy"; "loss"] ++
     [out_xlabel "Epoch"; out_ylabel "Metric value"; out_grid; out_legend]).
Proof.
  apply (plot_experiment_metrics_completes small_batch_run
           ["accuracy"; "loss"]).
  - intros m [<- | [<- | []]]; reflexivity.
  - intros m col [<- | [<- | []]] [= <-]; reflexivity.
Defined.

Lemma plot_experiment_metrics_missing_witness :
  plot_experiment_metrics small_batch_run (["accuracy"] ++ "f1" :: ["loss"])
  = (inl (KeyError "f1"),
     [out_figure 12 8] ++
     map (fun p =>
            out_plot (epochs small_batch_run)
              (match PyDict.get (metrics_history small_batch_run) p with
               | Some col => col
               | None => []
               end) p) ["accuracy"]).
Proof.
  apply (plot_experiment_metrics_missing small_batch_run ["accuracy"]
           ["loss"] "f1").
  - intros p [<- | []]. reflexivity.
  - intros p col [<- | []] [= <-]. reflexivity.
  - reflexivity.
Defined.

Lemma compare_train_test_completes_witness :
  fst (compare_train_test (fun _ => "0.7500") small_batch_run
         [("accuracy", 3 # 4)]) = inr tt /\
  printed (snd (compare_train_test (fun _ => "0.7500") small_batch_run
                  [("accuracy", 3 # 4)]))
  = ["Comparing metrics between train and test:"; "------";
     "Train accuracy: 0.7500"; "Test accuracy:  0.7500"] /\
  length (printed (snd (compare_train_test (fun _ => "0.7500")
                          small_batch_run [("accuracy", 3 # 4)])))
  = 4.
Proof.
  apply (compare_train_test_completes (fun _ => "0.7500") small_batch_run
           [("accuracy", 3 # 4)]).
  intros item [<- | []]. eexists. reflexivity.
Defined.

Lemma compare_train_test_fails_witness :
  fst (compare_train_test (fun _ => "0.7500") small_batch_run
         ([("accuracy", 3 # 4)] ++ ("f1", 1 # 2) :: []))
  = inl (ValueError
           (unknown_metric_message "f1"
              (df_columns (metrics_history small_batch_run)))) /\
  printed (snd (compare_train_test (fun _ => "0.7500") small_batch_run
                  ([("accuracy", 3 # 4)] ++ ("f1", 1 # 2) :: [])))
  = "Comparing metrics between train and test:"
    :: flat_map
         (fun it =>
            match get_final_metric_value small_batch_run (fst it) with
            | inr v =>
                ["------"; train_line (fun _ => "0.7500") (fst it) v;
                 test_line (fun _ => "0.7500") (fst it) (snd it)]
            | inl _ => []
            end) [("accuracy", 3 # 4)]
    ++ ["------"].
Proof.
  apply (compare_train_test_fails (fun _ => "0.7500") small_batch_run
           [("accuracy", 3 # 4)] [] ("f1", 1 # 2)).
  - intros it [<- | []]. eexists. reflexivity.
  - reflexivity.
Defined.

(** ** Training, evaluating and reporting in sequence *)

Lemma keys_get {V : Type} (d : PyDict.t V) (k : string) :
  In k (PyDict.keys d) -> exists v, PyDict.get d k = Some v.
Proof.
  induction d as [|[k' v'] d IH]; simpl; [intros []|].
  destruct (String.eqb_spec k' k) as [-> | Hne]; [now eexists|].
  intros [H | H]; [contradiction | now apply IH].
Qed.

Section Script.
Context {K : Keras}.
Variable format_4f : Q -> string.

(** After at least one epoch every name the model reports has a final
    training value in the history of the [fit]. *)
Lemma trained_final_values (e : Experiment) (obj : ModelObject)
    (x : Features) (y : list Z) (bs epochs_ : Z) :
  (0 < epochs_)%Z ->
  metrics_history e = history (snd (fit_result obj x y bs epochs_)) ->
  forall m, In m (reported_metrics obj) ->
            exists v, get_final_metric_value e m = inr v.
Proof.
  intros Hepochs Hhist m Hm.
  destruct (fit_result_history obj x y bs epochs_ Hepochs)
    as (_ & _ & Hin & Hlen).
  cbv zeta in Hin, Hlen. rewrite <- Hhist in Hin, Hlen.
  apply Hin in Hm.
  unfold get_final_metric_value, df_contains, PyDict.contains, df_getitem,
    PyDict.getitem.
  destruct (keys_get _ _ Hm) as [col E]. rewrite E. simpl.
  apply In_entry_get in E.
  rewrite Forall_forall in Hlen. specialize (Hlen _ E). simpl in Hlen.
  destruct col as [|c col]; [simpl in Hlen; lia|].
  destruct (@exists_last _ (c :: col)) as (pre & v & ->); [discriminate|].
  exists v. apply iloc_last_snoc.
Qed.

(** X13. The script's sequence: train an experiment, evaluate that
    experiment in the state the training has left, report with
    [compare_train_test]. With at least one epoch, the input feature
    columns present in the training and in the test dataset, the labels of
    each with one entry for each row of these columns, and both requests
    accepted by the modelling library, all three steps complete: every
    metric the evaluation scores has a final training value, so the report
    raises nothing and prints three lines per metric after its heading. *)
Theorem train_evaluate_report_completes (experiment_name : string)
    (model_ : Model) (dataset : DataFrame) (labels : list Z)
    (settings_ : ExperimentSettings) (test_dataset : DataFrame)
    (test_labels : list Z) (g : Globals) :
  (0 < number_epochs settings_)%Z ->
  (forall f, In f (input_features settings_) ->
             df_contains dataset f = true) ->
  (forall f col, In f (input_features settings_) ->
                 PyDict.get dataset f = Some col ->
                 length col = length labels) ->
  fit_rejects (feature_columns dataset (input_features settings_)) labels
    (batch_size settings_) (number_epochs settings_) = None ->
  (forall f, In f (input_features settings_) ->
             df_contains test_dataset f = true) ->
  (forall f col, In f (input_features settings_) ->
                 PyDict.get test_dataset f = Some col ->
                 length col = length test_labels) ->
  evaluate_rejects (feature_columns test_dataset (input_features settings_))
    test_labels (batch_size (g_settings g)) = None ->
  let trained :=
    train_model experiment_name model_ dataset labels settings_ g in
  exists e scores,
    result trained = inr e /\
    result (evaluate_experiment e test_dataset test_labels
              (globals_after trained)) = inr scores /\
    fst (compare_train_test format_4f e scores) = inr tt /\
    length (printed (snd (compare_train_test format_4f e scores)))
    = 1 + 3 * length scores.
Proof.
  intros Hepochs Hcols Hrows Hfit Htest Htrows Heval. cbv zeta.
  rewrite (train_model_outcome experiment_name model_ dataset labels
             settings_ _ g (feature_dict_columns dataset _ Hcols)).
  rewrite (aligned_columns dataset _ labels Hrows), Hfit.
  cbn [result globals_after].
  set (fitted := fit_result (g_models g model_)
                   (feature_columns dataset (input_features settings_))
                   labels (batch_size settings_) (number_epochs settings_)).
  set (e := {| name := experiment_name; settings := settings_;
               model := model_; epochs := epoch (snd fitted);
               metrics_history := history (snd fitted) |}).
  set (g' := globals_after (store_weights model_ (fst fitted) g)).
  exists e.
  rewrite (evaluate_experiment_pass e test_dataset test_labels _ g'
             (feature_dict_columns test_dataset _ Htest)).
  rewrite model_evaluate_outcome. cbn [result].
  change (input_features (settings e)) with (input_features settings_).
  change (g_settings g') with (g_settings g).
  rewrite (aligned_columns test_dataset _ test_labels Htrows), Heval.
  eexists. split; [reflexivity|]. split; [reflexivity|].
  set (x := feature_columns test_dataset (input_features settings_)).
  destruct (evaluation_scores (g_models g' (model e)) x test_labels
              (batch_size (g_settings g))) as (_ & Hkeys & _).
  cbv zeta in Hkeys.
  assert (Hmetrics : m_metrics (g_models g' (model e))
                     = m_metrics (g_models g model_)).
  { unfold g'. cbn [store_weights globals_after g_models model e].
    now rewrite Nat.eqb_refl. }
  assert (Hitems :
            forall item,
              In item
                (fold_left
                   (fun d n =>
                      PyDict.set d n
                        (eval_metric (m_weights (g_models g' (model e))) n x
                           test_labels (batch_size (g_settings g))))
                   (reported_metrics (g_models g' (model e))) []) ->
              exists v, get_final_metric_value e (fst item) = inr v).
  { intros item Hitem.
    apply (trained_final_values e (g_models g model_)
             (feature_columns dataset (input_features settings_)) labels
             (batch_size settings_) (number_epochs settings_) Hepochs
             eq_refl).
    assert (Hk : In (fst item)
                   (PyDict.keys
                      (fold_left
                         (fun d n =>
                            PyDict.set d n
                              (eval_metric
                                 (m_weights (g_models g' (model e))) n x
                                 test_labels (batch_size (g_settings g))))
                         (reported_metrics (g_models g' (model e))) [])))
      by (unfold PyDict.keys; now apply in_map).
    apply Hkeys in Hk. rewrite Hmetrics in Hk.
    unfold reported_metrics. simpl. destruct Hk as [-> | Hk]; auto. }
  destruct (report_loop_completes format_4f e _ Hitems)
    as (outs & Hrun & _ & Hlen).
  unfold compare_train_test.
  erewrite w_bind_inr; [| reflexivity | exact Hrun].
  cbn [fst snd]. rewrite printed_app, length_app, Hlen.
  split; reflexivity.
Qed.
End Script.

Lemma train_evaluate_report_completes_witness :
  let trained :=
    train_model "small_batch" accuracy_model sample_dataset sample_labels
      small_batch_settings script_globals in
  exists e scores,
    result trained = inr e /\
    result (evaluate_experiment e sample_dataset sample_labels
              (globals_after trained)) = inr scores /\
    fst (compare_train_test (fun _ => "0.7500") e scores) = inr tt /\
    length (printed (snd (compare_train_test (fun _ => "0.7500") e scores)))
    = 1 + 3 * length scores.
Proof.
  apply (train_evaluate_report_completes (fun _ => "0.7500") "small_batch"
           accuracy_model sample_dataset sample_labels small_batch_settings
           sample_dataset sample_labels script_globals).
  - reflexivity.
  - intros f [<- | []]. reflexivity.
  - intros f col [<- | []] [= <-]. reflexivity.
  - reflexivity.
  - intros f [<- | []]. reflexivity.
  - intros f col [<- | []] [= <-]. reflexivity.
  - reflexivity.
Defined.

(** ** Frames: rows and columns *)

Section FrameFacts.
Context {A : Type}.

Lemma get_map_values (f : list A -> list A) (d : PyDict.t (list A))
    (k : string) :
  PyDict.get (map (fun kv => (fst kv, f (snd kv))) d) k
  = option_map f (PyDict.get d k).
Proof.
  induction d as [|[k' v] d IH]; simpl; [reflexivity|].
  now destruct (String.eqb k' k).
Qed.

Lemma keys_map_values (f : list A -> list A) (d : PyDict.t (list A)) :
  PyDict.keys (map (fun kv => (fst kv, f (snd kv))) d) = PyDict.keys d.
Proof. unfold PyDict.keys. rewrite map_map. reflexivity. Qed.

Lemma skipn_add (a b : nat) (l : list A) :
  skipn (a + b) l = skipn b (skipn a l).
Proof.
  revert l. induction a as [|a IH]; intros l; [reflexivity|].
  destruct l as [|x l]; simpl; [now destruct b | apply IH].
Qed.

Lemma three_slices (a t : nat) (col : list A) :
  slice col 0 a ++ slice col a (a + t) ++ skipn (a + t) col = col.
Proof.
  unfold slice. rewrite Nat.sub_0_r. simpl skipn.
  replace (a + t - a) with t by lia.
  rewrite skipn_add, firstn_skipn. apply firstn_skipn.
Qed.

(** X14. The train, validation and test frames cut from the shuffled
    dataset have the columns of the shuffled dataset, and in every column
    the rows of the three frames, one after the other, are the rows of the
    shuffled dataset: no row is lost, none appears twice. The train frame
    has the first [index_80th] rows, or all rows if there are fewer. *)
Theorem split_dataset_partitions (shuffled_dataset : PyDict.t (list A))
    (index_80th tenth : nat) (k : string) (col : list A) :
  PyDict.get shuffled_dataset k = Some col ->
  let parts := split_dataset shuffled_dataset index_80th tenth in
  let train_data := fst (fst parts) in
  let validation_data := snd (fst parts) in
  let test_data := snd parts in
  PyDict.keys train_data = PyDict.keys shuffled_dataset /\
  PyDict.keys validation_data = PyDict.keys shuffled_dataset /\
  PyDict.keys test_data = PyDict.keys shuffled_dataset /\
  exists c1 c2 c3,
    PyDict.get train_data k = Some c1 /\
    PyDict.get validation_data k = Some c2 /\
    PyDict.get test_data k = Some c3 /\
    c1 ++ c2 ++ c3 = col /\
    length c1 = Nat.min index_80th (length col) /\
    length c1 + length c2 = Nat.min (index_80th + tenth) (length col).
Proof.
  intros Hget. cbv zeta. unfold split_dataset. cbn [fst snd].
  unfold df_iloc, df_iloc_from.
  rewrite (keys_map_values (fun c => slice c 0 index_80th)),
    (keys_map_values (fun c => slice c index_80th (index_80th + tenth))),
    (keys_map_values (skipn (index_80th + tenth))),
    (get_map_values (fun c => slice c 0 index_80th)),
    (get_map_values (fun c => slice c index_80th (index_80th + tenth))),
    (get_map_values (skipn (index_80th + tenth))), Hget.
  simpl option_map.
  repeat (split; [reflexivity|]).
  do 3 eexists. repeat (split; [reflexivity|]).
  split; [apply three_slices|].
  unfold slice. rewrite Nat.sub_0_r. simpl skipn.
  replace (index_80th + tenth - index_80th) with tenth by lia.
  rewrite !length_firstn, length_skipn. lia.
Qed.

Lemma get_filter_keys (p : string -> bool) (d : PyDict.t (list A))
    (k : string) :
  PyDict.get (filter (fun kv => negb (p (fst kv))) d) k
  = if p k then None else PyDict.get d k.
Proof.
  induction d as [|[k' v] d IH]; simpl; [now destruct (p k)|].
  destruct (p k') eqn:Ek'; simpl.
  - destruct (String.eqb_spec k' k) as [-> | Hne]; [|exact IH].
    now rewrite IH, Ek'.
  - destruct (String.eqb_spec k' k) as [-> | Hne]; [|exact IH].
    now rewrite Ek'.
Qed.

Lemma keys_filter (q : string -> bool) (d : PyDict.t (list A)) :
  PyDict.keys (filter (fun kv => q (fst kv)) d) = filter q (PyDict.keys d).
Proof.
  unfold PyDict.keys. induction d as [|[k v] d IH]; [reflexivity|].
  simpl. destruct (q k); simpl; now rewrite IH.
Qed.

(** X15. When the data has both label columns, [features_and_labels]
    returns the labels of column ['Class_Bool'] and a feature frame that
    has neither ['Class'] nor ['Class_Bool'] and keeps every other column,
    with the same values and in the same order. *)
Theorem features_and_labels_no_leak (data : PyDict.t (list A)) :
  PyDict.contains data "Class" = true ->
  PyDict.contains data "Class_Bool" = true ->
  exists features labels,
    features_and_labels data = inr (features, labels) /\
    PyDict.get data "Class_Bool" = Some labels /\
    PyDict.contains features "Class" = false /\
    PyDict.contains features "Class_Bool" = false /\
    (forall k, k <> "Class" -> k <> "Class_Bool" ->
               PyDict.get features k = PyDict.get data k) /\
    PyDict.keys features
    = filter (fun k => negb (existsb (String.eqb k) label_columns))
        (PyDict.keys data).
Proof.
  intros Hclass Hbool. unfold features_and_labels, df_drop.
  assert (Hmissing :
            filter (fun c => negb (PyDict.contains data c)) label_columns
            = []).
  { unfold label_columns. simpl. now rewrite Hclass, Hbool. }
  rewrite Hmissing. unfold PyDict.getitem.
  unfold PyDict.contains in Hbool.
  destruct (PyDict.get data "Class_Bool") as [labels|] eqn:E;
    [|discriminate].
  eexists. exists labels. split; [reflexivity|]. split; [reflexivity|].
  pose proof (get_filter_keys
                (fun k => existsb (String.eqb k) label_columns) data) as Hf.
  split; [|split; [|split]].
  - unfold PyDict.contains. now rewrite (Hf "Class").
  - unfold PyDict.contains. now rewrite (Hf "Class_Bool").
  - intros k Hk1 Hk2. rewrite (Hf k). simpl.
    destruct (String.eqb_spec k "Class"); [contradiction|].
    destruct (String.eqb_spec k "Class_Bool"); [contradiction|].
    reflexivity.
  - apply (keys_filter
             (fun k => negb (existsb (String.eqb k) label_columns))).
Qed.

End FrameFacts.

Lemma split_dataset_partitions_witness :
  let parts := split_dataset sample_dataset 2 1 in
  let train_data := fst (fst parts) in
  let validation_data := snd (fst parts) in
  let test_data := snd parts in
  PyDict.keys train_data = PyDict.keys sample_dataset /\
  PyDict.keys validation_data = PyDict.keys sample_dataset /\
  PyDict.keys test_data = PyDict.keys sample_dataset /\
  exists c1 c2 c3,
    PyDict.get train_data "Area" = Some c1 /\
    PyDict.get validation_data "Area" = Some c2 /\
    PyDict.get test_data "Area" = Some c3 /\
    c1 ++ c2 ++ c3 = [1 # 2; 3 # 2; 5 # 2]%Q /\
    length c1 = Nat.min 2 (length [1 # 2; 3 # 2; 5 # 2]%Q) /\
    length c1 + length c2 = Nat.min (2 + 1) (length [1 # 2; 3 # 2; 5 # 2]%Q).
Proof.
  apply (split_dataset_partitions sample_dataset 2 1 "Area"
           [1 # 2; 3 # 2; 5 # 2]%Q).
  reflexivity.
Defined.

Lemma features_and_labels_no_leak_witness :
  exists features labels,
    features_and_labels
      [("Area", [1; 2]); ("Class", [0; 1]); ("Class_Bool", [0; 1])]%Z
    = inr (features, labels) /\
    PyDict.get [("Area", [1; 2]); ("Class", [0; 1]); ("Class_Bool", [0; 1])]%Z
      "Class_Bool" = Some labels /\
    PyDict.contains features "Class" = false /\
    PyDict.contains features "Class_Bool" = false /\
    (forall k, k <> "Class" -> k <> "Class_Bool" ->
               PyDict.get features k
               = PyDict.get
                   [("Area", [1; 2]); ("Class", [0; 1]);
                    ("Class_Bool", [0; 1])]%Z k) /\
    PyDict.keys features
    = filter (fun k => negb (existsb (String.eqb k) label_columns))
        (PyDict.keys
           [("Area", [1; 2]); ("Class", [0; 1]); ("Class_Bool", [0; 1])]%Z).
Proof.
  apply (features_and_labels_no_leak
           [("Area", [1; 2]); ("Class", [0; 1]); ("Class_Bool", [0; 1])]%Z);
    reflexivity.
Defined.

(** ** Sorting strings *)

Lemma string_compare_trans (a : string) :
  forall b c : string,
    String.compare a b <> Gt -> String.compare b c <> Gt ->
    String.compare a c <> Gt.
Proof.
  induction a as [|x a IH]; intros [|y b] [|z c]; simpl; try congruence.
  unfold Ascii.compare.
  destruct (N.compare_spec (N_of_ascii x) (N_of_ascii y)) as [Hxy|Hxy|Hxy],
    (N.compare_spec (N_of_ascii y) (N_of_ascii z)) as [Hyz|Hyz|Hyz],
    (N.compare_spec (N_of_ascii x) (N_of_ascii z)) as [Hxz|Hxz|Hxz];
    try congruence; try lia.
  apply IH.
Qed.

Lemma leb_trans (a b c : string) :
  String.leb a b = true -> String.leb b c = true -> String.leb a c = true.
Proof.
  unfold String.leb. intros Hab Hbc.
  pose proof (string_compare_trans a b c) as H.
  destruct (String.compare a b), (String.compare b c),
    (String.compare a c); try discriminate; try reflexivity;
    exfalso; apply H; congruence.
Qed.

Lemma leb_false_le (a b : string) :
  String.leb a b = false -> String.leb b a = true.
Proof.
  intros H. destruct (String.leb_total a b) as [Hab | Hba];
    [congruence | exact Hba].
Qed.

Lemma insert_sorted_perm (k : string) (l : list string) :
  Permutation (insert_sorted k l) (k :: l).
Proof.
  induction l as [|x l IH]; simpl; [reflexivity|].
  destruct (String.leb k x); [reflexivity|].
  rewrite IH. apply perm_swap.
Qed.

Lemma sorted_perm (l : list string) : Permutation (sorted l) l.
Proof.
  induction l as [|x l IH]; simpl; [reflexivity|].
  rewrite insert_sorted_perm. now constructor.
Qed.

Lemma insert_sorted_Sorted (k : string) (l : list string) :
  Sorted (fun a b => String.leb a b = true) l ->
  Sorted (fun a b => String.leb a b = true) (insert_sorted k l).
Proof.
  induction l as [|x l IH]; intros Hl; simpl.
  - repeat constructor.
  - destruct (String.leb k x) eqn:E.
    + constructor; [exact Hl | now constructor].
    + inversion Hl as [|? ? Hl' Hhd]; subst.
      constructor; [now apply IH|].
      destruct l as [|y l]; simpl.
      * constructor. now apply leb_false_le.
      * destruct (String.leb k y).
        -- constructor. now apply leb_false_le.
        -- inversion Hhd; subst. now constructor.
Qed.

Lemma sorted_Sorted (l : list string) :
  Sorted (fun a b => String.leb a b = true) (sorted l).
Proof.
  induction l as [|x l IH]; simpl; [constructor|].
  now apply insert_sorted_Sorted.
Qed.

Lemma insert_sorted_comm (x y : string) (l : list string) :
  insert_sorted x (insert_sorted y l) = insert_sorted y (insert_sorted x l).
Proof.
  induction l as [|h l IH]; simpl.
  - destruct (String.leb x y) eqn:Exy, (String.leb y x) eqn:Eyx;
      try reflexivity.
    + now rewrite (String.leb_antisym x y Exy Eyx).
    + apply leb_false_le in Exy. congruence.
  - destruct (String.leb x h) eqn:Exh, (String.leb y h) eqn:Eyh; simpl.
    + destruct (String.leb x y) eqn:Exy, (String.leb y x) eqn:Eyx;
        rewrite ?Exh, ?Eyh; try reflexivity.
      * now rewrite (String.leb_antisym x y Exy Eyx).
      * apply leb_false_le in Exy. congruence.
    + rewrite Exh.
      destruct (String.leb y x) eqn:Eyx.
      * rewrite (leb_trans y x h Eyx Exh) in Eyh. discriminate.
      * now rewrite Eyh.
    + rewrite Eyh.
      destruct (String.leb x y) eqn:Exy.
      * rewrite (leb_trans x y h Exy Eyh) in Exh. discriminate.
      * now rewrite Exh.
    + rewrite Exh, Eyh. now rewrite IH.
Qed.

(** The sorted list depends on the elements only, not on their order. *)
Lemma sorted_of_permutation (l l' : list string) :
  Permutation l l' -> sorted l = sorted l'.
Proof.
  induction 1 as [|x l l' _ IH|x y l|l l' l'' _ IH _ IH']; simpl.
  - reflexivity.
  - now rewrite IH.
  - apply insert_sorted_comm.
  - now rewrite IH.
Qed.

(** ** Stacking a dict of tensors *)

Section StackFacts.
Context {T R : Type} (cast : T -> exn + T) (fun_ : list T -> exn + R).

(** The loop looks the keys up and casts the values one after the other:
    the values of two dicts that agree on every key are stacked alike. *)
Lemma stack_values_ext (inputs inputs' : PyDict.t T) (keys_ : list string) :
  (forall k, PyDict.get inputs k = PyDict.get inputs' k) ->
  forall values : list T,
    stack_values cast inputs keys_ values
    = stack_values cast inputs' keys_ values.
Proof.
  intros Hget. induction keys_ as [|k ks IH]; intros values; simpl.
  - reflexivity.
  - unfold PyDict.getitem. rewrite Hget.
    destruct (PyDict.get inputs' k) as [v|]; [|reflexivity].
    destruct (cast v); [reflexivity | apply IH].
Qed.

(** The loop over keys whose values are all cast. *)
Lemma stack_values_casts (inputs : PyDict.t T) (keys_ : list string)
    (casts : list T) :
  Forall2 (fun k v' =>
             exists v, PyDict.get inputs k = Some v /\ cast v = inr v')
    keys_ casts ->
  forall values : list T,
    stack_values cast inputs keys_ values = inr (values ++ casts).
Proof.
  induction 1 as [|k v' ks vs (v & Hv & Hcast) _ IH]; intros values; simpl.
  - now rewrite app_nil_r.
  - unfold PyDict.getitem. rewrite Hv, Hcast, IH.
    now rewrite <- app_assoc.
Qed.

(** The loop up to the first value whose cast raises. *)
Lemma stack_values_raises (inputs : PyDict.t T) (pre post : list string)
    (k : string) (casts : list T) (v : T) (err : exn) :
  Forall2 (fun k v' =>
             exists v, PyDict.get inputs k = Some v /\ cast v = inr v')
    pre casts ->
  PyDict.get inputs k = Some v -> cast v = inl err ->
  forall values : list T,
    stack_values cast inputs (pre ++ k :: post) values = inl err.
Proof.
  intros Hpre Hv Herr.
  induction Hpre as [|k' v' ks vs (v0 & Hv0 & Hcast) _ IH]; intros values;
    simpl.
  - unfold PyDict.getitem. now rewrite Hv, Herr.
  - unfold PyDict.getitem. rewrite Hv0, Hcast. apply IH.
Qed.

(** X17. [stack_dict] looks the values up and casts them in ascending
    order of their keys, whatever the insertion order of the dict: the
    keys used are a rearrangement of the dict's keys, each at most its
    successor. When every cast returns, the stacking function is applied
    to the cast values in that order, and what it returns or raises is the
    outcome; the first cast that raises ends the call with its
    exception. *)
Theorem stack_dict_sorted (inputs : PyDict.t T) :
  Permutation (sorted (PyDict.keys inputs)) (PyDict.keys inputs) /\
  Sorted (fun a b => String.leb a b = true) (sorted (PyDict.keys inputs)) /\
  (forall casts,
     Forall2 (fun k v' =>
                exists v, PyDict.get inputs k = Some v /\ cast v = inr v')
       (sorted (PyDict.keys inputs)) casts ->
     stack_dict cast fun_ inputs = fun_ casts) /\
  (forall pre k post casts v err,
     sorted (PyDict.keys inputs) = pre ++ k :: post ->
     Forall2 (fun k v' =>
                exists v, PyDict.get inputs k = Some v /\ cast v = inr v')
       pre casts ->
     PyDict.get inputs k = Some v -> cast v = inl err ->
     stack_dict cast fun_ inputs = inl err).
Proof.
  split; [apply sorted_perm|]. split; [apply sorted_Sorted|]. split.
  - intros casts Hcasts. unfold stack_dict.
    now rewrite (stack_values_casts inputs _ casts Hcasts).
  - intros pre k post casts v err Hsplit Hpre Hv Herr. unfold stack_dict.
    rewrite Hsplit.
    now rewrite (stack_values_raises inputs pre post k casts v err Hpre Hv
                   Herr).
Qed.

(** X18. Two dicts with the same keys and the same value under each key,
    inserted in whatever order, are stacked to the same result. *)
Theorem stack_dict_insertion_order (inputs inputs' : PyDict.t T) :
  NoDup (PyDict.keys inputs) -> NoDup (PyDict.keys inputs') ->
  (forall k, PyDict.get inputs k = PyDict.get inputs' k) ->
  stack_dict cast fun_ inputs = stack_dict cast fun_ inputs'.
Proof.
  intros Hnd Hnd' Hget.
  assert (Hperm : Permutation (PyDict.keys inputs) (PyDict.keys inputs')).
  { apply NoDup_Permutation; [assumption | assumption |].
    intros k. split; intros Hk.
    - destruct (keys_get _ _ Hk) as [v Hv]. rewrite Hget in Hv.
      eapply get_In_keys; eauto.
    - destruct (keys_get _ _ Hk) as [v Hv]. rewrite <- Hget in Hv.
      eapply get_In_keys; eauto. }
  unfold stack_dict.
  rewrite (sorted_of_permutation _ _ Hperm).
  now rewrite (stack_values_ext inputs inputs' _ Hget).
Qed.
End StackFacts.

Lemma stack_dict_sorted_witness :
  stack_dict (fun v : Z => inr v) (fun vs : list Z => inr vs)
    [("b", 2%Z); ("a", 1%Z)]
  = inr [1%Z; 2%Z].
Proof.
  apply (proj1 (proj2 (proj2 (stack_dict_sorted (fun v : Z => inr v)
                                (fun vs : list Z => inr vs)
                                [("b", 2%Z); ("a", 1%Z)])))).
  repeat constructor; eexists; split; reflexivity.
Defined.

Lemma stack_dict_insertion_order_witness :
  stack_dict (fun v : Z => inr v) (fun vs : list Z => inr vs)
    [("b", 2%Z); ("a", 1%Z)]
  = stack_dict (fun v : Z => inr v) (fun vs : list Z => inr vs)
      [("a", 1%Z); ("b", 2%Z)].
Proof.
  apply (stack_dict_insertion_order (fun v : Z => inr v)
           (fun vs : list Z => inr vs)
           [("b", 2%Z); ("a", 1%Z)] [("a", 1%Z); ("b", 2%Z)]).
  - repeat constructor; simpl; intuition discriminate.
  - repeat constructor; simpl; intuition discriminate.
  - intros k. cbn [PyDict.get].
    destruct (String.eqb_spec "b" k) as [Hb | Hb],
      (String.eqb_spec "a" k) as [Ha | Ha]; try reflexivity.
    subst. discriminate.
Defined.

(** ** Labels of the income data *)

Lemma keys_set_present {V : Type} (d : PyDict.t V) (k : string) (v : V) :
  In k (PyDict.keys d) -> PyDict.keys (PyDict.set d k v) = PyDict.keys d.
Proof.
  induction d as [|[k' v'] d IH]; simpl; [intros []|].
  destruct (String.eqb_spec k' k) as [-> | Hne]; [reflexivity|].
  intros [H | H]; [contradiction|]. simpl. now rewrite IH.
Qed.

Lemma income_label_above (income : Q) :
  (LABEL_THRESHOLD < income)%Q -> income_label income = 1%Q.
Proof.
  intros H. unfold income_label.
  destruct (Qle_bool income LABEL_THRESHOLD) eqn:E; [|reflexivity].
  apply Qle_bool_iff in E. exfalso. exact (Qlt_not_le _ _ H E).
Qed.

Lemma income_label_not_above (income : Q) :
  (income <= LABEL_THRESHOLD)%Q -> income_label income = 0%Q.
Proof.
  intros H. unfold income_label.
  apply Qle_bool_iff in H. now rewrite H.
Qed.

(** X19. When the frame has the income column, [binarize_labels] replaces
    it, in place, by a column of the same length that holds 1 where the
    income is above the threshold of 50000 and 0 where it is not (an
    income of exactly 50000 gives 0); the other columns and the order of
    the columns are unchanged. *)
Theorem binarize_labels_zero_one (acs_df : DataFrame) (incomes : list Q) :
  PyDict.get acs_df LABEL_KEY = Some incomes ->
  exists df labels,
    binarize_labels acs_df = inr df /\
    PyDict.keys df = PyDict.keys acs_df /\
    (forall k, k <> LABEL_KEY -> PyDict.get df k = PyDict.get acs_df k) /\
    PyDict.get df LABEL_KEY = Some labels /\
    length labels = length incomes /\
    Forall (fun l => l = 0%Q \/ l = 1%Q) labels /\
    (forall i income,
       nth_error incomes i = Some income ->
       exists l,
         nth_error labels i = Some l /\
         ((LABEL_THRESHOLD < income)%Q -> l = 1%Q) /\
         ((income <= LABEL_THRESHOLD)%Q -> l = 0%Q)) /\
    income_label LABEL_THRESHOLD = 0%Q.
Proof.
  intros Hget. unfold binarize_labels, PyDict.getitem. rewrite Hget.
  eexists. exists (map income_label incomes).
  split; [reflexivity|]. split; [|split; [|split; [|split; [|split; [|split]]]]].
  - apply keys_set_present. eapply get_In_keys; eauto.
  - intros k Hk. now apply get_set_other.
  - apply get_set_same.
  - apply length_map.
  - apply Forall_forall. intros l Hl. apply in_map_iff in Hl as (x & <- & _).
    unfold income_label. destruct (Qle_bool x LABEL_THRESHOLD); auto.
  - intros i income Hi. exists (income_label income).
    split; [now apply map_nth_error|].
    split; [apply income_label_above | apply income_label_not_above].
  - reflexivity.
Qed.

(** X20. When the frame has the label column, [dataframe_to_dataset]
    yields that column as the labels and, as the features, the frame
    without it: the label is not among the features, every other column
    is there with its values, and the columns keep their order. *)
Theorem dataframe_to_dataset_pops_label (dataframe : DataFrame)
    (labels : list Q) :
  PyDict.get dataframe LABEL_KEY = Some labels ->
  exists features,
    dataframe_to_dataset dataframe = inr (features, labels) /\
    PyDict.contains features LABEL_KEY = false /\
    (forall k, k <> LABEL_KEY ->
               PyDict.get features k = PyDict.get dataframe k) /\
    PyDict.keys features
    = filter (fun k => negb (String.eqb k LABEL_KEY)) (PyDict.keys dataframe).
Proof.
  intros Hget. unfold dataframe_to_dataset. rewrite Hget.
  eexists. split; [reflexivity|].
  pose proof (get_filter_keys (fun k => String.eqb k LABEL_KEY) dataframe)
    as Hf.
  split; [|split].
  - unfold PyDict.contains. rewrite (Hf LABEL_KEY).
    now rewrite String.eqb_refl.
  - intros k Hk. rewrite (Hf k).
    destruct (String.eqb_spec k LABEL_KEY); [contradiction | reflexivity].
  - apply (keys_filter (fun k => negb (String.eqb k LABEL_KEY))).
Qed.

Lemma binarize_labels_zero_one_witness :
  exists df labels,
    binarize_labels [("AGEP", [30; 40]); ("PINCP", [50000; 60000])]%Q
    = inr df /\
    PyDict.keys df
    = PyDict.keys [("AGEP", [30; 40]); ("PINCP", [50000; 60000])]%Q /\
    (forall k, k <> LABEL_KEY ->
               PyDict.get df k
               = PyDict.get
                   [("AGEP", [30; 40]); ("PINCP", [50000; 60000])]%Q k) /\
    PyDict.get df LABEL_KEY = Some labels /\
    length labels = length [50000; 60000]%Q /\
    Forall (fun l => l = 0%Q \/ l = 1%Q) labels /\
    (forall i income,
       nth_error [50000; 60000]%Q i = Some income ->
       exists l,
         nth_error labels i = Some l /\
         ((LABEL_THRESHOLD < income)%Q -> l = 1%Q) /\
         ((income <= LABEL_THRESHOLD)%Q -> l = 0%Q)) /\
    income_label LABEL_THRESHOLD = 0%Q.
Proof.
  apply (binarize_labels_zero_one
           [("AGEP", [30; 40]); ("PINCP", [50000; 60000])]%Q
           [50000; 60000]%Q).
  reflexivity.
Defined.

Lemma dataframe_to_dataset_pops_label_witness :
  exists features,
    dataframe_to_dataset [("AGEP", [30; 40]); ("PINCP", [0; 1])]%Q
    = inr (features, [0; 1]%Q) /\
    PyDict.contains features LABEL_KEY = false /\
    (forall k, k <> LABEL_KEY ->
               PyDict.get features k
               = PyDict.get [("AGEP", [30; 40]); ("PINCP", [0; 1])]%Q k) /\
    PyDict.keys features
    = filter (fun k => negb (String.eqb k LABEL_KEY))
        (PyDict.keys [("AGEP", [30; 40]); ("PINCP", [0; 1])]%Q).
Proof.
  apply (dataframe_to_dataset_pops_label
           [("AGEP", [30; 40]); ("PINCP", [0; 1])]%Q [0; 1]%Q).
  reflexivity.
Defined.

Lemma get_final_metric_value_returns_iff_witness :
  get_final_metric_value
    {| name := "no_rows"; settings := small_batch_settings;
       model := accuracy_model; epochs := [];
       metrics_history := [("accuracy", [])] |} "accuracy"
  = inl (IndexError "single positional indexer is out-of-bounds").
Proof.
  apply (proj2 (get_final_metric_value_returns_iff
                  {| name := "no_rows"; settings := small_batch_settings;
                     model := accuracy_model; epochs := [];
                     metrics_history := [("accuracy", [])] |} "accuracy")).
  reflexivity.
Defined.
